(** * IPTpy: anthropogenic emission processing for the FV dycore

    A shallow embedding of [iptpy.anthro_emission.fv] (the [FV] class of
    [fv.py], the stand-alone [Rename] class of [fv/rename.py] where it
    differs, and the configuration of the stand-alone [Sum] class of
    [fv/sum.py]) together with the properties of its three stages: per-sector
    aggregation ([sum_up]), longitude alignment before regridding
    ([apply_regridder]) and unit conversion / species remapping ([rename]).

    Conventions of the embedding.
    - Python numbers are exact rationals ([Qc]): the formulas are modelled
      in the arithmetic they are written in; binary64 rounding and the
      final [f4] storage are outside the model.  Division by zero raises
      [ZeroDivisionError] as in Python.
    - A gridded array is a total function of its indices (time, lat, lon)
      or (time, altitude, lat, lon); array shapes, and the errors numpy
      raises on non-conforming shapes, are outside the model.
    - The file system is a finite map from path names to datasets; the
      path names are built as the f-strings of the source build them.
    - A raised exception is the left injection of [result]. *)

From stdpp Require Import gmap strings list fin_maps numbers pretty sorting.
From Stdlib Require Import QArith Qcanon Qround.

Local Open Scope Z_scope.

(** ** Exceptions and the error monad *)

Inductive error :=
  | ValueError (msg : string)
  | KeyError (key : string)
  | FileNotFoundError (path : string)
  | IndexError
  | NameError (name : string)
  | ZeroDivisionError.

Definition result (A : Type) : Type := sum error A.

Definition raise {A} (e : error) : result A := inl e.

#[global] Instance result_ret : MRet result := fun A x => inr x.
#[global] Instance result_bind : MBind result :=
  fun A B f m => match m with inl e => inl e | inr x => f x end.
#[global] Instance result_fmap : FMap result :=
  fun A B f m => match m with inl e => inl e | inr x => inr (f x) end.

(** [for x in l: acc = body acc x], stopping at the first exception. *)
Fixpoint for_each {A St} (l : list A) (body : St -> A -> result St) (s : St)
  : result St :=
  match l with
  | [] => mret s
  | x :: l' => s' ← body s x; for_each l' body s'
  end.

(** ** Python primitives *)

Module Py.

(** [a / b] on numbers. *)
Definition div (a b : Qc) : result Qc :=
  if decide (b = 0%Qc) then raise ZeroDivisionError else mret (a / b)%Qc.

(** [d[k]] on a dict. *)
Definition getitem {V} (d : gmap string V) (k : string) : result V :=
  match d !! k with
  | Some v => mret v
  | None => raise (KeyError k)
  end.

(** [l[i]] on a sequence: a negative index counts from the end. *)
Definition index {A} (l : list A) (i : Z) : result A :=
  let n := Z.of_nat (length l) in
  let j := if decide (i < 0) then i + n else i in
  if decide (0 <= j < n) then
    match l !! Z.to_nat j with
    | Some x => mret x
    | None => raise IndexError
    end
  else raise IndexError.

(** [x in l] on a list of strings. *)
Definition contains (x : string) (l : list string) : bool :=
  bool_decide (x ∈ l).

(** [l.remove(x)]: removes the first occurrence; the caller has checked
    [x in l]. *)
Fixpoint remove (x : string) (l : list string) : list string :=
  match l with
  | [] => []
  | y :: l' => if decide (y = x) then l' else y :: remove x l'
  end.

(** [f"{z:02d}"]. *)
Definition fmt_02d (z : Z) : string :=
  if decide (0 <= z < 10) then "0" +:+ pretty z else pretty z.

(** [zip] of four lists. *)
Fixpoint zip4 {A B C D} (a : list A) (b : list B) (c : list C) (d : list D)
  : list (A * B * C * D) :=
  match a, b, c, d with
  | x :: a', y :: b', z :: c', w :: d' => (x, y, z, w) :: zip4 a' b' c' d'
  | _, _, _, _ => []
  end.

(** [np.arange(start, stop, step)] for a positive step:
    [ceil((stop - start) / step)] values [start + i * step]. *)
Definition arange (start stop step : Qc) : list Qc :=
  (fun i : Z => (start + Q2Qc (inject_Z i) * step)%Qc)
    <$> seqZ 0 (Qceiling ((stop - start) / step)%Qc).

(** [np.roll(l, k)] along one axis: element [i] moves to [(i + k) mod n]. *)
Definition roll {A} (k : nat) (l : list A) : list A :=
  let n := length l in
  match n with
  | O => l
  | _ => let d := (n - k mod n)%nat in drop d l ++ take d l
  end.

(** [np.pi], the binary64 constant. *)
Definition pi : Qc := Q2Qc (884279719003555 # 281474976710656).

(** [a <= b] on strings: by code points, a prefix first. *)
Definition str_le (a b : string) : Prop := String.leb a b = true.

#[global] Instance str_le_dec (a b : string) : Decision (str_le a b) :=
  decide (String.leb a b = true).

(** [np.unique(l).tolist()] on strings: the elements of [l], each once,
    in increasing order. *)
Definition unique (l : list string) : list string :=
  merge_sort str_le (remove_dups l).

End Py.

(** ** Species catalog *)

(** An entry of [species_mapping] is one inventory name or a list. *)
Inductive Species :=
  | Single (name : string)
  | Multi (names : list string).

(** [isinstance(species, list)] *)
Definition is_list (s : Species) : bool :=
  match s with Multi _ => true | Single _ => false end.

(** [f"{species}"]: a string stands for itself, a list is printed as
    its [repr]. *)
Definition str_species (s : Species) : string :=
  match s with
  | Single n => n
  | Multi l =>
      "[" +:+ String.concat ", " ((fun n => "'" +:+ n +:+ "'") <$> l) +:+ "]"
  end.

(** The characters of a string, each as a one-character string. *)
Fixpoint chars (s : string) : list string :=
  match s with
  | EmptyString => []
  | String c s' => String c EmptyString :: chars s'
  end.

(** [for sub_var in species]: a list yields its elements, a string its
    characters. *)
Definition iter_species (s : Species) : list string :=
  match s with
  | Multi l => l
  | Single n => chars n
  end.

Definition full_model_var_list : list string :=
  ["bc_a4"; "CO"; "NH3"; "NO"; "pom_a4"; "SO2";
   "C2H6"; "C3H8"; "C2H4"; "C3H6"; "C2H2"; "BIGENE";
   "BENZENE"; "TOLUENE"; "CH2O"; "CH3CHO"; "BIGALK"; "XYLENES";
   "CH3OH"; "C2H5OH"; "CH3COCH3"; "MEK"; "HCOOH";
   "CH3COOH"; "IVOC"].

Definition IVOC_children : list string :=
  ["C3H6"; "C3H8"; "C2H6"; "C2H4"; "BIGENE"; "BIGALK"; "CH3COCH3"; "MEK";
   "CH3CHO"; "CH2O"; "BENZENE"; "TOLUENE"; "XYLENES"].

Definition species_mapping : gmap string Species :=
  list_to_map
    [("bc_a4", Single "bc"); ("CO", Single "co"); ("NH3", Single "nh3");
     ("NO", Single "nox"); ("pom_a4", Single "oc"); ("SO2", Single "so2");
     ("C2H6", Single "ethane"); ("C3H8", Single "propane");
     ("C2H4", Single "ethene"); ("C3H6", Single "propene");
     ("C2H2", Single "ethyne");
     ("BIGENE", Single "other-alkenes-and-alkynes");
     ("BENZENE", Single "benzene"); ("TOLUENE", Single "toluene");
     ("CH2O", Single "methanal"); ("CH3CHO", Single "other-aldehydes");
     ("BIGALK", Multi ["butanes"; "pentanes"; "hexanes"; "esters"; "ethers"]);
     ("XYLENES", Multi ["xylene"; "trimethylbenzene"; "other-aromatics"]);
     ("CH3OH", Single "alcohols"); ("C2H5OH", Single "alcohols");
     ("CH3COCH3", Single "ketones"); ("MEK", Single "ketones");
     ("HCOOH", Single "acids"); ("CH3COOH", Single "acids");
     ("IVOC", Multi IVOC_children)].

Definition qz (z : Z) : Qc := Q2Qc (inject_Z z).

(** The default tables of [FV.rename]. *)
Definition default_mw_mapping : gmap string Qc :=
  list_to_map
    [("bc_a4", qz 12); ("CO", qz 28); ("NH3", qz 17); ("NO", qz 30);
     ("pom_a4", qz 12); ("SO2", qz 64);
     ("C2H6", qz 30); ("C3H8", qz 44); ("C2H4", qz 28); ("C3H6", qz 42);
     ("C2H2", qz 26); ("BIGENE", qz 56);
     ("BENZENE", qz 78); ("TOLUENE", qz 92); ("CH2O", qz 30);
     ("CH3CHO", qz 44); ("BIGALK", qz 72); ("XYLENES", qz 106);
     ("CH3OH", qz 32); ("C2H5OH", qz 46); ("CH3COCH3", qz 58);
     ("MEK", qz 72); ("HCOOH", qz 46);
     ("CH3COOH", qz 60); ("IVOC", qz 184);
     ("butanes", qz 58); ("pentanes", qz 72); ("hexanes", qz 86);
     ("esters", qz 184); ("ethers", qz 81);
     ("xylene", qz 106); ("trimethylbenzene", qz 120);
     ("other-aromatics", qz 126)].

Definition default_sf_mapping : gmap string Qc :=
  list_to_map
    [("bc_a4", qz 1); ("CO", qz 1); ("NH3", qz 1); ("NO", Q2Qc (46 # 30));
     ("pom_a4", Q2Qc 1.4); ("SO2", qz 1);
     ("C2H6", qz 1); ("C3H8", qz 1); ("C2H4", qz 1); ("C3H6", qz 1);
     ("C2H2", qz 1); ("BIGENE", qz 1);
     ("BENZENE", qz 1); ("TOLUENE", qz 1); ("CH2O", qz 1);
     ("CH3CHO", qz 1); ("BIGALK", qz 1); ("XYLENES", qz 1);
     ("CH3OH", Q2Qc 0.15); ("C2H5OH", Q2Qc 0.85); ("CH3COCH3", Q2Qc 0.2);
     ("MEK", Q2Qc 0.8); ("HCOOH", Q2Qc 0.5);
     ("CH3COOH", Q2Qc 0.5); ("IVOC", Q2Qc 0.2)].

(** ** NetCDF datasets and the file system *)

Module Nc.

Definition Field3 : Type := nat -> nat -> nat -> Qc.
Definition Field4 : Type := nat -> nat -> nat -> nat -> Qc.

Inductive Data :=
  | D3 (v : Field3)   (* dimensions (time, lat, lon) *)
  | D4 (v : Field4).  (* dimensions (time, altitude, lat, lon) *)

Record Var := { units : string; data : Data }.

(** The coordinate variables the stages write, and the data variables
    by name.  The [lat] and [lon] coordinate variables of the output
    files are constants of the target grid and are not modelled. *)
Record Dataset := {
  time : list Z;
  date : list Z;
  altitude : list Qc;
  altitude_int : list Qc;
  variables : gmap string Var
}.

(** The value of a variable that was created and never written. *)
Definition fill_value : Qc := Q2Qc 9.969209968386869e36.

Definition zeros3 : Field3 := fun _ _ _ => 0%Qc.
Definition zeros4 : Field4 := fun _ _ _ _ => 0%Qc.

(** [nc.Dataset(file, 'w')] followed by the writes of [time] and [date]. *)
Definition create (time_values date_values : list Z) : Dataset :=
  {| time := time_values; date := date_values;
     altitude := []; altitude_int := []; variables := ∅ |}.

Definition set_altitude (levels levels_int : list Qc) (ds : Dataset)
  : Dataset :=
  {| time := time ds; date := date ds;
     altitude := levels; altitude_int := levels_int;
     variables := variables ds |}.

Definition set_var (name : string) (v : Var) (ds : Dataset) : Dataset :=
  {| time := time ds; date := date ds;
     altitude := altitude ds; altitude_int := altitude_int ds;
     variables := <[name := v]> (variables ds) |}.

(** [createVariable(name, 'f4', (time, lat, lon))] with its units. *)
Definition createVariable3 (name unit : string) (ds : Dataset) : Dataset :=
  set_var name {| units := unit; data := D3 (fun _ _ _ => fill_value) |} ds.

Definition createVariable4 (name unit : string) (ds : Dataset) : Dataset :=
  set_var name {| units := unit; data := D4 (fun _ _ _ _ => fill_value) |} ds.

(** [ds[name]] *)
Definition getvar (ds : Dataset) (name : string) : result Var :=
  Py.getitem (variables ds) name.

(** [ds[name][:, :, :]] as an array of three dimensions. *)
Definition values3 (ds : Dataset) (name : string) : result Field3 :=
  v ← getvar ds name;
  match data v with
  | D3 f => mret f
  | D4 _ => raise (ValueError "too many indices for the variable")
  end.

Definition values4 (ds : Dataset) (name : string) : result Field4 :=
  v ← getvar ds name;
  match data v with
  | D4 f => mret f
  | D3 _ => raise (ValueError "too few indices for the variable")
  end.

(** [ds[name][:, :, :] = f] *)
Definition assign3 (name : string) (f : Field3) (ds : Dataset)
  : result Dataset :=
  v ← getvar ds name;
  mret (set_var name {| units := units v; data := D3 f |} ds).

Definition assign4 (name : string) (f : Field4) (ds : Dataset)
  : result Dataset :=
  v ← getvar ds name;
  mret (set_var name {| units := units v; data := D4 f |} ds).

(** [ds[name][:, :, :] *= k] *)
Definition imul3 (name : string) (k : Qc) (ds : Dataset) : result Dataset :=
  f ← values3 ds name;
  assign3 name (fun t i j => (f t i j * k)%Qc) ds.

Definition imul4 (name : string) (k : Qc) (ds : Dataset) : result Dataset :=
  f ← values4 ds name;
  assign4 name (fun t a i j => (f t a i j * k)%Qc) ds.

(** [ds[name][:, :, :] += g] *)
Definition iadd3 (name : string) (g : Field3) (ds : Dataset)
  : result Dataset :=
  f ← values3 ds name;
  assign3 name (fun t i j => (f t i j + g t i j)%Qc) ds.

(** [ds[name].units = unit] *)
Definition set_units (name unit : string) (ds : Dataset) : result Dataset :=
  v ← getvar ds name;
  mret (set_var name {| units := unit; data := data v |} ds).

End Nc.

(** The file system: datasets by path name. *)
Definition open_dataset (fs : gmap string Nc.Dataset) (path : string)
  : result Nc.Dataset :=
  match fs !! path with
  | Some ds => mret ds
  | None => raise (FileNotFoundError path)
  end.

(** [sh.copy(src, dst)] *)
Definition copy (src dst : string) (fs : gmap string Nc.Dataset)
  : result (gmap string Nc.Dataset) :=
  ds ← open_dataset fs src; mret (<[dst := ds]> fs).

(** [with nc.Dataset(path, 'r+') as ds: body] *)
Definition modify (path : string) (body : Nc.Dataset -> result Nc.Dataset)
  (fs : gmap string Nc.Dataset) : result (gmap string Nc.Dataset) :=
  ds ← open_dataset fs path; ds' ← body ds; mret (<[path := ds']> fs).

(** ** Calendar of the output files *)

Module Cal.

(** A date as (year, month, day). *)
Definition Date : Type := Z * Z * Z.

(** [pd.date_range(start=f'{year}-01-01', periods=periods, freq='MS')] *)
Definition date_range_MS (year periods : Z) : list Date :=
  (fun k => (year + k / 12, k mod 12 + 1, 1)) <$> seqZ 0 periods.

(** [+ pd.DateOffset(days=15)] on the first day of a month. *)
Definition add_days (n : Z) (d : Date) : Date :=
  let '(y, m, dd) := d in (y, m, dd + n).

Definition days_before_month (m : Z) : Z :=
  nth (Z.to_nat (m - 1)) [0; 31; 59; 90; 120; 151; 181; 212; 243; 273; 304; 334] 0.

(** [nc.date2num(d, 'days since 2000-01-01 00:00:00', calendar='noleap')] *)
Definition date2num (d : Date) : Z :=
  let '(y, m, dd) := d in (y - 2000) * 365 + days_before_month m + (dd - 1).

(** [int(d.strftime('%Y%m%d'))] *)
Definition strftime_int (d : Date) : Z :=
  let '(y, m, dd) := d in y * 10000 + m * 100 + dd.

End Cal.

(** ** The blocks shared by [FV.rename] and [Rename.rename]

    The two methods are built from the same blocks of statements; they
    differ in the path names, in the sector groups, in the tables the
    composite blocks read and in the order of the blocks.  The blocks are
    written once, over the two path builders. *)

Module Transform.

Definition var_unit : string := "molecules/cm2/s".
Definition num_var_unit : string := "particles/cm2/s)(molecules/mole)(g/kg)".
Definition avogadro_number : Qc := Q2Qc 6.022e23.
Definition m2_to_cm2 : Qc := Q2Qc 1e4.
Definition kg_to_g : Qc := Q2Qc 1e3.
Definition unit_factor : Qc := (avogadro_number * kg_to_g / m2_to_cm2)%Qc.
Definition _var_name : string := "emiss_anthro".

(** [rho * (np.pi / 6.0) * (diam ** 3)] *)
Definition mass_per_particle (rho diam : Qc) : Qc :=
  (rho * (Py.pi / qz 6) * (diam * diam * diam))%Qc.

Definition vertical_levels : list Qc :=
  Q2Qc <$> [0.025; 0.075; 0.125; 0.175; 0.225; 0.275; 0.325; 0.375]%Q.
Definition vertical_levels_int : list Qc :=
  Q2Qc <$> [0; 0.05; 0.1; 0.15; 0.2; 0.25; 0.3; 0.35; 0.4]%Q.

Section Blocks.

(** [regridded species] is the path of the regridded file of an inventory
    species (or of [species_sector]); [renamed stem] the path of the
    output file with [stem] between [{version}_] and the window. *)
Variables (regridded renamed : string -> string).
Variables (new_time_numeric date_values : list Z).

Abbreviation FS := (gmap string Nc.Dataset).

(** [so2_var[:, :, :] = 0.0] then, for every sector of the group,
    [so2_var[:, :, :] += ds_so2[var_name].values * 0.975 * (unit_factor / mw)]. *)
Definition so2_group (species : string) (mw : Qc) (fs : FS)
  (name : string) (sector : list string) (output : Nc.Dataset)
  : result Nc.Dataset :=
  output ← Nc.assign3 name Nc.zeros3 (Nc.createVariable3 name var_unit output);
  for_each sector (fun output s =>
    ds_so2 ← open_dataset fs (regridded (species +:+ "_" +:+ s));
    v ← Nc.values3 ds_so2 _var_name;
    k ← Py.div unit_factor mw;
    Nc.iadd3 name (fun t i j => (v t i j * Q2Qc 0.975 * k)%Qc) output)
    output.

(** The vertical energy/industry variable.  [layer_values] is bound anew
    in every turn of the loop and read after it. *)
Definition so2_vertical (species : string) (mw : Qc) (fs : FS)
  (ene_ind : list string) (output : Nc.Dataset) : result Nc.Dataset :=
  let output := Nc.set_altitude vertical_levels vertical_levels_int output in
  output ← Nc.assign4 "emiss_ene_ind" Nc.zeros4
             (Nc.createVariable4 "emiss_ene_ind" var_unit output);
  layer_values ← for_each ene_ind (fun (_ : option Nc.Field3) s =>
    ds_so2 ← open_dataset fs (regridded (species +:+ "_" +:+ s));
    v ← Nc.values3 ds_so2 _var_name;
    let layer_values := Nc.zeros3 in
    k ← Py.div unit_factor mw;
    mret (Some (fun t i j =>
      (layer_values t i j + v t i j * Q2Qc 0.025 * k / Q2Qc 2e4)%Qc)))
    None;
  match layer_values with
  | None => raise (NameError "layer_values")
  | Some layer_values =>
      new_var4 ← Nc.values4 output "emiss_ene_ind";
      (* new_var4[:, 3:7, :, :] = layer_values[:, np.newaxis, :, :] *)
      Nc.assign4 "emiss_ene_ind"
        (fun t a i j =>
           if bool_decide (3 <= a < 7)%nat then layer_values t i j
           else new_var4 t a i j)
        output
  end.

(** [input_ds[name].units = num_var_unit], in [FV.rename] only. *)
Definition set_num_units (with_units : bool) (name : string)
  (ds : Nc.Dataset) : result Nc.Dataset :=
  if with_units then Nc.set_units name num_var_unit ds else mret ds.

(** The sulfur dioxide block, after the sector groups are chosen:
    five files are written, three of them copied and rescaled. *)
Definition so2_block (with_units : bool) (species model_var : string)
  (mw : Qc) (ag_sol_was res_tra ene_ind : list string) (fs : FS)
  : result FS :=
  let rho := qz 1770 in
  let mw2 := qz 115 in
  let shp := ["shp"] in
  let SO2_anthro_ag_ship_res_filename := renamed (model_var +:+ "_anthro-ag-ship-res") in
  let SO2_anthro_ene_filename := renamed (model_var +:+ "_anthro-ene") in
  let so4_a1_anthro_ag_ship_filename := renamed "so4_a1_anthro-ag-ship" in
  let so4_a2_anthro_res_filename := renamed "so4_a2_anthro-res" in
  let so4_a1_anthro_ene_vertical_filename := renamed "so4_a1_anthro-ene-vertical" in
  let num_so4_a1_anthro_ag_ship_filename := renamed "num_so4_a1_anthro-ag-ship" in
  let num_so4_a2_anthro_res_filename := renamed "num_so4_a2_anthro-res" in
  let num_so4_a1_anthro_ene_vertical_filename := renamed "num_so4_a1_anthro-ene-vertical" in
  fs ← for_each
    [SO2_anthro_ag_ship_res_filename; SO2_anthro_ene_filename;
     so4_a1_anthro_ag_ship_filename; so4_a2_anthro_res_filename;
     so4_a1_anthro_ene_vertical_filename]
    (fun fs file =>
       let output := Nc.create new_time_numeric date_values in
       let fs := <[file := output]> fs in
       output ←
         (if decide (file = SO2_anthro_ag_ship_res_filename) then
            for_each
              [("emiss_ag_sol_was", ag_sol_was); ("emiss_res_tran", res_tra);
               ("emiss_ship", shp)]
              (fun output p => so2_group species mw fs p.1 p.2 output)
              output
          else mret output);
       output ←
         (if decide (file = SO2_anthro_ene_filename) then
            so2_group species mw fs "emiss_ene_ind" ene_ind output
          else mret output);
       output ←
         (if decide (file = so4_a1_anthro_ag_ship_filename) then
            for_each
              [("emiss_ag_sol_was", ag_sol_was); ("emiss_ship", shp)]
              (fun output p => so2_group species mw fs p.1 p.2 output)
              output
          else mret output);
       output ←
         (if decide (file = so4_a2_anthro_res_filename) then
            so2_group species mw fs "emiss_res_tran" res_tra output
          else mret output);
       output ←
         (if decide (file = so4_a1_anthro_ene_vertical_filename) then
            so2_vertical species mw fs ene_ind output
          else mret output);
       mret (<[file := output]> fs))
    fs;
  fs ← copy so4_a1_anthro_ag_ship_filename num_so4_a1_anthro_ag_ship_filename fs;
  fs ← modify num_so4_a1_anthro_ag_ship_filename (fun input_ds =>
    input_ds ← Nc.imul3 "emiss_ag_sol_was"
                 (mw2 / mass_per_particle rho (Q2Qc 0.134e-6))%Qc input_ds;
    input_ds ← Nc.imul3 "emiss_ship"
                 (mw2 / mass_per_particle rho (Q2Qc 0.261e-6))%Qc input_ds;
    input_ds ← set_num_units with_units "emiss_ag_sol_was" input_ds;
    set_num_units with_units "emiss_ship" input_ds) fs;
  fs ← copy so4_a2_anthro_res_filename num_so4_a2_anthro_res_filename fs;
  fs ← modify num_so4_a2_anthro_res_filename (fun input_ds =>
    input_ds ← Nc.imul3 "emiss_res_tran"
                 (mw2 / mass_per_particle rho (Q2Qc 0.0504e-6))%Qc input_ds;
    set_num_units with_units "emiss_res_tran" input_ds) fs;
  fs ← copy so4_a1_anthro_ene_vertical_filename
         num_so4_a1_anthro_ene_vertical_filename fs;
  modify num_so4_a1_anthro_ene_vertical_filename (fun input_ds =>
    input_ds ← Nc.imul4 "emiss_ene_ind"
                 (mw2 / mass_per_particle rho (Q2Qc 0.261e-6))%Qc input_ds;
    set_num_units with_units "emiss_ene_ind" input_ds) fs.

(** The output file of a model variable: all zero for a list of species,
    else [input_ds[var_name].values * (unit_factor / mw) * sf]. *)
Definition write_output (species : Species) (model_var : string)
  (mw sf : Qc) (fs : FS) : result FS :=
  let output_filename := renamed (model_var +:+ "_anthro") in
  let output :=
    Nc.createVariable3 _var_name var_unit
      (Nc.create new_time_numeric date_values) in
  let fs := <[output_filename := output]> fs in
  output ←
    (if is_list species then Nc.assign3 _var_name Nc.zeros3 output
     else
       input_ds ← open_dataset fs (regridded (str_species species));
       v ← Nc.values3 input_ds _var_name;
       k ← Py.div unit_factor mw;
       Nc.assign3 _var_name (fun t i j => (v t i j * k * sf)%Qc) output);
  mret (<[output_filename := output]> fs).

(** A derived file: [sh.copy(output_filename, derived)] and
    [derived[var_name][:, :, :] *= k]. *)
Definition derive (with_units : bool) (output_filename derived : string)
  (k : Qc) (fs : FS) : result FS :=
  fs ← copy output_filename derived fs;
  modify derived (fun ds =>
    ds ← Nc.imul3 _var_name k ds;
    set_num_units with_units _var_name ds) fs.

(** The block [if model_var == 'bc_a4']. *)
Definition bc_a4_block (with_units : bool) (model_var : string) (mw : Qc)
  (fs : FS) : result FS :=
  let rho := qz 1700 in
  let diam := Q2Qc 0.134e-6 in
  derive with_units (renamed (model_var +:+ "_anthro"))
    (renamed ("num_" +:+ model_var +:+ "_anthro"))
    (mw / mass_per_particle rho diam)%Qc fs.

(** The block [if model_var == 'CO'], with its two yields. *)
Definition CO_block (hcn_yield ch3cn_yield : Qc) (model_var : string)
  (mw : Qc) (fs : FS) : result FS :=
  let hcn_mw := qz 27 in
  fs ← derive false (renamed (model_var +:+ "_anthro")) (renamed "HCN_anthro")
         (hcn_yield * mw / hcn_mw)%Qc fs;
  let ch3cn_mw := qz 41 in
  derive false (renamed (model_var +:+ "_anthro")) (renamed "CH3CN_anthro")
    (ch3cn_yield * mw / ch3cn_mw)%Qc fs.

(** The block [if model_var == 'pom_a4']. *)
Definition pom_a4_block (with_units : bool) (model_var : string) (mw : Qc)
  (fs : FS) : result FS :=
  let rho := qz 1000 in
  let diam := Q2Qc 0.134e-6 in
  fs ← derive with_units (renamed (model_var +:+ "_anthro"))
         (renamed ("num_" +:+ model_var +:+ "_anthro"))
         (mw / mass_per_particle rho diam)%Qc fs;
  let svoc_mv := qz 310 in
  derive false (renamed (model_var +:+ "_anthro")) (renamed "SVOC_anthro")
    (Q2Qc 0.6 * mw / svoc_mv)%Qc fs.

(** The three conditional blocks that follow the output file, in the
    order of both methods. *)
Definition derived_blocks (with_units : bool) (hcn_yield ch3cn_yield : Qc)
  (model_var : string) (mw : Qc) (fs : FS) : result FS :=
  fs ← (if decide (model_var = "bc_a4") then
          bc_a4_block with_units model_var mw fs
        else mret fs);
  fs ← (if decide (model_var = "CO") then
          CO_block hcn_yield ch3cn_yield model_var mw fs
        else mret fs);
  if decide (model_var = "pom_a4") then
    pom_a4_block with_units model_var mw fs
  else mret fs.

(** The loop of the block [if model_var in ['BIGALK', 'XYLENES']], over
    the table the molecular weights of the children are read from. *)
Definition add_children (sub_mw_mapping : gmap string Qc)
  (species : Species) (mw sf : Qc) (fs : FS) (output : Nc.Dataset)
  : result Nc.Dataset :=
  for_each (iter_species species) (fun output sub_var =>
    sub_mw ← Py.getitem sub_mw_mapping sub_var;
    input_ds ← open_dataset fs (regridded sub_var);
    v ← Nc.values3 input_ds _var_name;
    r ← Py.div sub_mw mw;
    k ← Py.div unit_factor sub_mw;
    Nc.iadd3 _var_name (fun t i j => (v t i j * r * k * sf)%Qc) output)
    output.

(** The loop of the block [if model_var == 'IVOC']. *)
Definition add_outputs (sub_mw_mapping : gmap string Qc)
  (species : Species) (mw sf : Qc) (fs : FS) (output : Nc.Dataset)
  : result Nc.Dataset :=
  for_each (iter_species species) (fun output sub_var =>
    sub_mw ← Py.getitem sub_mw_mapping sub_var;
    input_ds ← open_dataset fs (renamed (sub_var +:+ "_anthro"));
    v ← Nc.values3 input_ds _var_name;
    r ← Py.div sub_mw mw;
    Nc.iadd3 _var_name (fun t i j => (v t i j * r * sf)%Qc) output)
    output.

End Blocks.

(** [new_time_values], as ([date], dates): the months of the calendar
    years from [start_year] to [end_year]. *)
Definition new_time_values (source : string) (start_year end_year : Z)
  : result (string * list Cal.Date) :=
  let periods := 12 * (end_year - start_year + 1) in
  if decide (source = "CAMS-GLOB-ANT") then
    mret ("01", Cal.date_range_MS start_year periods)
  else if decide (source = "CEDS") then
    mret ("16", Cal.add_days 15 <$> Cal.date_range_MS start_year periods)
  else raise (NameError "new_time_values").

End Transform.

(** What [datetime.datetime.now()] answers. *)
Record Clock := { now_year : Z; now_strftime : string }.

(** [d[k]] for every [k] of a list. *)
Fixpoint lookup_all {V} (d : gmap string V) (l : list string)
  : result (list V) :=
  match l with
  | [] => mret []
  | k :: l' => v ← Py.getitem d k; vs ← lookup_all d l'; mret (v :: vs)
  end.

(** ** The [FV] class: configuration *)

Module FV.

(** The arguments of [FV.__init__]; [None] is Python's [None]. *)
Record Args := {
  preregrid_path : string;
  regridded_path : string;
  regridder_filename : string;
  source : string;
  version : string;
  start_year : Z;
  end_year : Z;
  start_month : option Z;
  end_month : option Z;
  download_method : option string;
  original_resolution : option string;
  target_resolution : string;
  cdate : option string;
  model_var_list : option (list string)
}.

(** The attributes of [self] that the three stages read. *)
Record t := {
  _preregrid_path : string;
  _regridded_path : string;
  _version : string;
  _source : string;
  _target_resolution : string;
  _model_var_list : list string;
  _species_mapping : list Species;
  _cdate : string;
  _download_method : string;
  _start_year : Z;
  _end_year : Z;
  _start_month : Z;
  _end_month : Z;
  _original_resolution : string;
  _original_lat : list Qc;
  _original_lon : list Qc
}.

(** [self._timestep] and [self._var_name] are set to literals. *)
Definition _timestep : string := "monthly".
Definition _var_name : string := "emiss_anthro".

(** [float(self._original_resolution.split('x')[0])] on the two
    resolutions that pass the validation. *)
Definition grid_spacing (original_resolution : string) : result Qc :=
  if decide (original_resolution = "0.1x0.1") then mret (Q2Qc 0.1)
  else if decide (original_resolution = "0.5x0.5") then mret (Q2Qc 0.5)
  else raise (ValueError "could not convert string to float").

(** The IVOC block of [__init__]: the first occurrence is removed and
    one is appended. *)
Definition move_IVOC_last (l : list string) : list string :=
  if Py.contains "IVOC" l then Py.remove "IVOC" l ++ ["IVOC"] else l.

(** [FV.__init__], in the order of its statements.  The comparison
    [end_year + end_month/12 <= start_year + start_month/12] is written
    multiplied through by 12. *)
Definition init (clock : Clock) (a : Args) : result t :=
  if negb (Py.contains (source a) ["CAMS-GLOB-ANT"; "CEDS"]) then
    raise (ValueError "source must be either CAMS-GLOB-ANT or CEDS")
  else if negb (Py.contains (target_resolution a) ["0.9x1.25"]) then
    raise (ValueError "target_resolution must be 0.9x1.25")
  else
  let mvl := default full_model_var_list (model_var_list a) in
  let invalid_vars :=
    filter (fun var => var ∉ full_model_var_list) mvl in
  if negb (bool_decide (invalid_vars = [])) then
    raise (ValueError "Invalid variables in model_var_list")
  else
  sm ← lookup_all species_mapping mvl;
  let mvl := move_IVOC_last mvl in
  let cdate := default (now_strftime clock) (cdate a) in
  let dm := default "wget" (download_method a) in
  let '(def_version, def_original_resolution, def_first_year, def_last_year) :=
    if decide (source a = "CAMS-GLOB-ANT") then
      (["v5.3"; "v6.2"], "0.1x0.1", 2000, now_year clock - 1)
    else
      (["v2021-04-21"], "0.5x0.5",
       if decide (dm = "wget") then 1950 else 1750, 2019) in
  if negb (Py.contains (version a) def_version) then
    raise (ValueError "version must be one of the source's versions")
  else if negb (bool_decide (original_resolution a = Some def_original_resolution)) then
    raise (ValueError "original_resolution must be the source's resolution")
  else if decide (start_year a > end_year a) then
    raise (ValueError "start_year must be less than or equal to end_year")
  else if decide (start_year a < def_first_year) then
    raise (ValueError "start_year must be greater than or equal to the first year")
  else if decide (end_year a > def_last_year) then
    raise (ValueError "end_year must be less than or equal to the last year")
  else
  let res := default def_original_resolution (original_resolution a) in
  let smon := default 1 (start_month a) in
  let emon := default 12 (end_month a) in
  if decide (12 * end_year a + emon <= 12 * start_year a + smon) then
    raise (ValueError "end_year and end_month must be greater than start_year and start_month")
  else
  spacing ← grid_spacing res;
  mret {| _preregrid_path := preregrid_path a;
          _regridded_path := regridded_path a;
          _version := version a;
          _source := source a;
          _target_resolution := target_resolution a;
          _model_var_list := mvl;
          _species_mapping := sm;
          _cdate := cdate;
          _download_method := dm;
          _start_year := start_year a;
          _end_year := end_year a;
          _start_month := smon;
          _end_month := emon;
          _original_resolution := res;
          _original_lat := Py.arange (qz (-90)) (qz 90) spacing;
          _original_lon := Py.arange (qz 0) (qz 360) spacing |}.

(** ** Aggregation: [FV.sum_up] *)

(** A raw per-sector inventory file: the labels of its time axis and
    its values by (time index, sector, lat, lon). *)
Record SectorDataset := {
  sd_time : list Z;
  sd_sectors : nat;
  sd_values : nat -> nat -> nat -> nat -> Qc
}.

(** An aggregated field: one (time label, lat-lon grid) per time step. *)
Definition TimeSeries : Type := list (Z * (nat -> nat -> Qc)).

Definition period_start_index (self : t) : Z :=
  (_start_year self - 2000) * 12 + _start_month self - 1.

Definition period_end_index (self : t) : Z :=
  (_end_year self - 2000) * 12 + _end_month self - 1.

(** [ds.sel(time=slice(lo, hi))]: selection by label, both ends
    included; each selected label keeps its position in the file. *)
Definition sel_time (ds : SectorDataset) (lo hi : Z) : list (Z * nat) :=
  filter (fun p => lo <= p.1 <= hi)
         (zip (sd_time ds) (seq 0 (length (sd_time ds)))).

(** [.sum(dim='sector')] at one time position. *)
Definition sum_sector (ds : SectorDataset) (p : nat) : nat -> nat -> Qc :=
  fun i j =>
    foldr Qcplus 0%Qc ((fun s => sd_values ds p s i j) <$> seq 0 (sd_sectors ds)).

(** [.sel(sector=k)] at one time position. *)
Definition sel_sector (ds : SectorDataset) (k p : nat) : nat -> nat -> Qc :=
  fun i j => sd_values ds p k i j.

(** The body of [sum_up] for one opened source file: the slice of the
    time axis, then the sum over sectors. *)
Definition sum_up (self : t) (ds_var : SectorDataset) : result TimeSeries :=
  if negb (bool_decide (_source self = "CEDS")) then
    raise (ValueError "source must be CEDS")
  else if negb (bool_decide (_download_method self = "globus")) then
    raise (ValueError "download_method must be globus")
  else
  lo ← Py.index (sd_time ds_var) (period_start_index self);
  hi ← Py.index (sd_time ds_var) (period_end_index self);
  mret ((fun p => (p.1, sum_sector ds_var p.2)) <$> sel_time ds_var lo hi).

(** The per-sector files written for sulfur dioxide: sector [k] of
    [sector_list] is selected, not summed. *)
Definition sum_up_sector (self : t) (ds_var : SectorDataset) (k : nat)
  : result TimeSeries :=
  if negb (bool_decide (_source self = "CEDS")) then
    raise (ValueError "source must be CEDS")
  else if negb (bool_decide (_download_method self = "globus")) then
    raise (ValueError "download_method must be globus")
  else
  lo ← Py.index (sd_time ds_var) (period_start_index self);
  hi ← Py.index (sd_time ds_var) (period_end_index self);
  mret ((fun p => (p.1, sel_sector ds_var k p.2)) <$> sel_time ds_var lo hi).

(** ** Longitude alignment: the block before [regridder(...)] in
    [FV.apply_regridder] *)

(** A field on the source grid with its coordinates. *)
Record GridDataset := {
  gd_lon : list Qc;
  gd_lat : list Qc;
  gd_values : nat -> nat -> nat -> Qc
}.

(** [nlon]: half the number of source longitudes. *)
Definition nlon (self : t) : nat :=
  if decide (_source self = "CAMS-GLOB-ANT") then 1800%nat else 360%nat.

(** [ds.roll(lon=nlon, roll_coords=True)] *)
Definition roll_lon (k : nat) (ds : GridDataset) : GridDataset :=
  let n := length (gd_lon ds) in
  {| gd_lon := Py.roll k (gd_lon ds);
     gd_lat := gd_lat ds;
     gd_values := fun t i j =>
       match n with
       | O => gd_values ds t i j
       | _ => gd_values ds t i ((j + (n - k mod n)) mod n)%nat
       end |}.

(** [ds['lon'] = xr.where(ds['lon'] < 0, ds['lon'] + 360, ds['lon'])] *)
Definition remap_negative_lon (ds : GridDataset) : GridDataset :=
  {| gd_lon := (fun x => if decide (x < 0)%Qc then (x + qz 360)%Qc else x)
                 <$> gd_lon ds;
     gd_lat := gd_lat ds;
     gd_values := gd_values ds |}.

(** [ds.assign_coords(lon=..., lat=...)]: the new labels must be as many
    as the dimension is long. *)
Definition assign_coords (lon lat : list Qc) (ds : GridDataset)
  : result GridDataset :=
  if negb (bool_decide (length lon = length (gd_lon ds))) then
    raise (ValueError "conflicting sizes for dimension 'lon'")
  else if negb (bool_decide (length lat = length (gd_lat ds))) then
    raise (ValueError "conflicting sizes for dimension 'lat'")
  else mret {| gd_lon := lon; gd_lat := lat; gd_values := gd_values ds |}.

(** The three statements applied to every field before the regridder. *)
Definition align_longitude (self : t) (source_ds : GridDataset)
  : result GridDataset :=
  let rolled_source_ds := roll_lon (nlon self) source_ds in
  let rolled_source_ds := remap_negative_lon rolled_source_ds in
  assign_coords (_original_lon self) (_original_lat self) rolled_source_ds.

(** ** Unit conversion and species remapping: [FV.rename] *)

(** [{start_year}{start_month:02d}{date}_{end_year}{end_month:02d}{date}] *)
Definition window_tag (self : t) (date : string) : string :=
  pretty (_start_year self) +:+ Py.fmt_02d (_start_month self) +:+ date
  +:+ "_" +:+
  pretty (_end_year self) +:+ Py.fmt_02d (_end_month self) +:+ date.

(** The regridded file of an inventory species (or species and sector). *)
Definition regridded_filename (self : t) (date species : string) : string :=
  _regridded_path self +:+ _source self +:+ "_" +:+
  _original_resolution self +:+ "_anthro_" +:+ species +:+ "_" +:+
  _version self +:+ "_" +:+ _timestep +:+ "_" +:+ window_tag self date
  +:+ "_" +:+ _target_resolution self +:+ "_c" +:+ _cdate self +:+ ".nc".

(** An output file; [stem] is the part between [{version}_] and the
    window, such as [CO_anthro] or [num_bc_a4_anthro]. *)
Definition renamed_filename (self : t) (renamed_path date stem : string)
  : string :=
  renamed_path +:+ _source self +:+ _version self +:+ "_" +:+ stem +:+
  "_" +:+ window_tag self date +:+ "_" +:+ _target_resolution self +:+
  "_c" +:+ _cdate self +:+ ".nc".

(** The sector groups of the branch [if model_var == 'SO2']. *)
Definition so2_sectors (self : t)
  : result (list string * list string * list string) :=
  if decide (_source self = "CAMS-GLOB-ANT") then
    mret (if decide (_version self = "v5.3") then ["awb"; "swd"]
          else ["awb"; "com"],
          ["res"; "tro"; "tnr"], ["ene"; "ind"; "ref"; "fef"])
  else if decide (_source self = "CEDS") then
    mret (["agr"; "sol"; "was"], ["res"; "tra"], ["ene"; "ind"])
  else raise (NameError "ag_sol_was").

(** One turn of the loop over
    [zip(self._species_mapping, self._model_var_list, mw_list, sf_list)]:
    sulfur dioxide takes its own branch, every other variable has its
    output file written and then passes the five conditional blocks. *)
Definition rename_iter (self : t) (renamed_path : string)
  (_mw_mapping : gmap string Qc) (date : string)
  (new_time_numeric date_values : list Z)
  (fs : gmap string Nc.Dataset) (item : Species * string * Qc * Qc)
  : result (gmap string Nc.Dataset) :=
  let '(species, model_var, mw, sf) := item in
  let regridded := regridded_filename self date in
  let renamed := renamed_filename self renamed_path date in
  if decide (model_var = "SO2") then
    groups ← so2_sectors self;
    let '(ag_sol_was, res_tra, ene_ind) := groups in
    Transform.so2_block regridded renamed new_time_numeric date_values
      true (str_species species) model_var mw ag_sol_was res_tra ene_ind fs
  else
    let output_filename := renamed (model_var +:+ "_anthro") in
    fs ← Transform.write_output regridded renamed new_time_numeric date_values
           species model_var mw sf fs;
    fs ← Transform.derived_blocks renamed true (Q2Qc 0.003) (Q2Qc 0.002)
           model_var mw fs;
    fs ← (if Py.contains model_var ["BIGALK"; "XYLENES"] then
            modify output_filename
              (Transform.add_children regridded _mw_mapping species mw sf fs) fs
          else mret fs);
    if decide (model_var = "IVOC") then
      modify output_filename
        (Transform.add_outputs renamed _mw_mapping species mw sf fs) fs
    else mret fs.

(** [FV.rename(renamed_path, mw_mapping, sf_mapping)] on a file system. *)
Definition rename (self : t) (renamed_path : string)
  (mw_mapping sf_mapping : option (gmap string Qc))
  (fs : gmap string Nc.Dataset) : result (gmap string Nc.Dataset) :=
  let _mw_mapping := default default_mw_mapping mw_mapping in
  let _sf_mapping := default default_sf_mapping sf_mapping in
  mw_list ← lookup_all _mw_mapping (_model_var_list self);
  sf_list ← lookup_all _sf_mapping (_model_var_list self);
  dt ← Transform.new_time_values (_source self) (_start_year self) (_end_year self);
  let '(date, new_time_values) := dt in
  let new_time_numeric := Cal.date2num <$> new_time_values in
  let date_values := Cal.strftime_int <$> new_time_values in
  for_each
    (Py.zip4 (_species_mapping self) (_model_var_list self) mw_list sf_list)
    (rename_iter self renamed_path _mw_mapping date new_time_numeric date_values)
    fs.

(** ** The inventory species of [FV.__init__] *)

(** [sublist if isinstance(sublist, list) else [sublist]] *)
Definition as_list (s : Species) : list string :=
  match s with
  | Multi l => l
  | Single n => [n]
  end.

(** The loop that fills [sel_species_list]: the species of a variable,
    the species of a composite, and for IVOC the species of its
    children, flattened. *)
Definition sel_species_list (model_var_list : list string)
  : result (list string) :=
  for_each model_var_list (fun sel_species_list model_var =>
    species ← Py.getitem species_mapping model_var;
    if negb (is_list species) then
      mret (sel_species_list ++ as_list species)
    else if negb (bool_decide (model_var = "IVOC")) then
      mret (sel_species_list ++ as_list species)
    else
      ivoc ← Py.getitem species_mapping "IVOC";
      mapped_species ← lookup_all species_mapping (iter_species ivoc);
      let flattened_species := concat (as_list <$> mapped_species) in
      mret (sel_species_list ++ flattened_species))
    [].

(** [self._species_list], from the list of variables [__init__] keeps. *)
Definition _species_list (self : t) : result (list string) :=
  sel ← sel_species_list (_model_var_list self);
  mret (Py.unique sel).

(** [sourcedata_var_mapping], by source. *)
Definition sourcedata_var_mapping (source : string)
  : result (gmap string string) :=
  if decide (source = "CAMS-GLOB-ANT") then
    mret (list_to_map
      [("bc", "bc"); ("co", "co"); ("nh3", "nh3"); ("nox", "nox"); ("oc", "oc");
       ("so2", "so2"); ("alcohols", "alcohols"); ("ethane", "ethane");
       ("propane", "propane"); ("butanes", "butanes"); ("pentanes", "pentanes");
       ("hexanes", "hexanes"); ("ethene", "ethene"); ("propene", "propene");
       ("ethyne", "acetylene");
       ("other-alkenes-and-alkynes", "other-alkenes-and-alkynes");
       ("benzene", "benzene"); ("toluene", "toluene"); ("xylene", "xylene");
       ("trimethylbenzene", "trimethylbenzene");
       ("other-aromatics", "other-aromatics"); ("esters", "esters");
       ("ethers", "ethers"); ("methanal", "formaldehyde");
       ("other-aldehydes", "other-aldehydes"); ("ketones", "total-ketones");
       ("acids", "total-acids")])
  else if decide (source = "CEDS") then
    mret (list_to_map
      [("bc", "BC"); ("co", "CO"); ("nh3", "NH3"); ("nox", "NOx"); ("oc", "OC");
       ("so2", "SO2"); ("alcohols", "VOC01-alcohols"); ("ethane", "VOC02-ethane");
       ("propane", "VOC03-propane"); ("butanes", "VOC04-butanes");
       ("pentanes", "VOC05-pentanes"); ("hexanes", "VOC06-hexanes-pl");
       ("ethene", "VOC07-ethene"); ("propene", "VOC08-propene");
       ("ethyne", "VOC09-ethyne");
       ("other-alkenes-and-alkynes", "VOC12-other-alke");
       ("benzene", "VOC13-benzene"); ("toluene", "VOC14-toluene");
       ("xylene", "VOC15-xylene"); ("trimethylbenzene", "VOC16-trimethylb");
       ("other-aromatics", "VOC17-other-arom"); ("esters", "VOC18-esters");
       ("ethers", "VOC19-ethers"); ("methanal", "VOC21-methanal");
       ("other-aldehydes", "VOC22-other-alka"); ("ketones", "VOC23-ketones");
       ("acids", "VOC24-acids")])
  else raise (NameError "sourcedata_var_mapping").

(** [self._sourcedata_var_list] *)
Definition _sourcedata_var_list (self : t) : result (list string) :=
  mapping ← sourcedata_var_mapping (_source self);
  species_list ← _species_list self;
  lookup_all mapping species_list.

(** ** The sectors of sulfur dioxide in [FV.apply_regridder] *)

(** [sector_list] (the keys of [sector_mapping] for CEDS by wget): the
    sectors that are regridded one by one when the species is [so2].
    For CEDS with another download method no branch is taken. *)
Definition sector_list (self : t) : list string :=
  if decide (_source self = "CAMS-GLOB-ANT") then
    if decide (_version self = "v5.3") then
      ["awb"; "ene"; "fef"; "ind"; "ref"; "res"; "shp"; "swd"; "tnr"; "tro"]
    else
      ["awb"; "com"; "ene"; "fef"; "ind"; "ref"; "res"; "shp"; "tnr"; "tro"]
  else if decide (_source self = "CEDS") then
    if decide (_download_method self = "globus") then
      ["agr"; "ene"; "ind"; "tra"; "res"; "sol"; "was"; "shp"]
    else if decide (_download_method self = "wget") then
      ["agr"; "ene"; "ind"; "res"; "shp"; "sol"; "tra"; "was"]
    else []
  else [].

End FV.

(** ** The stand-alone [Rename] class of [fv/rename.py] *)

Module Rename.

Record Args := {
  input_path : string;
  output_path : string;
  start_year : Z;
  end_year : Z;
  source : string;
  version : option string;
  start_month : option Z;
  end_month : option Z;
  original_resolution : option string;
  cdate : option string;
  timestep : string;
  target_resolution : string;
  var_namelist : option (list string);
  (* what [os.path.exists(input_path)] answers *)
  input_path_exists : bool
}.

Record t := {
  _input_path : string;
  _output_path : string;
  _source : string;
  _version : string;
  _original_resolution : string;
  _cdate : string;
  _timestep : string;
  _target_resolution : string;
  _start_year : Z;
  _end_year : Z;
  _start_month : Z;
  _end_month : Z;
  _var_namelist : list string;
  _model_var_list : list Species;
  _mw_list : list Qc;
  _sf_list : list Qc
}.

(** The table [mw_mapping] of [Rename.__init__]. *)
Definition mw_mapping : gmap string Qc :=
  list_to_map
    [("bc_a4", qz 12); ("CO", qz 28); ("NH3", qz 17); ("NO", qz 30);
     ("pom_a4", qz 12); ("SO2", qz 64);
     ("C2H6", qz 30); ("C3H8", qz 44); ("C2H4", qz 28); ("C3H6", qz 40);
     ("C2H2", qz 26); ("BIGENE", qz 56);
     ("BENZENE", qz 78); ("TOLUENE", qz 92); ("CH2O", qz 30);
     ("CH3CHO", qz 44); ("BIGALK", qz 72); ("XYLENES", qz 106);
     ("CH3OH", qz 32); ("C2H5OH", qz 46); ("CH3COCH3", qz 58);
     ("MEK", qz 72); ("HCOOH", qz 46);
     ("CH3COOH", qz 60); ("IVOC", qz 184)].

(** [Rename.__init__], in the order of its statements.  The list of
    variables is kept in the order it is given. *)
Definition init (clock : Clock) (a : Args) : result t :=
  if negb (Py.contains (source a) ["CAMS-GLOB-ANT"; "CEDS"]) then
    raise (ValueError "source must be either CAMS-GLOB-ANT or CEDS")
  else if negb (Py.contains (target_resolution a) ["0.9x1.25"]) then
    raise (ValueError "target_resolution must be 0.9x1.25")
  else if decide (start_year a > end_year a) then
    raise (ValueError "start_year must be less than or equal to end_year")
  else if negb (input_path_exists a) then
    raise (ValueError "input_path does not exist")
  else
  let cdate := default (now_strftime clock) (cdate a) in
  let cams := bool_decide (source a = "CAMS-GLOB-ANT") in
  let version := default (if cams then "v5.3" else "v2021-04-21") (version a) in
  let original_resolution :=
    default (if cams then "0.1x0.1" else "0.5x0.5") (original_resolution a) in
  let '(first_year, last_year) :=
    if cams then (2000, now_year clock - 1) else (1750, 2020) in
  if cams && negb (Py.contains version ["v5.3"]) then
    raise (ValueError "version must be v5.3 for CAMS-GLOB-ANT")
  else if cams && negb (Py.contains original_resolution ["0.1x0.1"]) then
    raise (ValueError "original_resolution must be 0.1x0.1 for CAMS-GLOB-ANT")
  else if negb cams && negb (Py.contains version ["v2021-04-21"]) then
    raise (ValueError "version must be v2021-04-21 for CEDS")
  else if negb cams && negb (Py.contains original_resolution ["0.5x0.5"]) then
    raise (ValueError "original_resolution must be 0.5x0.5 for CEDS")
  else if negb cams && bool_decide (end_year a > 2020) then
    raise (ValueError "end_year must be less than or equal to 2020 for CEDS")
  else
  let smon := default 1 (start_month a) in
  let emon := default 12 (end_month a) in
  if decide (12 * end_year a + emon <= 12 * start_year a + smon) then
    raise (ValueError "end_year and end_month must be greater than start_year and start_month")
  else if decide (start_year a < first_year) then
    raise (ValueError "start_year must be greater than or equal to the first year")
  else if decide (end_year a > last_year) then
    raise (ValueError "end_year must be less than or equal to the last year")
  else
  let vnl := default full_model_var_list (var_namelist a) in
  let invalid_vars :=
    filter (fun var => var ∉ full_model_var_list) vnl in
  if negb (bool_decide (invalid_vars = [])) then
    raise (ValueError "Invalid variables in model_var_list")
  else
  mvl ← lookup_all species_mapping vnl;
  mwl ← lookup_all mw_mapping vnl;
  sfl ← lookup_all default_sf_mapping vnl;
  mret {| _input_path := input_path a;
          _output_path := output_path a;
          _source := source a;
          _version := version;
          _original_resolution := original_resolution;
          _cdate := cdate;
          _timestep := timestep a;
          _target_resolution := target_resolution a;
          _start_year := start_year a;
          _end_year := end_year a;
          _start_month := smon;
          _end_month := emon;
          _var_namelist := vnl;
          _model_var_list := mvl;
          _mw_list := mwl;
          _sf_list := sfl |}.

Definition window_tag (self : t) (date : string) : string :=
  pretty (_start_year self) +:+ Py.fmt_02d (_start_month self) +:+ date
  +:+ "_" +:+
  pretty (_end_year self) +:+ Py.fmt_02d (_end_month self) +:+ date.

(** The regridded input file of an inventory species. *)
Definition input_filename (self : t) (date species : string) : string :=
  _input_path self +:+ _source self +:+ "_" +:+
  _original_resolution self +:+ "_anthro_" +:+ species +:+ "_" +:+
  _version self +:+ "_" +:+ _timestep self +:+ "_" +:+ window_tag self date
  +:+ "_" +:+ _target_resolution self +:+ "_c" +:+ _cdate self +:+ ".nc".

Definition output_filename (self : t) (date stem : string) : string :=
  _output_path self +:+ _source self +:+ _version self +:+ "_" +:+ stem +:+
  "_" +:+ window_tag self date +:+ "_" +:+ _target_resolution self +:+
  "_c" +:+ _cdate self +:+ ".nc".

Definition so2_sectors (self : t)
  : result (list string * list string * list string) :=
  if decide (_source self = "CAMS-GLOB-ANT") then
    mret (["awb"; "fef"; "swd"], ["res"; "tro"; "tnr"], ["ene"; "ind"; "ref"])
  else if decide (_source self = "CEDS") then
    mret (["agr"; "sol"; "was"], ["res"; "tra"], ["ene"; "ind"])
  else raise (NameError "ag_sol_was").

(** The local tables [sub_mw_mapping] of the composite blocks. *)
Definition sub_mw_mapping (varname : string) : result (gmap string Qc) :=
  if decide (varname = "BIGALK") then
    mret (list_to_map
      [("butanes", Q2Qc 57.8); ("pentanes", qz 72); ("hexanes", Q2Qc 106.8);
       ("esters", Q2Qc 104.7); ("ethers", Q2Qc 81.5)])
  else if decide (varname = "XYLENES") then
    mret (list_to_map
      [("xylene", qz 106); ("trimethylbenzene", qz 120);
       ("other-aromatics", Q2Qc 126.8)])
  else raise (NameError "sub_mw_mapping").

Definition IVOC_sub_mw_mapping : gmap string Qc :=
  list_to_map
    [("C3H6", qz 40); ("C3H8", qz 44); ("C2H6", qz 30); ("C2H4", qz 28);
     ("BIGENE", qz 56); ("BIGALK", qz 72); ("CH3COCH3", qz 58); ("MEK", qz 72);
     ("CH3CHO", qz 44); ("CH2O", qz 30); ("BENZENE", qz 78); ("TOLUENE", qz 92);
     ("XYLENES", qz 106)].

(** One turn of the loop over
    [zip(self._var_namelist, self._model_var_list, self._mw_list, self._sf_list)]. *)
Definition rename_iter (self : t) (date : string)
  (new_time_numeric date_values : list Z)
  (fs : gmap string Nc.Dataset) (item : string * Species * Qc * Qc)
  : result (gmap string Nc.Dataset) :=
  let '(varname, model_var, mw, sf) := item in
  let regridded := input_filename self date in
  let renamed := output_filename self date in
  let output_filename := renamed (varname +:+ "_anthro") in
  fs ← Transform.write_output regridded renamed new_time_numeric date_values
         model_var varname mw sf fs;
  fs ← Transform.derived_blocks renamed false (Q2Qc 0.0055) (Q2Qc 0.0025)
         varname mw fs;
  fs ← (if decide (varname = "SO2") then
          groups ← so2_sectors self;
          let '(ag_sol_was, res_tra, ene_ind) := groups in
          Transform.so2_block regridded renamed new_time_numeric date_values
            false (str_species model_var) varname mw ag_sol_was res_tra ene_ind fs
        else mret fs);
  fs ← (if Py.contains varname ["BIGALK"; "XYLENES"] then
          sub_mw ← sub_mw_mapping varname;
          modify output_filename
            (Transform.add_children regridded sub_mw model_var mw sf fs) fs
        else mret fs);
  if decide (varname = "IVOC") then
    modify output_filename
      (Transform.add_outputs renamed IVOC_sub_mw_mapping model_var mw sf fs) fs
  else mret fs.

(** [Rename.rename()] on a file system. *)
Definition rename (self : t) (fs : gmap string Nc.Dataset)
  : result (gmap string Nc.Dataset) :=
  dt ← Transform.new_time_values (_source self) (_start_year self) (_end_year self);
  let '(date, new_time_values) := dt in
  let new_time_numeric := Cal.date2num <$> new_time_values in
  let date_values := Cal.strftime_int <$> new_time_values in
  for_each
    (Py.zip4 (_var_namelist self) (_model_var_list self) (_mw_list self)
             (_sf_list self))
    (rename_iter self date new_time_numeric date_values)
    fs.

End Rename.

(** ** The stand-alone [Sum] class of [fv/sum.py] *)

Module Sum.

(** The arguments of [Sum.__init__]. *)
Record Args := {
  input_path : string;
  output_path : string;
  start_year : Z;
  end_year : Z;
  start_month : option Z;
  end_month : option Z;
  source : string;
  version : string;
  timestep : string;
  original_resolution : string;
  target_resolution : string;
  var_name : string;
  sourcedata_var_list : option (list string);
  model_var_list : option (list string);
  cdate : option string;
  (* what [os.path.exists(input_path)] answers *)
  input_path_exists : bool
}.

Record t := {
  _input_path : string;
  _output_path : string;
  _start_year : Z;
  _end_year : Z;
  _start_month : Z;
  _end_month : Z;
  _source : string;
  _version : string;
  _timestep : string;
  _original_resolution : string;
  _target_resolution : string;
  _var_name : string;
  _sourcedata_var_list : list string;
  _model_var_list : list string;
  _cdate : string
}.

Definition full_sourcedata_var_list : list string :=
  ["BC"; "CO"; "NH3"; "NOx"; "OC"; "SO2";
   "VOC01-alcohols"; "VOC02-ethane"; "VOC03-propane"; "VOC04-butanes";
   "VOC05-pentanes"; "VOC06-hexanes-pl"; "VOC07-ethene"; "VOC08-propene";
   "VOC09-ethyne"; "VOC12-other-alke"; "VOC13-benzene"; "VOC14-toluene";
   "VOC15-xylene"; "VOC16-trimethylb"; "VOC17-other-arom"; "VOC18-esters";
   "VOC19-ethers"; "VOC21-methanal"; "VOC22-other-alka"; "VOC23-ketones";
   "VOC24-acids"].

Definition model_mapping : gmap string string :=
  list_to_map
    [("BC", "bc"); ("CO", "co"); ("NH3", "nh3"); ("NOx", "nox"); ("OC", "oc");
     ("SO2", "so2");
     ("VOC01-alcohols", "alcohols"); ("VOC02-ethane", "ethane");
     ("VOC03-propane", "propane"); ("VOC04-butanes", "butanes");
     ("VOC05-pentanes", "pentanes"); ("VOC06-hexanes-pl", "hexanes");
     ("VOC07-ethene", "ethene"); ("VOC08-propene", "propene");
     ("VOC09-ethyne", "ethyne");
     ("VOC12-other-alke", "other-alkenes-and-alkynes");
     ("VOC13-benzene", "benzene"); ("VOC14-toluene", "toluene");
     ("VOC15-xylene", "xylene"); ("VOC16-trimethylb", "trimethylbenzene");
     ("VOC17-other-arom", "other-aromatics"); ("VOC18-esters", "esters");
     ("VOC19-ethers", "ethers"); ("VOC21-methanal", "methanal");
     ("VOC22-other-alka", "other-aldehydes"); ("VOC23-ketones", "ketones");
     ("VOC24-acids", "acids")].

(** [Sum.__init__], in the order of its statements; the argument
    [model_var_list] is not read. *)
Definition init (clock : Clock) (a : Args) : result t :=
  let sourcedata_var_list :=
    default full_sourcedata_var_list (sourcedata_var_list a) in
  let invalid_vars :=
    filter (fun var => var ∉ full_sourcedata_var_list) sourcedata_var_list in
  if negb (bool_decide (invalid_vars = [])) then
    raise (ValueError "Invalid variables in var_list")
  else
  model_var_list ←
    lookup_all model_mapping
      (filter (fun var => is_Some (model_mapping !! var)) sourcedata_var_list);
  let cdate := default (now_strftime clock) (cdate a) in
  if negb (Py.contains (source a) ["CEDS"]) then
    raise (ValueError "source must be CEDS")
  else if negb (Py.contains (target_resolution a) ["0.9x1.25"]) then
    raise (ValueError "target_resolution must be 0.9x1.25")
  else if negb (Py.contains (version a) ["v2021-04-21"]) then
    raise (ValueError "version must be v2021-04-21 for CEDS")
  else if decide (start_year a > end_year a) then
    raise (ValueError "start_year must be less than or equal to end_year")
  else if decide (start_year a < 1750) then
    raise (ValueError "start_year must be greater than or equal to 1750")
  else if decide (end_year a > 2020) then
    raise (ValueError "end_year must be less than or equal to 2020 for CEDS")
  else
  let smon := default 1 (start_month a) in
  let emon := default 12 (end_month a) in
  if decide (12 * end_year a + emon <= 12 * start_year a + smon) then
    raise (ValueError "end_year and end_month must be greater than start_year and start_month")
  else if negb (input_path_exists a) then
    raise (ValueError "input_path does not exist")
  else
  mret {| _input_path := input_path a;
          _output_path := output_path a;
          _start_year := start_year a;
          _end_year := end_year a;
          _start_month := smon;
          _end_month := emon;
          _source := source a;
          _version := version a;
          _timestep := timestep a;
          _original_resolution := original_resolution a;
          _target_resolution := target_resolution a;
          _var_name := var_name a;
          _sourcedata_var_list := sourcedata_var_list;
          _model_var_list := model_var_list;
          _cdate := cdate |}.

Definition period_start_index (self : t) : Z :=
  (_start_year self - 2000) * 12 + _start_month self - 1.

Definition period_end_index (self : t) : Z :=
  (_end_year self - 2000) * 12 + _end_month self - 1.

(** The body of [Sum.sum_up] for one opened source file: the slice of
    the time axis, then the sum over sectors. *)
Definition sum_up (self : t) (ds_var : FV.SectorDataset) : result FV.TimeSeries :=
  lo ← Py.index (FV.sd_time ds_var) (period_start_index self);
  hi ← Py.index (FV.sd_time ds_var) (period_end_index self);
  mret ((fun p => (p.1, FV.sum_sector ds_var p.2)) <$> FV.sel_time ds_var lo hi).

End Sum.

(** * Vocabulary of the statements and worked inputs

    The predicates the properties are stated with, and the concrete
    configurations and file systems the worked cases run on. *)

Definition example_clock : Clock := {| now_year := 2026; now_strftime := "20261104" |}.

Definition example_args (mvl : option (list string)) (sy sm ey em : Z) : FV.Args := {|
  FV.preregrid_path := "pre/"; FV.regridded_path := "reg/";
  FV.regridder_filename := "weights.nc";
  FV.source := "CEDS"; FV.version := "v2021-04-21";
  FV.start_year := sy; FV.end_year := ey;
  FV.start_month := Some sm; FV.end_month := Some em;
  FV.download_method := Some "globus";
  FV.original_resolution := Some "0.5x0.5";
  FV.target_resolution := "0.9x1.25"; FV.cdate := Some "20250101";
  FV.model_var_list := mvl |}.

Definition example_self (mvl : list string) (sm : list Species) (sy smon ey em : Z) : FV.t := {|
  FV._preregrid_path := "pre/"; FV._regridded_path := "reg/";
  FV._version := "v2021-04-21"; FV._source := "CEDS";
  FV._target_resolution := "0.9x1.25";
  FV._model_var_list := mvl; FV._species_mapping := sm;
  FV._cdate := "20250101"; FV._download_method := "globus";
  FV._start_year := sy; FV._end_year := ey;
  FV._start_month := smon; FV._end_month := em;
  FV._original_resolution := "0.5x0.5";
  FV._original_lat := Py.arange (qz (-90)) (qz 90) (Q2Qc 0.5);
  FV._original_lon := Py.arange (qz 0) (qz 360) (Q2Qc 0.5) |}.

(** A field stored from 180 W eastwards, as the inventories store it. *)
Definition example_source_ds : FV.GridDataset := {|
  FV.gd_lon := (fun i => (qz (-180) + qz i * Q2Qc 0.5)%Qc) <$> seqZ 0 720;
  FV.gd_lat := (fun i => (qz (-90) + qz i * Q2Qc 0.5)%Qc) <$> seqZ 0 360;
  FV.gd_values := fun t i j => qz (Z.of_nat j) |}.

(** The time axis of a CEDS file [..._gn_200001-201912.nc]: 240 months,
    labelled YYYYMM. *)
Definition ceds_time_axis : list Z :=
  (fun k => (2000 + k / 12) * 100 + k mod 12 + 1) <$> seqZ 0 240.

Definition example_raw : FV.SectorDataset := {|
  FV.sd_time := ceds_time_axis;
  FV.sd_sectors := 8;
  FV.sd_values := fun _ _ _ _ => 1%Qc |}.

(** The dataset [ds] holds [f] in its three-dimensional variable [name]. *)
Definition has_field3 (ds : Nc.Dataset) (name : string) (f : Nc.Field3) : Prop :=
  exists u, Nc.variables ds !! name = Some {| Nc.units := u; Nc.data := Nc.D3 f |}.

(** The sum of [g c] over the names [c] of a list. *)
Definition sum_over (l : list string) (g : string -> Qc) : Qc :=
  foldr (fun c a => (g c + a)%Qc) 0%Qc l.

(** Every file of [fs'] is the file of [fs] at the same path, or carries
    the time axis [(T, D)]. *)
Definition step (T D : list Z) (fs fs' : gmap string Nc.Dataset) : Prop :=
  forall p, fs' !! p = fs !! p \/
    exists ds, fs' !! p = Some ds /\ Nc.time ds = T /\ Nc.date ds = D.

(** A regridded file holding the constant field [c]. *)
Definition constant_file (c : Qc) : Nc.Dataset :=
  Nc.set_var "emiss_anthro"
    {| Nc.units := "kg m-2 s-1"; Nc.data := Nc.D3 (fun _ _ _ => c) |}
    (Nc.create [] []).

(** The regridded files of a list of (species, constant value). *)
Definition regridded_files (self : FV.t) (date : string)
  (l : list (string * Qc)) : gmap string Nc.Dataset :=
  list_to_map ((fun p => (FV.regridded_filename self date p.1, constant_file p.2)) <$> l).

Definition renamed_files (self : FV.t) (renamed_path date : string)
  (l : list (string * Qc)) : gmap string Nc.Dataset :=
  list_to_map ((fun p => (FV.renamed_filename self renamed_path date (p.1 +:+ "_anthro"),
                          constant_file p.2)) <$> l).

Definition self_CO : FV.t := example_self ["CO"] [Single "co"] 2010 1 2010 12.

Definition self_SO2 : FV.t := example_self ["SO2"] [Single "so2"] 2010 1 2010 12.

(** The regridded files of sulfur dioxide: the eight CEDS sectors, one
    unit each except industry with two, and a total of nine. *)
Definition so2_files : gmap string Nc.Dataset :=
  regridded_files self_SO2 "16"
    [("so2", qz 9); ("so2_agr", qz 1); ("so2_ene", qz 1); ("so2_ind", qz 2);
     ("so2_tra", qz 1); ("so2_res", qz 1); ("so2_sol", qz 1);
     ("so2_was", qz 1); ("so2_shp", qz 1)].

(** The value of a variable of a file at one index, as a fraction. *)
Definition value3 (fs : gmap string Nc.Dataset) (path var : string)
  (t i j : nat) : option Q :=
  ds ← fs !! path; v ← Nc.variables ds !! var;
  match Nc.data v with Nc.D3 f => Some (this (f t i j)) | Nc.D4 _ => None end.

Definition value4 (fs : gmap string Nc.Dataset) (path var : string)
  (t a i j : nat) : option Q :=
  ds ← fs !! path; v ← Nc.variables ds !! var;
  match Nc.data v with Nc.D4 f => Some (this (f t a i j)) | Nc.D3 _ => None end.

(** The number of paths at which [fs'] holds a file and [fs] none. *)
Definition new_files (fs fs' : gmap string Nc.Dataset) : nat :=
  size (dom fs' ∖ dom fs).

(** Whether every path of a list holds a file. *)
Definition all_exist (fs : gmap string Nc.Dataset) (paths : list string) : bool :=
  forallb (fun p => bool_decide (is_Some (fs !! p))) paths.

(** The constant fields of a list of (name, value), by name. *)
Definition constant_fields (l : list (string * Qc)) (c : string) : Nc.Field3 :=
  fun _ _ _ => default 0%Qc ((list_to_map l : gmap string Qc) !! c).

(** The entries of a table, by name. *)
Definition entries (d : gmap string Qc) (c : string) : Qc :=
  default 0%Qc (d !! c).

Definition self_XYLENES : FV.t :=
  example_self ["XYLENES"] [Multi ["xylene"; "trimethylbenzene"; "other-aromatics"]]
    2010 1 2010 12.

Definition xylenes_children : list (string * Qc) :=
  [("xylene", qz 1); ("trimethylbenzene", qz 2); ("other-aromatics", qz 3)].


Definition self_IVOC : FV.t :=
  example_self ["IVOC"] [Multi IVOC_children] 2010 1 2010 12.

(** The output files of the thirteen children of IVOC, already written;
    no regridded file is present. *)
Definition ivoc_children_outputs : list (string * Qc) :=
  [("C3H6", qz 1); ("C3H8", qz 2); ("C2H6", qz 3); ("C2H4", qz 4);
   ("BIGENE", qz 5); ("BIGALK", qz 6); ("CH3COCH3", qz 7); ("MEK", qz 8);
   ("CH3CHO", qz 9); ("CH2O", qz 10); ("BENZENE", qz 11); ("TOLUENE", qz 12);
   ("XYLENES", qz 13)].

Definition rename_args (vnl : list string) : Rename.Args := {|
  Rename.input_path := "reg/"; Rename.output_path := "out/";
  Rename.start_year := 2010; Rename.end_year := 2010;
  Rename.source := "CEDS"; Rename.version := None;
  Rename.start_month := None; Rename.end_month := None;
  Rename.original_resolution := None; Rename.cdate := Some "20250101";
  Rename.timestep := "monthly"; Rename.target_resolution := "0.9x1.25";
  Rename.var_namelist := Some vnl; Rename.input_path_exists := true |}.

(** The regridded file of propene, the species of C3H6, with no output
    file written yet. *)
Definition propene_only : gmap string Nc.Dataset :=
  {[ "reg/CEDS_0.5x0.5_anthro_propene_v2021-04-21_monthly_20100116_20101216_0.9x1.25_c20250101.nc"
     := constant_file (qz 1) ]}.

(** The months of the calendar years from [start_year] to [end_year], on
    day [day] of each month. *)
Definition calendar_months (start_year end_year day : Z) : list Cal.Date :=
  (fun k => (start_year + k / 12, k mod 12 + 1, day))
    <$> seqZ 0 (12 * (end_year - start_year + 1)).

(** The day of the month the time values of a source are anchored at. *)
Definition anchor_day (source : string) : Z :=
  if decide (source = "CAMS-GLOB-ANT") then 1 else 16.

(** [ds'] has the time axis of [ds]. *)
Definition same_axis (ds ds' : Nc.Dataset) : Prop :=
  Nc.time ds' = Nc.time ds /\ Nc.date ds' = Nc.date ds.

(** The file at [p], if there is one, carries the time axis [(T, D)]. *)
Definition good_at (T D : list Z) (p : string)
  (fs : gmap string Nc.Dataset) : Prop :=
  forall ds, fs !! p = Some ds -> Nc.time ds = T /\ Nc.date ds = D.

Definition self_window : FV.t := example_self ["CO"] [Single "co"] 2010 6 2011 5.

(** The twelve months of the window June 2010 to May 2011, on day 16. *)
Definition window_months : list Cal.Date :=
  (fun k => (2010 + (k + 5) / 12, (k + 5) mod 12 + 1, 16)) <$> seqZ 0 12.

(** A regridded file of CO for that window: its time axis has the twelve
    months of the window, and the value of every cell at a time step is
    the date of that step, so that a value tells the month it is of. *)
Definition window_file : Nc.Dataset :=
  Nc.set_var "emiss_anthro"
    {| Nc.units := "kg m-2 s-1";
       Nc.data := Nc.D3 (fun t _ _ =>
         qz (nth t (Cal.strftime_int <$> window_months) 0)) |}
    (Nc.create (Cal.date2num <$> window_months)
               (Cal.strftime_int <$> window_months)).

Definition window_files : gmap string Nc.Dataset :=
  {[ FV.regridded_filename self_window "16" "co" := window_file ]}.

(** The field a sector group adds up to: zero plus, for every sector of
    the group, its regridded field times [0.975 * (unit_factor / mw)]. *)
Definition so2_sum (mw : Qc) (F : string -> Nc.Field3) (sector : list string)
  : Nc.Field3 :=
  fun t i j =>
    (0 + sum_over sector (fun s =>
           F s t i j * Q2Qc 0.975 * (Transform.unit_factor / mw)))%Qc.

(** The file at [path] is on the time axis [(T, D)] and its variable
    [name], of three dimensions, has the units [u] and the values [g]. *)
Definition file_has3 (fs : gmap string Nc.Dataset) (T D : list Z)
  (path name u : string) (g : Nc.Field3) : Prop :=
  exists ds g',
    fs !! path = Some ds /\ Nc.time ds = T /\ Nc.date ds = D /\
    Nc.variables ds !! name = Some {| Nc.units := u; Nc.data := Nc.D3 g' |} /\
    forall t i j, g' t i j = g t i j.


(** The inventory species behind a model variable: its own species, the
    species of a composite, and for IVOC the species of its children. *)
Definition inventory_species (model_var : string) : list string :=
  match species_mapping !! model_var with
  | Some (Single n) => [n]
  | Some (Multi l) =>
      if decide (model_var = "IVOC") then
        concat ((fun c => from_option FV.as_list [] (species_mapping !! c)) <$> l)
      else l
  | None => []
  end.

(** The files [fs] and [fs'] hold differ at paths of [P] only. *)
Definition only_at (P : string -> Prop) (fs fs' : gmap string Nc.Dataset) : Prop :=
  forall p, ~ P p -> fs' !! p = fs !! p.

(** The stems of the files that the turn of [FV.rename] for a variable
    writes. *)
Definition output_stems (model_var : string) : list string :=
  if decide (model_var = "SO2") then
    [model_var +:+ "_anthro-ag-ship-res"; model_var +:+ "_anthro-ene";
     "so4_a1_anthro-ag-ship"; "so4_a2_anthro-res"; "so4_a1_anthro-ene-vertical";
     "num_so4_a1_anthro-ag-ship"; "num_so4_a2_anthro-res";
     "num_so4_a1_anthro-ene-vertical"]
  else
    [model_var +:+ "_anthro"]
    ++ (if decide (model_var = "bc_a4")
        then ["num_" +:+ model_var +:+ "_anthro"] else [])
    ++ (if decide (model_var = "CO") then ["HCN_anthro"; "CH3CN_anthro"] else [])
    ++ (if decide (model_var = "pom_a4")
        then ["num_" +:+ model_var +:+ "_anthro"; "SVOC_anthro"] else []).

(** The date string of the file names of a source. *)
Definition anchor_date (source : string) : string :=
  if decide (source = "CAMS-GLOB-ANT") then "01" else "16".

(** The values of the sector files of [so2_files], by sector. *)
Definition so2_sector_values : list (string * Qc) :=
  [("agr", qz 1); ("ene", qz 1); ("ind", qz 2); ("tra", qz 1);
   ("res", qz 1); ("sol", qz 1); ("was", qz 1); ("shp", qz 1)].

(** A configuration of the stand-alone class, as [Rename.__init__]
    leaves it for CEDS and the year 2010. *)
Definition example_rename_self (vnl : list string) (mvl : list Species)
  (mwl sfl : list Qc) : Rename.t := {|
  Rename._input_path := "reg/"; Rename._output_path := "out/";
  Rename._source := "CEDS"; Rename._version := "v2021-04-21";
  Rename._original_resolution := "0.5x0.5"; Rename._cdate := "20250101";
  Rename._timestep := "monthly"; Rename._target_resolution := "0.9x1.25";
  Rename._start_year := 2010; Rename._end_year := 2010;
  Rename._start_month := 1; Rename._end_month := 12;
  Rename._var_namelist := vnl; Rename._model_var_list := mvl;
  Rename._mw_list := mwl; Rename._sf_list := sfl |}.

(** A field that is already stored from 0 eastwards. *)
Definition example_source_0_360 : FV.GridDataset := {|
  FV.gd_lon := Py.arange (qz 0) (qz 360) (Q2Qc 0.5);
  FV.gd_lat := Py.arange (qz (-90)) (qz 90) (Q2Qc 0.5);
  FV.gd_values := fun t i j => qz (Z.of_nat j) |}.

(** A request to [Sum] for carbon monoxide and the years from
    [sy] to [ey]. *)
Definition example_sum_args (sy ey : Z) : Sum.Args := {|
  Sum.input_path := "raw/"; Sum.output_path := "pre/";
  Sum.start_year := sy; Sum.end_year := ey;
  Sum.start_month := None; Sum.end_month := None;
  Sum.source := "CEDS"; Sum.version := "v2021-04-21";
  Sum.timestep := "monthly"; Sum.original_resolution := "0.5x0.5";
  Sum.target_resolution := "0.9x1.25"; Sum.var_name := "emiss_anthro";
  Sum.sourcedata_var_list := Some ["CO"];
  Sum.model_var_list := Some ["anything"];
  Sum.cdate := Some "20250101"; Sum.input_path_exists := true |}.

Definition example_sum_self (sy ey : Z) : Sum.t := {|
  Sum._input_path := "raw/"; Sum._output_path := "pre/";
  Sum._start_year := sy; Sum._end_year := ey;
  Sum._start_month := 1; Sum._end_month := 12;
  Sum._source := "CEDS"; Sum._version := "v2021-04-21";
  Sum._timestep := "monthly"; Sum._original_resolution := "0.5x0.5";
  Sum._target_resolution := "0.9x1.25"; Sum._var_name := "emiss_anthro";
  Sum._sourcedata_var_list := ["CO"]; Sum._model_var_list := ["co"];
  Sum._cdate := "20250101" |}.

(** * Properties *)

(** ** Rationals and [np.arange] *)

Lemma qz_lt (i j : Z) : i < j -> (qz i < qz j)%Qc.
Proof.
  intros H. unfold qz, Qclt. simpl. rewrite !Qred_correct.
  by rewrite <- Zlt_Qlt.
Qed.

Lemma qz_le (i j : Z) : i <= j -> (qz i <= qz j)%Qc.
Proof.
  intros H. unfold qz, Qcle. simpl. rewrite !Qred_correct.
  by rewrite <- Zle_Qle.
Qed.

Lemma qz_lt_ceiling (i : Z) (q : Qc) : i < Qceiling q -> (qz i < q)%Qc.
Proof.
  intros H. unfold qz, Qclt. simpl. rewrite Qred_correct.
  eapply Qle_lt_trans; [|apply Qceiling_lt].
  rewrite <- Zle_Qle. lia.
Qed.

Lemma arange_lookup (start stop step : Qc) (k : nat) (x : Qc) :
  Py.arange start stop step !! k = Some x ->
  x = (start + qz (Z.of_nat k) * step)%Qc /\
  Z.of_nat k < Qceiling ((stop - start) / step)%Qc.
Proof.
  unfold Py.arange. rewrite list_lookup_fmap, fmap_Some.
  intros (i & Hi & ->).
  apply lookup_seqZ in Hi as [-> Hk]. split; [|exact Hk].
  by rewrite Z.add_0_l.
Qed.

Lemma arange_bounds (start stop step : Qc) :
  (0 < step)%Qc ->
  Forall (fun x => (start <= x)%Qc /\ (x < stop)%Qc) (Py.arange start stop step).
Proof.
  intros Hstep. apply Forall_lookup. intros k x Hx.
  apply arange_lookup in Hx as [-> Hk]. split.
  - rewrite <- (Qcplus_0_r start) at 1.
    apply Qcplus_le_mono_l.
    apply Qcmult_nonneg_nonneg; [|by apply Qclt_le_weak].
    apply (qz_le 0). lia.
  - apply qz_lt_ceiling in Hk.
    apply (Qcmult_lt_mono_pos_r _ _ step Hstep) in Hk.
    unfold Qcdiv in Hk. rewrite <- Qcmult_assoc, Qcmult_inv_l, Qcmult_1_r in Hk.
    2:{ intros ->. by apply Qclt_not_eq in Hstep. }
    apply (Qcplus_lt_mono_l _ _ start) in Hk.
    by replace (start + (stop - start))%Qc with stop in Hk by ring.
Qed.

Lemma arange_increasing (start stop step : Qc) :
  (0 < step)%Qc -> StronglySorted Qclt (Py.arange start stop step).
Proof.
  intros Hstep. unfold Py.arange.
  generalize (Qceiling ((stop - start) / step)%Qc). intros n.
  assert (H : forall (len : nat) (m : Z),
    StronglySorted Qclt ((fun i : Z => (start + Q2Qc (inject_Z i) * step)%Qc) <$> seqZ m (Z.of_nat len))).
  { induction len as [|len IH]; intros m.
    - constructor.
    - rewrite Nat2Z.inj_succ, seqZ_cons by lia. simpl.
      replace (Z.pred (Z.succ (Z.of_nat len))) with (Z.of_nat len) by lia.
      constructor; [apply IH|].
      apply Forall_fmap, Forall_forall. intros i Hi. simpl.
      apply elem_of_seqZ in Hi.
      apply Qcplus_lt_mono_l, Qcmult_lt_mono_pos_r; [done|].
      apply qz_lt. lia. }
  destruct (decide (0 <= n)) as [Hn|Hn].
  - rewrite <- (Z2Nat.id n Hn). apply H.
  - rewrite seqZ_nil by lia. constructor.
Qed.

(** ** Inversion of the error monad *)

Lemma bind_inr {A B} (m : result A) (f : A -> result B) (y : B) :
  m ≫= f = inr y -> exists x, m = inr x /\ f x = inr y.
Proof. destruct m as [e|x]; [done|]. intros H. by exists x. Qed.

Ltac inv_result H :=
  repeat match type of H with
  | inl _ = inr _ => discriminate H
  | raise _ = inr _ => discriminate H
  | inr _ = inr _ => injection H as H
  | mret _ = inr _ => injection H as H
  | (if ?b then _ else _) = inr _ => destruct b eqn:?
  | (_ ≫= _) = inr _ =>
      let x := fresh "x" in let Hx := fresh "Hx" in
      apply bind_inr in H as (x & Hx & H)
  | (let '(_, _) := ?p in _) = inr _ => destruct p eqn:?
  end.

Lemma length_roll {A} (k : nat) (l : list A) : length (Py.roll k l) = length l.
Proof.
  unfold Py.roll. destruct (length l) eqn:Hn; [done|].
  rewrite length_app, length_drop, length_take. lia.
Qed.

Lemma init_original_grid clk a self :
  FV.init clk a = inr self ->
  exists spacing,
    FV.grid_spacing (FV._original_resolution self) = inr spacing /\
    (0 < spacing)%Qc /\
    FV._original_lon self = Py.arange (qz 0) (qz 360) spacing /\
    FV._original_lat self = Py.arange (qz (-90)) (qz 90) spacing.
Proof.
  unfold FV.init. intros H. inv_result H. subst self. simpl.
  exists x0. split; [done|]. split; [|done].
  unfold FV.grid_spacing in Hx0. inv_result Hx0; by subst.
Qed.

(** ** Longitude alignment

    C7: for a configuration accepted by [FV.__init__] and a field with as
    many longitudes and latitudes as the source grid, the roll, the
    remapping of negative longitudes and the reassignment of coordinates
    succeed, and the longitude coordinate of the result is
    [np.arange(0, 360, grid_spacing)]: every value lies in [0, 360) and
    the sequence is strictly increasing. *)
Theorem align_longitude_canonical clk a self (ds : FV.GridDataset) :
  FV.init clk a = inr self ->
  length (FV.gd_lon ds) = length (FV._original_lon self) ->
  length (FV.gd_lat ds) = length (FV._original_lat self) ->
  exists spacing ds',
    FV.grid_spacing (FV._original_resolution self) = inr spacing /\
    FV.align_longitude self ds = inr ds' /\
    FV.gd_lon ds' = Py.arange (qz 0) (qz 360) spacing /\
    Forall (fun x => (qz 0 <= x)%Qc /\ (x < qz 360)%Qc) (FV.gd_lon ds') /\
    StronglySorted Qclt (FV.gd_lon ds').
Proof.
  intros Hinit Hlon Hlat.
  destruct (init_original_grid _ _ _ Hinit)
    as (spacing & Hsp & Hpos & Holon & Holat).
  exists spacing.
  unfold FV.align_longitude, FV.assign_coords. simpl.
  rewrite length_fmap, length_roll, Hlon, Hlat.
  rewrite !bool_decide_eq_true_2 by done. simpl.
  eexists. split; [done|]. split; [reflexivity|]. simpl.
  rewrite Holon. split; [done|]. split.
  - by apply arange_bounds.
  - by apply arange_increasing.
Qed.

Lemma example_init_CO :
  FV.init example_clock (example_args (Some ["CO"]) 2010 1 2010 12)
  = inr (example_self ["CO"] [Single "co"] 2010 1 2010 12).
Proof. reflexivity. Qed.

Lemma align_longitude_canonical_witness :
  exists spacing ds',
    FV.grid_spacing "0.5x0.5" = inr spacing /\
    FV.align_longitude (example_self ["CO"] [Single "co"] 2010 1 2010 12)
      example_source_ds = inr ds' /\
    FV.gd_lon ds' = Py.arange (qz 0) (qz 360) spacing /\
    Forall (fun x => (qz 0 <= x)%Qc /\ (x < qz 360)%Qc) (FV.gd_lon ds') /\
    StronglySorted Qclt (FV.gd_lon ds').
Proof.
  apply (align_longitude_canonical example_clock
           (example_args (Some ["CO"]) 2010 1 2010 12)
           (example_self ["CO"] [Single "co"] 2010 1 2010 12)
           example_source_ds).
  - reflexivity.
  - vm_compute. reflexivity.
  - vm_compute. reflexivity.
Defined.

(** ** Time slices *)

Lemma filter_all {A} (P : A -> Prop) `{!forall x, Decision (P x)} (l : list A) :
  Forall P l -> filter P l = l.
Proof.
  induction 1 as [|x l Hx _ IH]; [done|].
  by rewrite filter_cons_True, IH.
Qed.

Lemma filter_none {A} (P : A -> Prop) `{!forall x, Decision (P x)} (l : list A) :
  Forall (fun x => ~ P x) l -> filter P l = [].
Proof.
  induction 1 as [|x l Hx _ IH]; [done|].
  by rewrite filter_cons_False.
Qed.




Lemma StronglySorted_drop {A} (R : A -> A -> Prop) (n : nat) (l : list A) :
  StronglySorted R l -> StronglySorted R (drop n l).
Proof.
  intros Hs. revert n. induction Hs as [|x l Hs IH Hall]; intros [|n]; simpl;
    [constructor|constructor|by constructor|apply IH].
Qed.


Lemma index_nonneg {A} (l : list A) (i : Z) :
  0 <= i < Z.of_nat (length l) ->
  exists x, Py.index l i = inr x /\ l !! Z.to_nat i = Some x.
Proof.
  intros Hi. unfold Py.index. cbv zeta.
  destruct (decide (i < 0)) as [?|_]; [lia|].
  destruct (decide (0 <= i < Z.of_nat (length l))) as [_|?]; [|lia].
  destruct (lookup_lt_is_Some_2 l (Z.to_nat i)) as [x Hx]; [lia|].
  exists x. by rewrite Hx.
Qed.


Lemma ceds_time_axis_sorted : StronglySorted Z.lt ceds_time_axis.
Proof. apply (bool_decide_unpack _). vm_compute. exact I. Qed.


(** The two windows of the specification: 12 time steps each. *)
Example sum_up_2010_full_year :
  (fun ts => ts.*1) <$> FV.sum_up (example_self ["CO"] [Single "co"] 2010 1 2010 12) example_raw
  = inr [201001; 201002; 201003; 201004; 201005; 201006;
         201007; 201008; 201009; 201010; 201011; 201012].
Proof. vm_compute. reflexivity. Qed.

Example sum_up_2010_06_2011_05 :
  (fun ts => ts.*1) <$> FV.sum_up (example_self ["CO"] [Single "co"] 2010 6 2011 5) example_raw
  = inr [201006; 201007; 201008; 201009; 201010; 201011;
         201012; 201101; 201102; 201103; 201104; 201105].
Proof. vm_compute. reflexivity. Qed.


(** ** Path names *)

Lemma string_app_nil_l (u : string) : "" +:+ u = u.
Proof. reflexivity. Qed.

Lemma string_app_cons (c : Ascii.ascii) (a u : string) :
  String c a +:+ u = String c (a +:+ u).
Proof. reflexivity. Qed.

Ltac str_simpl := rewrite ?string_app_cons, ?string_app_nil_l in *.

Lemma string_app_length (a b : string) :
  String.length (a +:+ b) = (String.length a + String.length b)%nat.
Proof.
  induction a as [|c a IH]; str_simpl; simpl; [done|by rewrite IH].
Qed.

Lemma string_app_inj_2 (a b u v : string) :
  String.length u = String.length v ->
  a +:+ u = b +:+ v -> a = b /\ u = v.
Proof.
  revert b. induction a as [|c a IH]; intros [|d b] Hlen H; str_simpl.
  - done.
  - subst u. simpl in Hlen. rewrite string_app_length in Hlen. lia.
  - subst v. simpl in Hlen. rewrite string_app_length in Hlen. lia.
  - injection H as -> H. destruct (IH b Hlen H) as [-> ->]. done.
Qed.

Lemma string_app_assoc (a b c : string) : (a +:+ b) +:+ c = a +:+ (b +:+ c).
Proof. induction a as [|x a IH]; str_simpl; [done|by rewrite IH]. Qed.

Lemma renamed_filename_inj self rp date :
  Inj (=) (=) (FV.renamed_filename self rp date).
Proof.
  intros s1 s2 H. unfold FV.renamed_filename in H.
  do 4 apply (inj (String.app _)) in H.
  apply string_app_inj_2 in H as [H _]; done.
Qed.

Lemma regridded_ne_renamed self rp date species x :
  FV.regridded_filename self date species
  <> FV.renamed_filename self rp date (x +:+ "_anthro").
Proof.
  unfold FV.regridded_filename, FV.renamed_filename, FV._timestep. intros H.
  rewrite (string_app_assoc x) in H.
  rewrite <- !(string_app_assoc _ _ ("monthly" +:+ _)) in H.
  rewrite <- !(string_app_assoc _ _ ("_anthro" +:+ _)) in H.
  apply string_app_inj_2 in H as [_ H].
  - str_simpl. discriminate H.
  - str_simpl. simpl. done.
Qed.

(** ** The blocks of the transform stage *)

Lemma values3_has ds name f :
  has_field3 ds name f -> Nc.values3 ds name = inr f.
Proof.
  intros [u Hu]. unfold Nc.values3, Nc.getvar, Py.getitem. by rewrite Hu.
Qed.

Lemma assign3_has ds name v f :
  Nc.variables ds !! name = Some v ->
  exists ds', Nc.assign3 name f ds = inr ds' /\ has_field3 ds' name f /\
    Nc.time ds' = Nc.time ds /\ Nc.date ds' = Nc.date ds.
Proof.
  intros Hv. unfold Nc.assign3, Nc.getvar, Py.getitem. rewrite Hv. simpl.
  eexists. split; [done|]. split; [|done].
  exists (Nc.units v). simpl. by rewrite lookup_insert_eq.
Qed.

Lemma imul3_has ds name f k :
  has_field3 ds name f ->
  exists ds', Nc.imul3 name k ds = inr ds' /\
    has_field3 ds' name (fun t i j => (f t i j * k)%Qc) /\
    Nc.time ds' = Nc.time ds /\ Nc.date ds' = Nc.date ds.
Proof.
  intros Hf. unfold Nc.imul3. rewrite (values3_has _ _ _ Hf). simpl.
  destruct Hf as [u Hu]. by eapply assign3_has.
Qed.

Lemma iadd3_has ds name f g :
  has_field3 ds name f ->
  exists ds', Nc.iadd3 name g ds = inr ds' /\
    has_field3 ds' name (fun t i j => (f t i j + g t i j)%Qc) /\
    Nc.time ds' = Nc.time ds /\ Nc.date ds' = Nc.date ds.
Proof.
  intros Hf. unfold Nc.iadd3. rewrite (values3_has _ _ _ Hf). simpl.
  destruct Hf as [u Hu]. by eapply assign3_has.
Qed.

Lemma set_num_units_has wu ds name f :
  has_field3 ds name f ->
  exists ds', Transform.set_num_units wu name ds = inr ds' /\
    has_field3 ds' name f /\
    Nc.time ds' = Nc.time ds /\ Nc.date ds' = Nc.date ds.
Proof.
  intros [u Hu]. destruct wu; simpl.
  - unfold Nc.set_units, Nc.getvar, Py.getitem. rewrite Hu. simpl.
    eexists. split; [done|]. split; [|done].
    eexists. simpl. by rewrite lookup_insert_eq.
  - exists ds. split; [done|]. split; [by exists u|done].
Qed.

Lemma div_ne0 (a b : Qc) : b <> 0%Qc -> Py.div a b = inr (a / b)%Qc.
Proof. intros Hb. unfold Py.div. by rewrite decide_False. Qed.

Section Blocks.

Variables (regridded renamed : string -> string).
Variables (T D : list Z).

Lemma derive_spec wu src dst k (fs : gmap string Nc.Dataset) ds f :
  fs !! src = Some ds ->
  has_field3 ds Transform._var_name f ->
  exists fs' ds',
    Transform.derive wu src dst k fs = inr fs' /\
    fs' !! dst = Some ds' /\
    has_field3 ds' Transform._var_name (fun t i j => (f t i j * k)%Qc) /\
    Nc.time ds' = Nc.time ds /\ Nc.date ds' = Nc.date ds /\
    forall p, p <> dst -> fs' !! p = fs !! p.
Proof.
  intros Hsrc Hf.
  unfold Transform.derive, copy, modify, open_dataset. rewrite Hsrc. simpl.
  rewrite lookup_insert_eq. simpl.
  destruct (imul3_has ds _ f k Hf) as (ds1 & -> & Hf1 & Ht1 & Hd1). simpl.
  destruct (set_num_units_has wu ds1 _ _ Hf1) as (ds2 & -> & Hf2 & Ht2 & Hd2).
  simpl. eexists _, ds2. split; [done|].
  rewrite lookup_insert_eq. split; [done|]. split; [done|].
  split; [congruence|]. split; [congruence|].
  intros p Hp. by rewrite !lookup_insert_ne.
Qed.

Lemma step_refl fs : step T D fs fs.
Proof. intros p. by left. Qed.

Lemma step_trans fs1 fs2 fs3 : step T D fs1 fs2 -> step T D fs2 fs3 -> step T D fs1 fs3.
Proof.
  intros H12 H23 p. destruct (H23 p) as [E|?]; [|by right].
  rewrite E. apply H12.
Qed.

Lemma step_insert fs p ds :
  Nc.time ds = T -> Nc.date ds = D -> step T D fs (<[p := ds]> fs).
Proof.
  intros Ht Hd q. destruct (decide (p = q)) as [->|Hne].
  - right. exists ds. by rewrite lookup_insert_eq.
  - left. by rewrite lookup_insert_ne.
Qed.

Hypothesis renamed_inj : Inj (=) (=) renamed.

(** A derived file leaves the output file it is copied from in place. *)
Lemma derive_keeps wu src_stem dst_stem k (fs : gmap string Nc.Dataset)
  output f :
  src_stem <> dst_stem ->
  fs !! renamed src_stem = Some output ->
  has_field3 output Transform._var_name f ->
  Nc.time output = T -> Nc.date output = D ->
  exists fs',
    Transform.derive wu (renamed src_stem) (renamed dst_stem) k fs = inr fs' /\
    fs' !! renamed src_stem = Some output /\
    step T D fs fs'.
Proof.
  intros Hne Hsrc Hf Ht Hd.
  destruct (derive_spec wu _ (renamed dst_stem) k fs output f Hsrc Hf)
    as (fs' & ds' & E & Hdst & _ & Ht' & Hd' & Hrest).
  exists fs'. split; [done|]. split.
  - rewrite Hrest; [done|]. intros E'. by apply renamed_inj in E'.
  - intros p. destruct (decide (p = renamed dst_stem)) as [->|Hp].
    + right. exists ds'. split; [done|]. split; congruence.
    + left. by apply Hrest.
Qed.

Lemma bc_a4_block_keeps wu mw (fs : gmap string Nc.Dataset) output f :
  fs !! renamed ("bc_a4" +:+ "_anthro") = Some output ->
  has_field3 output Transform._var_name f ->
  Nc.time output = T -> Nc.date output = D ->
  exists fs',
    Transform.bc_a4_block renamed wu "bc_a4" mw fs = inr fs' /\
    fs' !! renamed ("bc_a4" +:+ "_anthro") = Some output /\
    step T D fs fs'.
Proof.
  intros. unfold Transform.bc_a4_block. by eapply derive_keeps.
Qed.

Lemma CO_block_keeps y1 y2 mw (fs : gmap string Nc.Dataset) output f :
  fs !! renamed ("CO" +:+ "_anthro") = Some output ->
  has_field3 output Transform._var_name f ->
  Nc.time output = T -> Nc.date output = D ->
  exists fs',
    Transform.CO_block renamed y1 y2 "CO" mw fs = inr fs' /\
    fs' !! renamed ("CO" +:+ "_anthro") = Some output /\
    step T D fs fs'.
Proof.
  intros Hout Hf Ht Hd. unfold Transform.CO_block.
  edestruct (derive_keeps false ("CO" +:+ "_anthro") "HCN_anthro")
    as (fs1 & -> & Hout1 & Hs1); [done..|].
  cbn [mbind result_bind].
  edestruct (derive_keeps false ("CO" +:+ "_anthro") "CH3CN_anthro")
    as (fs2 & -> & Hout2 & Hs2); [done..|].
  exists fs2. split; [done|]. split; [done|]. by eapply step_trans.
Qed.

Lemma pom_a4_block_keeps wu mw (fs : gmap string Nc.Dataset) output f :
  fs !! renamed ("pom_a4" +:+ "_anthro") = Some output ->
  has_field3 output Transform._var_name f ->
  Nc.time output = T -> Nc.date output = D ->
  exists fs',
    Transform.pom_a4_block renamed wu "pom_a4" mw fs = inr fs' /\
    fs' !! renamed ("pom_a4" +:+ "_anthro") = Some output /\
    step T D fs fs'.
Proof.
  intros Hout Hf Ht Hd. unfold Transform.pom_a4_block.
  edestruct (derive_keeps wu ("pom_a4" +:+ "_anthro") ("num_" +:+ "pom_a4" +:+ "_anthro"))
    as (fs1 & -> & Hout1 & Hs1); [done..|].
  cbn [mbind result_bind].
  edestruct (derive_keeps false ("pom_a4" +:+ "_anthro") "SVOC_anthro")
    as (fs2 & -> & Hout2 & Hs2); [done..|].
  exists fs2. split; [done|]. split; [done|]. by eapply step_trans.
Qed.

Lemma step_of_rest (fs fs' : gmap string Nc.Dataset) q ds :
  fs' !! q = Some ds -> Nc.time ds = T -> Nc.date ds = D ->
  (forall p, p <> q -> fs' !! p = fs !! p) -> step T D fs fs'.
Proof.
  intros Hq Ht Hd Hrest p. destruct (decide (p = q)) as [->|Hp].
  - right. by exists ds.
  - left. by apply Hrest.
Qed.

Lemma derived_blocks_keep wu y1 y2 model_var mw
  (fs : gmap string Nc.Dataset) output f :
  fs !! renamed (model_var +:+ "_anthro") = Some output ->
  has_field3 output Transform._var_name f ->
  Nc.time output = T -> Nc.date output = D ->
  exists fs',
    Transform.derived_blocks renamed wu y1 y2 model_var mw fs = inr fs' /\
    fs' !! renamed (model_var +:+ "_anthro") = Some output /\
    step T D fs fs'.
Proof.
  intros Hout Hf Ht Hd. unfold Transform.derived_blocks.
  assert (exists fs1,
    (if decide (model_var = "bc_a4")
     then Transform.bc_a4_block renamed wu model_var mw fs else mret fs)
      = inr fs1 /\
    fs1 !! renamed (model_var +:+ "_anthro") = Some output /\ step T D fs fs1)
    as (fs1 & -> & Hout1 & Hs1).
  { destruct (decide (model_var = "bc_a4")) as [->|_].
    - by eapply bc_a4_block_keeps.
    - exists fs. split; [done|]. split; [done|apply step_refl]. }
  cbn [mbind result_bind].
  assert (exists fs2,
    (if decide (model_var = "CO")
     then Transform.CO_block renamed y1 y2 model_var mw fs1 else mret fs1)
      = inr fs2 /\
    fs2 !! renamed (model_var +:+ "_anthro") = Some output /\ step T D fs1 fs2)
    as (fs2 & -> & Hout2 & Hs2).
  { destruct (decide (model_var = "CO")) as [->|_].
    - by eapply CO_block_keeps.
    - exists fs1. split; [done|]. split; [done|apply step_refl]. }
  cbn [mbind result_bind].
  destruct (decide (model_var = "pom_a4")) as [->|_].
  - edestruct pom_a4_block_keeps as (fs3 & -> & Hout3 & Hs3); [done..|].
    exists fs3. split; [done|]. split; [done|].
    eapply step_trans; [|exact Hs3]. by eapply step_trans.
  - exists fs2. split; [done|]. split; [done|]. by eapply step_trans.
Qed.

Hypothesis regridded_ne :
  forall species x, regridded species <> renamed (x +:+ "_anthro").

Lemma write_output_single s model_var mw sf (fs : gmap string Nc.Dataset)
  input_ds inp :
  fs !! regridded s = Some input_ds ->
  has_field3 input_ds Transform._var_name inp ->
  mw <> 0%Qc ->
  exists fs' output,
    Transform.write_output regridded renamed T D (Single s) model_var mw sf fs
      = inr fs' /\
    fs' !! renamed (model_var +:+ "_anthro") = Some output /\
    has_field3 output Transform._var_name
      (fun t i j => (inp t i j * (Transform.unit_factor / mw) * sf)%Qc) /\
    Nc.time output = T /\ Nc.date output = D /\
    forall p, p <> renamed (model_var +:+ "_anthro") -> fs' !! p = fs !! p.
Proof.
  intros Hin Hinp Hmw. unfold Transform.write_output. simpl.
  unfold open_dataset. rewrite lookup_insert_ne by (by apply not_eq_sym).
  rewrite Hin. simpl. rewrite (values3_has _ _ _ Hinp). simpl.
  rewrite (div_ne0 _ _ Hmw). simpl.
  edestruct (assign3_has) as (out & -> & Hout & Ht & Hd).
  { unfold Nc.createVariable3. simpl. apply lookup_insert_eq. }
  simpl. eexists _, out. split; [done|].
  rewrite lookup_insert_eq. split; [done|]. split; [exact Hout|].
  split; [by rewrite Ht|]. split; [by rewrite Hd|].
  intros p Hp. by rewrite !lookup_insert_ne.
Qed.

Lemma write_output_multi l model_var mw sf (fs : gmap string Nc.Dataset) :
  exists fs' output,
    Transform.write_output regridded renamed T D (Multi l) model_var mw sf fs
      = inr fs' /\
    fs' !! renamed (model_var +:+ "_anthro") = Some output /\
    has_field3 output Transform._var_name Nc.zeros3 /\
    Nc.time output = T /\ Nc.date output = D /\
    forall p, p <> renamed (model_var +:+ "_anthro") -> fs' !! p = fs !! p.
Proof.
  unfold Transform.write_output. simpl.
  edestruct (assign3_has) as (out & -> & Hout & Ht & Hd).
  { unfold Nc.createVariable3. simpl. apply lookup_insert_eq. }
  simpl. eexists _, out. split; [done|].
  rewrite lookup_insert_eq. split; [done|]. split; [exact Hout|].
  split; [by rewrite Ht|]. split; [by rewrite Hd|].
  intros p Hp. by rewrite !lookup_insert_ne.
Qed.


Lemma add_outputs_spec sub_mw_mapping children mw sf
  (fs : gmap string Nc.Dataset) (child_mw : string -> Qc)
  (child_out : string -> Nc.Field3) :
  mw <> 0%Qc ->
  (forall c, c ∈ children ->
     sub_mw_mapping !! c = Some (child_mw c) /\
     exists ds, fs !! renamed (c +:+ "_anthro") = Some ds /\
       has_field3 ds Transform._var_name (child_out c)) ->
  forall output acc,
  has_field3 output Transform._var_name acc ->
  exists output' out,
    Transform.add_outputs renamed sub_mw_mapping (Multi children) mw sf fs
      output = inr output' /\
    has_field3 output' Transform._var_name out /\
    Nc.time output' = Nc.time output /\ Nc.date output' = Nc.date output /\
    forall t i j,
      out t i j =
      (acc t i j + sum_over children (fun c =>
         child_out c t i j * (child_mw c / mw) * sf))%Qc.
Proof.
  intros Hmw. unfold Transform.add_outputs. simpl.
  induction children as [|c children IH]; intros Hch output acc Hacc.
  - exists output, acc. simpl. repeat (split; [done|]).
    intros t i j. by rewrite Qcplus_0_r.
  - destruct (Hch c) as (Hc & ds & Hds & Hf); [by left|].
    simpl. unfold Py.getitem, open_dataset. rewrite Hc, Hds. simpl.
    rewrite (values3_has _ _ _ Hf). simpl.
    rewrite (div_ne0 _ _ Hmw). simpl.
    edestruct (iadd3_has output) as (output1 & -> & Hf1 & Ht1 & Hd1); [exact Hacc|].
    simpl.
    edestruct (IH) as (output' & out & E & Hout & Ht & Hd & Hval); [|exact Hf1|].
    { intros c' Hc'. apply Hch. by right. }
    exists output', out. split; [exact E|]. split; [done|].
    split; [congruence|]. split; [congruence|].
    intros t i j. rewrite Hval. simpl. ring.
Qed.

End Blocks.

Lemma unit_factor_value :
  Transform.unit_factor = Q2Qc (6.022e23 * 1e3 / 1e4).
Proof. apply Qc_is_canon. reflexivity. Qed.

Lemma single_not_composite mv s :
  species_mapping !! mv = Some (Single s) ->
  Py.contains mv ["BIGALK"; "XYLENES"] = false /\ mv <> "IVOC".
Proof.
  intros H. split.
  - unfold Py.contains. apply bool_decide_eq_false. intros Hin.
    repeat (apply elem_of_cons in Hin as [->|Hin]; [by vm_compute in H|]).
    by apply elem_of_nil in Hin.
  - intros ->. by vm_compute in H.
Qed.

(** C1 (as amended): for every model species other than SO2 whose inventory
    mapping is a single name [s], with a molecular weight [mw] that is not
    zero and a scale factor [sf], the turn of the loop of [FV.rename] that
    receives the species with its own inventory name succeeds and writes
    the file [{model_var}_anthro], on the new time axis, whose field
    [emiss_anthro] is pointwise the regridded input field multiplied by
    [(6.022e23 * 1e3 / 1e4) / mw * sf]. *)
Theorem rename_single_species (self : FV.t) (renamed_path : string)
  (mw_mapping : gmap string Qc) (date : string) (T D : list Z)
  (fs : gmap string Nc.Dataset) (model_var s : string) (mw sf : Qc)
  (input_ds : Nc.Dataset) (inp : Nc.Field3) :
  species_mapping !! model_var = Some (Single s) ->
  model_var <> "SO2" ->
  fs !! FV.regridded_filename self date s = Some input_ds ->
  has_field3 input_ds "emiss_anthro" inp ->
  mw <> 0%Qc ->
  exists fs' output out,
    FV.rename_iter self renamed_path mw_mapping date T D fs
      (Single s, model_var, mw, sf) = inr fs' /\
    fs' !! FV.renamed_filename self renamed_path date (model_var +:+ "_anthro")
      = Some output /\
    Nc.time output = T /\ Nc.date output = D /\
    has_field3 output "emiss_anthro" out /\
    forall t i j,
      out t i j = (inp t i j * (Q2Qc (6.022e23 * 1e3 / 1e4) / mw) * sf)%Qc.
Proof.
  intros Hsp Hso2 Hin Hinp Hmw.
  destruct (single_not_composite _ _ Hsp) as [Hcomp Hivoc].
  unfold FV.rename_iter. rewrite decide_False by done.
  destruct (write_output_single (FV.regridded_filename self date)
              (FV.renamed_filename self renamed_path date) T D
              (regridded_ne_renamed self renamed_path date)
              s model_var mw sf fs input_ds inp Hin Hinp Hmw)
    as (fs1 & output & -> & Hout & Hf & Ht & Hd & _).
  cbn [mbind result_bind].
  destruct (derived_blocks_keep (FV.renamed_filename self renamed_path date)
              T D (renamed_filename_inj self renamed_path date)
              true (Q2Qc 0.003) (Q2Qc 0.002) model_var mw fs1 output _
              Hout Hf Ht Hd)
    as (fs2 & -> & Hout2 & _).
  cbn [mbind result_bind]. rewrite Hcomp. cbn [mbind result_bind mret result_ret].
  rewrite decide_False by done.
  eexists fs2, output, _. split; [done|]. split; [done|].
  split; [done|]. split; [done|]. split; [exact Hf|].
  intros t i j. by rewrite unit_factor_value.
Qed.

(** ** Composite species *)






(** C3: for the second-tier composite IVOC, each child's contribution is
    read from the output file [{child}_anthro] that was written under
    [renamed_path] (the hypotheses say nothing of regridded files), and
    the field written to [IVOC_anthro] is the all-zero base field plus the
    sum over the children of [child_output * (child_mw / mw) * sf], with
    no further unit factor. *)
Theorem rename_IVOC_from_outputs (self : FV.t) (renamed_path : string)
  (mw_mapping : gmap string Qc) (date : string) (T D : list Z)
  (fs : gmap string Nc.Dataset) (mw sf : Qc)
  (child_mw : string -> Qc) (child_out : string -> Nc.Field3) :
  mw <> 0%Qc ->
  (forall c, c ∈ IVOC_children ->
     mw_mapping !! c = Some (child_mw c) /\
     exists ds,
       fs !! FV.renamed_filename self renamed_path date (c +:+ "_anthro")
         = Some ds /\
       has_field3 ds "emiss_anthro" (child_out c)) ->
  exists fs' output out,
    species_mapping !! "IVOC" = Some (Multi IVOC_children) /\
    FV.rename_iter self renamed_path mw_mapping date T D fs
      (Multi IVOC_children, "IVOC", mw, sf) = inr fs' /\
    fs' !! FV.renamed_filename self renamed_path date ("IVOC" +:+ "_anthro")
      = Some output /\
    has_field3 output "emiss_anthro" out /\
    forall t i j,
      out t i j =
      (0 + sum_over IVOC_children (fun c =>
         child_out c t i j * (child_mw c / mw) * sf))%Qc.
Proof.
  intros Hmw Hch.
  unfold FV.rename_iter. rewrite decide_False by done.
  destruct (write_output_multi (FV.regridded_filename self date)
              (FV.renamed_filename self renamed_path date) T D
              IVOC_children "IVOC" mw sf fs)
    as (fs1 & output & -> & Hout & Hf & Ht & Hd & Hrest).
  cbn [mbind result_bind].
  change (Transform.derived_blocks _ _ _ _ "IVOC" mw fs1) with (inr fs1 : result _).
  cbn [mbind result_bind].
  change (Py.contains "IVOC" ["BIGALK"; "XYLENES"]) with false.
  cbn [mbind result_bind mret result_ret].
  rewrite decide_True by done.
  unfold modify, open_dataset. rewrite Hout.
  cbn [mbind result_bind mret result_ret].
  destruct (add_outputs_spec (FV.renamed_filename self renamed_path date)
              mw_mapping IVOC_children mw sf fs1 child_mw child_out Hmw)
    with (output := output) (acc := Nc.zeros3)
    as (output' & out & -> & Hf' & Ht' & Hd' & Hval); [|exact Hf|].
  { intros c Hc'. destruct (Hch c Hc') as (? & ds & Hds & ?).
    split; [done|]. exists ds. split; [|done].
    rewrite Hrest; [done|]. intros E.
    apply renamed_filename_inj in E.
    apply string_app_inj_2 in E as [-> _]; [|done].
    revert Hc'. clear. unfold IVOC_children. intros Hc'.
    repeat (apply elem_of_cons in Hc' as [Hc'|Hc']; [discriminate Hc'|]).
    by apply elem_of_nil in Hc'. }
  cbn [mbind result_bind mret result_ret].
  eexists _, output', out. split; [reflexivity|]. split; [done|].
  rewrite lookup_insert_eq. split; [done|]. split; [exact Hf'|exact Hval].
Qed.

(** ** Worked inputs *)

Ltac qc_ne0 :=
  let H := fresh in
  intros H; apply (f_equal this) in H; vm_compute in H; discriminate H.

Lemma rename_single_species_witness :
  exists fs' output out,
    FV.rename_iter self_CO "out/" default_mw_mapping "16" [3665] [20100116]
      (regridded_files self_CO "16" [("co", qz 2)])
      (Single "co", "CO", qz 28, qz 1) = inr fs' /\
    fs' !! FV.renamed_filename self_CO "out/" "16" ("CO" +:+ "_anthro")
      = Some output /\
    Nc.time output = [3665] /\ Nc.date output = [20100116] /\
    has_field3 output "emiss_anthro" out /\
    forall t i j,
      out t i j = (qz 2 * (Q2Qc (6.022e23 * 1e3 / 1e4) / qz 28) * qz 1)%Qc.
Proof.
  apply (rename_single_species self_CO "out/" default_mw_mapping "16"
           [3665] [20100116] (regridded_files self_CO "16" [("co", qz 2)])
           "CO" "co" (qz 28) (qz 1) (constant_file (qz 2)) (fun _ _ _ => qz 2)).
  - (vm_compute; reflexivity).
  - discriminate.
  - (vm_compute; reflexivity).
  - (eexists; vm_compute; reflexivity).
  - qc_ne0.
Defined.

Lemma eval_result {A B} (m : result A) (f : A -> B) (y : B) :
  f <$> m = inr y -> exists x, m = inr x /\ f x = y.
Proof.
  destruct m as [e|x]; [done|]. intros [= <-]. by exists x.
Qed.

(** SO2 maps to the single inventory name [so2], yet its turn of the loop
    of [FV.rename] writes no file [SO2_anthro]: the eight files it adds
    are the sector-category files, whose fields are sums of sector fields
    scaled by [0.975 * unit_factor / mw]. *)
Lemma rename_SO2_has_no_converted_field :
  species_mapping !! "SO2" = Some (Single "so2") /\
  exists fs',
    FV.rename_iter self_SO2 "out/" default_mw_mapping "16" [3665] [20100116]
      so2_files (Single "so2", "SO2", qz 64, qz 1) = inr fs' /\
    (bool_decide (is_Some
       (fs' !! FV.renamed_filename self_SO2 "out/" "16" ("SO2" +:+ "_anthro"))),
     new_files so2_files fs',
     all_exist fs' (FV.renamed_filename self_SO2 "out/" "16" <$>
       ["SO2_anthro-ag-ship-res"; "SO2_anthro-ene"; "so4_a1_anthro-ag-ship";
        "so4_a2_anthro-res"; "so4_a1_anthro-ene-vertical";
        "num_so4_a1_anthro-ag-ship"; "num_so4_a2_anthro-res";
        "num_so4_a1_anthro-ene-vertical"]),
     value3 fs' (FV.renamed_filename self_SO2 "out/" "16" "SO2_anthro-ag-ship-res")
       "emiss_ag_sol_was" 0 0 0,
     value3 fs' (FV.renamed_filename self_SO2 "out/" "16" "SO2_anthro-ag-ship-res")
       "emiss_res_tran" 0 0 0,
     value3 fs' (FV.renamed_filename self_SO2 "out/" "16" "SO2_anthro-ag-ship-res")
       "emiss_ship" 0 0 0,
     value3 fs' (FV.renamed_filename self_SO2 "out/" "16" "SO2_anthro-ene")
       "emiss_ene_ind" 0 0 0)
    = (false, 8%nat, true,
       Some (this (qz 3 * Q2Qc 0.975 * (Transform.unit_factor / qz 64))%Qc),
       Some (this (qz 2 * Q2Qc 0.975 * (Transform.unit_factor / qz 64))%Qc),
       Some (this (qz 1 * Q2Qc 0.975 * (Transform.unit_factor / qz 64))%Qc),
       Some (this (qz 3 * Q2Qc 0.975 * (Transform.unit_factor / qz 64))%Qc)).
Proof.
  split; [reflexivity|].
  apply (eval_result _ (fun fs' => (_, _, _, _, _, _, _))).
  vm_compute. reflexivity.
Qed.

Ltac each_child Hc tac :=
  repeat (apply elem_of_cons in Hc as [->|Hc]; [tac|]);
  by apply elem_of_nil in Hc.


Example xylenes_value :
  (fun fs' => value3 fs'
     (FV.renamed_filename self_XYLENES "out/" "16" ("XYLENES" +:+ "_anthro"))
     "emiss_anthro" 0 0 0)
  <$> FV.rename_iter self_XYLENES "out/" default_mw_mapping "16" [3665] [20100116]
        (regridded_files self_XYLENES "16" xylenes_children)
        (Multi ["xylene"; "trimethylbenzene"; "other-aromatics"], "XYLENES",
         qz 106, qz 1)
  = inr (Some (this (Transform.unit_factor / qz 106 * qz 6)%Qc)).
Proof. vm_compute. reflexivity. Qed.


Lemma rename_IVOC_from_outputs_witness :
  exists fs' output out,
    species_mapping !! "IVOC" = Some (Multi IVOC_children) /\
    FV.rename_iter self_IVOC "out/" default_mw_mapping "16" [3665] [20100116]
      (renamed_files self_IVOC "out/" "16" ivoc_children_outputs)
      (Multi IVOC_children, "IVOC", qz 184, Q2Qc 0.2) = inr fs' /\
    fs' !! FV.renamed_filename self_IVOC "out/" "16" ("IVOC" +:+ "_anthro")
      = Some output /\
    has_field3 output "emiss_anthro" out /\
    forall t i j,
      out t i j =
      (0 + sum_over IVOC_children (fun c =>
         constant_fields ivoc_children_outputs c t i j
         * (entries default_mw_mapping c / qz 184) * Q2Qc 0.2))%Qc.
Proof.
  apply (rename_IVOC_from_outputs self_IVOC "out/" default_mw_mapping "16"
           [3665] [20100116]
           (renamed_files self_IVOC "out/" "16" ivoc_children_outputs)
           (qz 184) (Q2Qc 0.2) (entries default_mw_mapping)
           (constant_fields ivoc_children_outputs)).
  - qc_ne0.
  - intros c Hc. unfold IVOC_children in Hc.
    each_child Hc ltac:(
      split; [vm_compute; reflexivity|];
      eexists; split; [vm_compute; reflexivity|];
      eexists; vm_compute; reflexivity).
Defined.

(** ** The vertical energy/industry variable *)





(** C4: the claim is that layers 3 to 6 of [emiss_ene_ind] hold the sum
    over the sectors of the energy/industry group, and every other layer
    zero.  On CEDS sector files holding 1 for energy and 2 for industry,
    the eight layers of the variable written by [FV.rename] are zero
    outside layers 3 to 6, and inside them hold the scaled industry field
    alone, [2 * 0.025 * (unit_factor / 64) / 2e4], which is not the scaled
    sum [(1 + 2) * 0.025 * (unit_factor / 64) / 2e4]. *)
Lemma so2_vertical_holds_last_sector_only :
  exists fs',
    FV.rename_iter self_SO2 "out/" default_mw_mapping "16" [3665] [20100116]
      so2_files (Single "so2", "SO2", qz 64, qz 1) = inr fs' /\
    (* the two sectors of the group hold 1 (energy) and 2 (industry) *)
    (value3 so2_files (FV.regridded_filename self_SO2 "16" "so2_ene")
       "emiss_anthro" 0 0 0,
     value3 so2_files (FV.regridded_filename self_SO2 "16" "so2_ind")
       "emiss_anthro" 0 0 0,
    (* the eight layers of the variable *)
     (fun a => value4 fs'
        (FV.renamed_filename self_SO2 "out/" "16" "so4_a1_anthro-ene-vertical")
        "emiss_ene_ind" 0 a 0 0) <$> seq 0 8,
    (* industry alone differs from energy plus industry *)
     bool_decide
       ((qz 2 * Q2Qc 0.025 * (Transform.unit_factor / qz 64) / Q2Qc 2e4)%Qc
        = ((qz 1 + qz 2) * Q2Qc 0.025 * (Transform.unit_factor / qz 64) / Q2Qc 2e4)%Qc))
    = (Some (this (qz 1)), Some (this (qz 2)),
       let industry_only :=
         this (qz 2 * Q2Qc 0.025 * (Transform.unit_factor / qz 64) / Q2Qc 2e4)%Qc in
       [Some (this 0%Qc); Some (this 0%Qc); Some (this 0%Qc);
        Some industry_only; Some industry_only;
        Some industry_only; Some industry_only; Some (this 0%Qc)],
       false).
Proof.
  apply (eval_result _ (fun fs' => (_, _, _, _))).
  vm_compute. reflexivity.
Qed.

(** ** Processing order *)

Lemma remove_once (x : string) (l : list string) :
  NoDup l -> Py.remove x l = filter (fun y => y <> x) l.
Proof.
  induction 1 as [|y l Hy Hnd IH]; [done|]. simpl.
  destruct (decide (y = x)) as [->|Hne].
  - rewrite filter_cons_False by (by intros H; apply H).
    symmetry. apply filter_all. apply Forall_forall. by intros z Hz ->.
  - rewrite filter_cons_True by done. by rewrite IH.
Qed.

Lemma move_IVOC_last_once (l : list string) :
  NoDup l -> "IVOC" ∈ l ->
  FV.move_IVOC_last l = filter (fun y => y <> "IVOC") l ++ ["IVOC"].
Proof.
  intros Hnd Hin. unfold FV.move_IVOC_last, Py.contains.
  rewrite bool_decide_eq_true_2 by done. by rewrite remove_once.
Qed.

(** C8: the claim is that IVOC is processed after every other requested
    variable.  [Rename.__init__] keeps the list as requested: for the
    request [['IVOC', 'C3H6']] IVOC stays first, and [Rename.rename] then
    opens the output file of C3H6 before anything has written it and
    raises [FileNotFoundError]. *)
Lemma Rename_processes_IVOC_first :
  Rename._var_namelist <$> Rename.init example_clock (rename_args ["IVOC"; "C3H6"])
    = inr ["IVOC"; "C3H6"] /\
  (Rename.init example_clock (rename_args ["IVOC"; "C3H6"])
     ≫= fun self => Rename.rename self propene_only)
    = inl (FileNotFoundError
        "out/CEDSv2021-04-21_C3H6_anthro_20100116_20101216_0.9x1.25_c20250101.nc") /\
  (* with the child first, its output file is there when IVOC reads it:
     the first file missing is the one of the next child *)
  (Rename.init example_clock (rename_args ["C3H6"; "IVOC"])
     ≫= fun self => Rename.rename self propene_only)
    = inl (FileNotFoundError
        "out/CEDSv2021-04-21_C3H8_anthro_20100116_20101216_0.9x1.25_c20250101.nc").
Proof. repeat split; vm_compute; reflexivity. Qed.

(** [FV.__init__] moves IVOC to the end of the list of variables, but its
    list of species was built before, in the order of the request. *)
Lemma FV_species_mapping_misaligned :
  (fun self => (FV._model_var_list self, FV._species_mapping self))
    <$> FV.init example_clock (example_args (Some ["IVOC"; "C3H6"]) 2010 1 2010 12)
    = inr (["C3H6"; "IVOC"], [Multi IVOC_children; Single "propene"]) /\
  (FV.init example_clock (example_args (Some ["IVOC"; "C3H6"]) 2010 1 2010 12)
     ≫= fun self => FV.rename self "out/" None None propene_only)
    = inl (KeyError "p").
Proof. split; vm_compute; reflexivity. Qed.

(** ** The time axis of the output files *)

Lemma new_time_values_calendar source sy ey date dates :
  Transform.new_time_values source sy ey = inr (date, dates) ->
  dates = calendar_months sy ey (anchor_day source).
Proof.
  unfold Transform.new_time_values, anchor_day, calendar_months.
  destruct (decide (source = "CAMS-GLOB-ANT")) as [->|Hne].
  - intros [= <- <-]. done.
  - destruct (decide (source = "CEDS")) as [->|]; [|done].
    intros [= <- <-]. unfold Cal.date_range_MS.
    rewrite <- list_fmap_compose. done.
Qed.

Ltac inv_res1 H :=
  match type of H with
  | inl _ = inr _ => discriminate H
  | raise _ = inr _ => discriminate H
  | inr _ = inr _ => injection H as H
  | mret _ = inr _ => injection H as H
  | (if ?b then _ else _) = inr _ => destruct b eqn:?
  | (match ?m with Some _ => _ | None => _ end) = inr _ => destruct m eqn:?
  | (match ?m with Nc.D3 _ => _ | Nc.D4 _ => _ end) = inr _ => destruct m eqn:?
  | (_ ≫= _) = inr _ =>
      let x := fresh "x" in let Hx := fresh "Hx" in
      apply bind_inr in H as (x & Hx & H)
  | (let '(_, _) := ?p in _) = inr _ => destruct p eqn:?
  end.

Ltac inv_res H := repeat inv_res1 H.

Ltac inv_all :=
  repeat match goal with
  | H : _ = inr _ |- _ => inv_res1 H
  end.

Lemma same_axis_refl ds : same_axis ds ds.
Proof. done. Qed.

Lemma same_axis_trans ds1 ds2 ds3 :
  same_axis ds1 ds2 -> same_axis ds2 ds3 -> same_axis ds1 ds3.
Proof. intros [??] [??]. split; congruence. Qed.

Lemma assign3_axis name f ds ds' :
  Nc.assign3 name f ds = inr ds' -> same_axis ds ds'.
Proof. unfold Nc.assign3. intros H. inv_res H. by subst. Qed.

Lemma assign4_axis name f ds ds' :
  Nc.assign4 name f ds = inr ds' -> same_axis ds ds'.
Proof. unfold Nc.assign4. intros H. inv_res H. by subst. Qed.

Lemma iadd3_axis name g ds ds' :
  Nc.iadd3 name g ds = inr ds' -> same_axis ds ds'.
Proof. unfold Nc.iadd3. intros H. inv_res H. by eapply assign3_axis. Qed.

Lemma imul3_axis name k ds ds' :
  Nc.imul3 name k ds = inr ds' -> same_axis ds ds'.
Proof. unfold Nc.imul3. intros H. inv_res H. by eapply assign3_axis. Qed.

Lemma imul4_axis name k ds ds' :
  Nc.imul4 name k ds = inr ds' -> same_axis ds ds'.
Proof. unfold Nc.imul4. intros H. inv_res H. by eapply assign4_axis. Qed.

Lemma set_num_units_axis wu name ds ds' :
  Transform.set_num_units wu name ds = inr ds' -> same_axis ds ds'.
Proof.
  unfold Transform.set_num_units, Nc.set_units. intros H.
  destruct wu; inv_res H; by subst.
Qed.

Lemma for_each_axis {A} (l : list A) (body : Nc.Dataset -> A -> result Nc.Dataset) :
  (forall ds x ds', body ds x = inr ds' -> same_axis ds ds') ->
  forall ds ds', for_each l body ds = inr ds' -> same_axis ds ds'.
Proof.
  intros Hbody. induction l as [|x l IH]; intros ds ds' H; simpl in H.
  - injection H as <-. done.
  - inv_res H. eapply same_axis_trans; [by eapply Hbody|by eapply IH].
Qed.

Section Axis.

Variables (regridded renamed : string -> string).
Variables (T D : list Z).

Abbreviation FS := (gmap string Nc.Dataset).

Lemma step_good_at (fs fs' : FS) p :
  step T D fs fs' -> good_at T D p fs -> good_at T D p fs'.
Proof.
  intros Hs Hg ds Hds. destruct (Hs p) as [E|(ds' & E & ? & ?)].
  - apply Hg. by rewrite <- E.
  - rewrite Hds in E. by injection E as ->.
Qed.

Lemma good_at_insert (fs : FS) p ds :
  Nc.time ds = T -> Nc.date ds = D -> good_at T D p (<[p := ds]> fs).
Proof. intros ?? ds'. rewrite lookup_insert_eq. by intros [= <-]. Qed.

Lemma copy_step src dst (fs fs' : FS) :
  copy src dst fs = inr fs' -> good_at T D src fs ->
  step T D fs fs' /\ good_at T D dst fs'.
Proof.
  unfold copy, open_dataset. intros H Hg. inv_all. subst.
  destruct (Hg _ ltac:(eassumption)) as [Ht Hd].
  split; [by apply step_insert|by apply good_at_insert].
Qed.

Lemma modify_step p body (fs fs' : FS) :
  (forall ds ds', body ds = inr ds' -> same_axis ds ds') ->
  modify p body fs = inr fs' -> good_at T D p fs ->
  step T D fs fs' /\ good_at T D p fs'.
Proof.
  unfold modify, open_dataset. intros Hbody H Hg. inv_all. subst.
  destruct (Hg _ ltac:(eassumption)) as [Ht Hd].
  destruct (Hbody _ _ ltac:(eassumption)) as [Ht' Hd'].
  split; [apply step_insert|apply good_at_insert]; congruence.
Qed.

Lemma derive_step wu src dst k (fs fs' : FS) :
  Transform.derive wu src dst k fs = inr fs' -> good_at T D src fs ->
  step T D fs fs'.
Proof.
  unfold Transform.derive. intros H Hg. inv_res H.
  destruct (copy_step _ _ _ _ Hx Hg) as [Hs1 Hg1].
  eapply step_trans; [exact Hs1|].
  eapply modify_step; [|exact H|exact Hg1].
  intros ds ds' Hb. cbv beta in Hb. inv_res Hb.
  eapply same_axis_trans; [eapply imul3_axis|eapply set_num_units_axis]; eassumption.
Qed.

Lemma bc_a4_block_step wu model_var mw (fs fs' : FS) :
  Transform.bc_a4_block renamed wu model_var mw fs = inr fs' ->
  good_at T D (renamed (model_var +:+ "_anthro")) fs ->
  step T D fs fs'.
Proof. unfold Transform.bc_a4_block. apply derive_step. Qed.

Lemma CO_block_step y1 y2 model_var mw (fs fs' : FS) :
  Transform.CO_block renamed y1 y2 model_var mw fs = inr fs' ->
  good_at T D (renamed (model_var +:+ "_anthro")) fs ->
  step T D fs fs'.
Proof.
  unfold Transform.CO_block. intros H Hg.
  apply bind_inr in H as (fs1 & H1 & H2).
  pose proof (derive_step _ _ _ _ _ _ H1 Hg) as Hs1.
  eapply step_trans; [exact Hs1|].
  eapply derive_step; [exact H2|]. by eapply step_good_at.
Qed.

Lemma pom_a4_block_step wu model_var mw (fs fs' : FS) :
  Transform.pom_a4_block renamed wu model_var mw fs = inr fs' ->
  good_at T D (renamed (model_var +:+ "_anthro")) fs ->
  step T D fs fs'.
Proof.
  unfold Transform.pom_a4_block. intros H Hg.
  apply bind_inr in H as (fs1 & H1 & H2).
  pose proof (derive_step _ _ _ _ _ _ H1 Hg) as Hs1.
  eapply step_trans; [exact Hs1|].
  eapply derive_step; [exact H2|]. by eapply step_good_at.
Qed.

Lemma derived_blocks_step wu y1 y2 model_var mw (fs fs' : FS) :
  Transform.derived_blocks renamed wu y1 y2 model_var mw fs = inr fs' ->
  good_at T D (renamed (model_var +:+ "_anthro")) fs ->
  step T D fs fs'.
Proof.
  unfold Transform.derived_blocks. intros H Hg.
  apply bind_inr in H as (fs1 & H1 & H).
  apply bind_inr in H as (fs2 & H2 & H3).
  assert (Hs1 : step T D fs fs1).
  { destruct (decide (model_var = "bc_a4")).
    - by eapply bc_a4_block_step.
    - injection H1 as <-. apply step_refl. }
  assert (Hg1 := step_good_at _ _ _ Hs1 Hg).
  assert (Hs2 : step T D fs1 fs2).
  { destruct (decide (model_var = "CO")).
    - by eapply CO_block_step.
    - injection H2 as <-. apply step_refl. }
  assert (Hg2 := step_good_at _ _ _ Hs2 Hg1).
  eapply step_trans; [exact Hs1|]. eapply step_trans; [exact Hs2|].
  destruct (decide (model_var = "pom_a4")).
  - by eapply pom_a4_block_step.
  - injection H3 as <-. apply step_refl.
Qed.

Lemma write_output_step species model_var mw sf (fs fs' : FS) :
  Transform.write_output regridded renamed T D species model_var mw sf fs
    = inr fs' ->
  step T D fs fs' /\ good_at T D (renamed (model_var +:+ "_anthro")) fs'.
Proof.
  unfold Transform.write_output. intros H.
  apply bind_inr in H as (output & Hout & H). injection H as <-.
  assert (Ha : same_axis
    (Nc.createVariable3 Transform._var_name Transform.var_unit (Nc.create T D))
    output).
  { destruct (is_list species).
    - by eapply assign3_axis.
    - inv_res Hout. by eapply assign3_axis. }
  destruct Ha as [Ht Hd]. simpl in Ht, Hd.
  split; [|by apply good_at_insert].
  eapply step_trans; by apply step_insert.
Qed.

Lemma add_children_axis sub_mw species mw sf (fs : FS) output output' :
  Transform.add_children regridded sub_mw species mw sf fs output = inr output' ->
  same_axis output output'.
Proof.
  unfold Transform.add_children. apply for_each_axis.
  intros ds x ds' H. inv_res H. by eapply iadd3_axis.
Qed.

Lemma add_outputs_axis sub_mw species mw sf (fs : FS) output output' :
  Transform.add_outputs renamed sub_mw species mw sf fs output = inr output' ->
  same_axis output output'.
Proof.
  unfold Transform.add_outputs. apply for_each_axis.
  intros ds x ds' H. inv_res H. by eapply iadd3_axis.
Qed.

Lemma so2_group_axis species mw (fs : FS) name sector output output' :
  Transform.so2_group regridded species mw fs name sector output = inr output' ->
  same_axis output output'.
Proof.
  unfold Transform.so2_group. intros H.
  apply bind_inr in H as (o1 & H1 & H2).
  apply assign3_axis in H1.
  eapply same_axis_trans; [exact H1|].
  revert H2. apply for_each_axis.
  intros ds x ds' H. inv_res H. by eapply iadd3_axis.
Qed.

Lemma so2_vertical_axis species mw (fs : FS) ene_ind output output' :
  Transform.so2_vertical regridded species mw fs ene_ind output = inr output' ->
  same_axis output output'.
Proof.
  unfold Transform.so2_vertical. intros H.
  apply bind_inr in H as (o1 & H1 & H2).
  apply assign4_axis in H1.
  apply bind_inr in H2 as (lv & _ & H2).
  destruct lv as [lv|]; [|done].
  apply bind_inr in H2 as (nv & _ & H2).
  apply assign4_axis in H2.
  eapply same_axis_trans; [exact H1|exact H2].
Qed.

Lemma for_each_files (body : FS -> string -> result FS) (files : list string) :
  (forall fs f fs', body fs f = inr fs' -> step T D fs fs' /\ good_at T D f fs') ->
  forall fs fs', for_each files body fs = inr fs' ->
    step T D fs fs' /\ forall f, f ∈ files -> good_at T D f fs'.
Proof.
  intros Hbody. induction files as [|f files IH]; intros fs fs' H; simpl in H.
  - injection H as <-. split; [apply step_refl|]. by intros f ?%elem_of_nil.
  - apply bind_inr in H as (fs1 & H1 & H2).
    destruct (Hbody _ _ _ H1) as [Hs1 Hg1].
    destruct (IH _ _ H2) as [Hs2 Hg2].
    split; [by eapply step_trans|].
    intros f' [->|Hf']%elem_of_cons; [by eapply step_good_at|by apply Hg2].
Qed.

Ltac cond_axis H :=
  match type of H with
  | (if ?c then _ else _) = inr _ =>
      destruct c;
      [ first [ eapply so2_group_axis; exact H
              | eapply so2_vertical_axis; exact H
              | revert H; apply for_each_axis;
                let Hb := fresh in
                intros ? ? ? Hb; eapply so2_group_axis; exact Hb ]
      | injection H as <-; apply same_axis_refl ]
  end.

Lemma so2_block_step wu species model_var mw ag_sol_was res_tra ene_ind
  (fs fs' : FS) :
  Transform.so2_block regridded renamed T D wu species model_var mw
    ag_sol_was res_tra ene_ind fs = inr fs' ->
  step T D fs fs'.
Proof.
  unfold Transform.so2_block. cbv zeta. intros H.
  apply bind_inr in H as (fs1 & Hloop & H).
  apply for_each_files in Hloop as [Hs1 Hg1].
  2:{ clear. intros fs f fs' H. cbv beta zeta in H.
      apply bind_inr in H as (o1 & H1 & H).
      apply bind_inr in H as (o2 & H2 & H).
      apply bind_inr in H as (o3 & H3 & H).
      apply bind_inr in H as (o4 & H4 & H).
      apply bind_inr in H as (o5 & H5 & H).
      injection H as <-.
      assert (A1 : same_axis (Nc.create T D) o1) by cond_axis H1.
      assert (A2 : same_axis o1 o2) by cond_axis H2.
      assert (A3 : same_axis o2 o3) by cond_axis H3.
      assert (A4 : same_axis o3 o4) by cond_axis H4.
      assert (A5 : same_axis o4 o5) by cond_axis H5.
      assert (Ha : same_axis (Nc.create T D) o5).
      { repeat (eapply same_axis_trans; [eassumption|]). apply same_axis_refl. }
      destruct Ha as [Ht Hd]. simpl in Ht, Hd.
      split; [|by apply good_at_insert].
      eapply step_trans; by apply step_insert. }
  apply bind_inr in H as (fs2 & Hc1 & H).
  apply copy_step in Hc1 as [Hs2 Hg2]; [|apply Hg1; apply list_elem_of_In; simpl; tauto].
  apply bind_inr in H as (fs3 & Hm1 & H).
  apply modify_step in Hm1 as [Hs3 _]; [|idtac|exact Hg2].
  2:{ intros ds ds' Hb. cbv beta in Hb. inv_res Hb.
      eapply same_axis_trans; [eapply imul3_axis; eassumption|].
      eapply same_axis_trans; [eapply imul3_axis; eassumption|].
      eapply same_axis_trans; eapply set_num_units_axis; eassumption. }
  assert (Hs13 : step T D fs1 fs3) by (by eapply step_trans).
  apply bind_inr in H as (fs4 & Hc2 & H).
  apply copy_step in Hc2 as [Hs4 Hg4].
  2:{ eapply step_good_at; [exact Hs13|]. apply Hg1. apply list_elem_of_In. simpl. tauto. }
  apply bind_inr in H as (fs5 & Hm2 & H).
  apply modify_step in Hm2 as [Hs5 _]; [|idtac|exact Hg4].
  2:{ intros ds ds' Hb. cbv beta in Hb. inv_res Hb.
      eapply same_axis_trans; [eapply imul3_axis; eassumption|].
      eapply set_num_units_axis; eassumption. }
  assert (Hs15 : step T D fs1 fs5).
  { eapply step_trans; [exact Hs13|]. by eapply step_trans. }
  apply bind_inr in H as (fs6 & Hc3 & H).
  apply copy_step in Hc3 as [Hs6 Hg6].
  2:{ eapply step_good_at; [exact Hs15|]. apply Hg1. apply list_elem_of_In. simpl. tauto. }
  eapply step_trans; [exact Hs1|]. eapply step_trans; [exact Hs15|].
  eapply step_trans; [exact Hs6|].
  eapply modify_step; [|exact H|exact Hg6].
  intros ds ds' Hb. cbv beta in Hb. inv_res Hb.
  eapply same_axis_trans; [eapply imul4_axis; eassumption|].
  eapply set_num_units_axis; eassumption.
Qed.

End Axis.

Lemma rename_iter_step (self : FV.t) (renamed_path : string)
  (mw_mapping : gmap string Qc) (date : string) (T D : list Z)
  (fs fs' : gmap string Nc.Dataset) (item : Species * string * Qc * Qc) :
  FV.rename_iter self renamed_path mw_mapping date T D fs item = inr fs' ->
  step T D fs fs'.
Proof.
  destruct item as [[[species model_var] mw] sf].
  unfold FV.rename_iter. intros H.
  destruct (decide (model_var = "SO2")).
  - apply bind_inr in H as ([[ag rt] ei] & _ & H).
    by eapply so2_block_step.
  - apply bind_inr in H as (fs1 & H1 & H).
    apply write_output_step in H1 as [Hs1 Hg1].
    apply bind_inr in H as (fs2 & H2 & H).
    pose proof (derived_blocks_step _ _ _ _ _ _ _ _ _ _ H2 Hg1) as Hs2.
    assert (Hg2 := step_good_at _ _ _ _ _ Hs2 Hg1).
    apply bind_inr in H as (fs3 & H3 & H).
    assert (Hs3 : step T D fs2 fs3).
    { destruct (Py.contains model_var ["BIGALK"; "XYLENES"]).
      - eapply modify_step; [|exact H3|exact Hg2].
        intros ds ds'. apply add_children_axis.
      - injection H3 as <-. apply step_refl. }
    assert (Hg3 := step_good_at _ _ _ _ _ Hs3 Hg2).
    eapply step_trans; [exact Hs1|]. eapply step_trans; [exact Hs2|].
    eapply step_trans; [exact Hs3|].
    destruct (decide (model_var = "IVOC")).
    + eapply modify_step; [|exact H|exact Hg3].
      intros ds ds'. apply add_outputs_axis.
    + injection H as <-. apply step_refl.
Qed.

Lemma for_each_step {A} (T D : list Z) (l : list A)
  (body : gmap string Nc.Dataset -> A -> result (gmap string Nc.Dataset)) :
  (forall fs x fs', body fs x = inr fs' -> step T D fs fs') ->
  forall fs fs', for_each l body fs = inr fs' -> step T D fs fs'.
Proof.
  intros Hbody. induction l as [|x l IH]; intros fs fs' H; simpl in H.
  - injection H as <-. apply step_refl.
  - apply bind_inr in H as (fs1 & H1 & H2).
    eapply step_trans; [by eapply Hbody|by eapply IH].
Qed.

Lemma length_calendar_months sy ey day :
  sy <= ey ->
  Z.of_nat (length (calendar_months sy ey day)) = 12 * (ey - sy + 1).
Proof.
  intros H. unfold calendar_months. rewrite length_fmap, length_seqZ. lia.
Qed.

Lemma lookup_calendar_months sy ey day (k : nat) :
  Z.of_nat k < 12 * (ey - sy + 1) ->
  calendar_months sy ey day !! k
  = Some (sy + Z.of_nat k / 12, Z.of_nat k mod 12 + 1, day).
Proof.
  intros H. unfold calendar_months. rewrite list_lookup_fmap.
  rewrite (lookup_seqZ_lt _ _ _ H). simpl. by rewrite Z.add_0_l.
Qed.

(** Whatever the window, a file that [FV.rename] writes or rewrites has
    time and date coordinates with one entry for each month of the
    calendar years [start_year] to [end_year], from January of
    [start_year] to December of [end_year], on the anchor day of the
    inventory: [start_month] and [end_month] are not read.  Every other
    path of the file system is left as it was. *)
Lemma rename_time_axis (self : FV.t) (renamed_path : string)
  (mw_mapping sf_mapping : option (gmap string Qc))
  (fs fs' : gmap string Nc.Dataset) :
  FV.rename self renamed_path mw_mapping sf_mapping fs = inr fs' ->
  let months :=
    calendar_months (FV._start_year self) (FV._end_year self)
      (anchor_day (FV._source self)) in
  forall path,
    fs' !! path = fs !! path \/
    exists ds,
      fs' !! path = Some ds /\
      Nc.time ds = Cal.date2num <$> months /\
      Nc.date ds = Cal.strftime_int <$> months.
Proof.
  unfold FV.rename. intros H. cbv zeta.
  apply bind_inr in H as (mw_list & _ & H).
  apply bind_inr in H as (sf_list & _ & H).
  apply bind_inr in H as ([date dates] & Hdt & H).
  apply new_time_values_calendar in Hdt. subst dates.
  revert H. apply for_each_step.
  intros fs1 item fs2. apply rename_iter_step.
Qed.

(** C5: the claim is that the time and date coordinates of an output
    file hold one entry for each month of the window, from its start month
    to its end month.  For the window June 2010 to May 2011, which
    [FV.__init__] accepts, the aggregation stage selects the twelve months
    of the window and the output file of CO is named for the window
    ([..._20100616_20110516_...]), yet the coordinates that [FV.rename]
    writes into it are the twenty-four months of 2010 and 2011: the first
    time step of the regridded file, June 2010, is stored under
    2010-01-16. *)
Lemma rename_time_axis_ignores_months :
  FV.init example_clock (example_args (Some ["CO"]) 2010 6 2011 5)
    = inr self_window /\
  (* the window has twelve months, June 2010 to May 2011, and [sum_up]
     selects them *)
  (2011 - 2010) * 12 + (5 - 6) + 1 = 12 /\
  (fun ts => ts.*1) <$> FV.sum_up self_window example_raw
    = inr [201006; 201007; 201008; 201009; 201010; 201011;
           201012; 201101; 201102; 201103; 201104; 201105] /\
  (* the regridded file has the twelve months of the window *)
  Nc.date <$> window_files !! FV.regridded_filename self_window "16" "co"
    = Some [20100616; 20100716; 20100816; 20100916; 20101016; 20101116;
            20101216; 20110116; 20110216; 20110316; 20110416; 20110516] /\
  value3 window_files (FV.regridded_filename self_window "16" "co")
    "emiss_anthro" 0 0 0 = Some (this (qz 20100616)) /\
  (* the output file is named for the window *)
  FV.renamed_filename self_window "out/" "16" "CO_anthro"
    = "out/CEDSv2021-04-21_CO_anthro_20100616_20110516_0.9x1.25_c20250101.nc" /\
  exists fs',
    FV.rename self_window "out/" None None window_files = inr fs' /\
    (* its coordinates are the months of the calendar years *)
    Nc.date <$> fs' !! FV.renamed_filename self_window "out/" "16" "CO_anthro"
    = Some [20100116; 20100216; 20100316; 20100416; 20100516; 20100616;
            20100716; 20100816; 20100916; 20101016; 20101116; 20101216;
            20110116; 20110216; 20110316; 20110416; 20110516; 20110616;
            20110716; 20110816; 20110916; 20111016; 20111116; 20111216] /\
    (fun ds => length (Nc.time ds))
      <$> fs' !! FV.renamed_filename self_window "out/" "16" "CO_anthro"
    = Some 24%nat /\
    (* and under its first date, 2010-01-16, is the field of June 2010 *)
    value3 fs' (FV.renamed_filename self_window "out/" "16" "CO_anthro")
      "emiss_anthro" 0 0 0
    = Some (this (qz 20100616 * (Transform.unit_factor / qz 28) * qz 1)%Qc).
Proof.
  split; [reflexivity|]. split; [reflexivity|].
  split; [vm_compute; reflexivity|].
  split; [vm_compute; reflexivity|].
  split; [vm_compute; reflexivity|].
  split; [vm_compute; reflexivity|].
  edestruct (eval_result
    (FV.rename self_window "out/" None None window_files)
    (fun fs' =>
       (Nc.date <$> fs' !! FV.renamed_filename self_window "out/" "16" "CO_anthro",
        (fun ds => length (Nc.time ds))
          <$> fs' !! FV.renamed_filename self_window "out/" "16" "CO_anthro",
        value3 fs' (FV.renamed_filename self_window "out/" "16" "CO_anthro")
          "emiss_anthro" 0 0 0)))
    as (fs' & E & Heq).
  { vm_compute. reflexivity. }
  exists fs'. split; [exact E|].
  injection Heq as -> -> ->.
  repeat split; vm_compute; reflexivity.
Qed.

(** * Further properties

    Properties of the code around the functions above: what
    [FV.__init__] has checked and computed when it returns, the derived
    files of [rename], the sulfur dioxide files, the frame of [rename],
    the stand-alone [Rename] class, where the roll of the longitudes
    moves the data, and the values of the aggregated fields. *)

(** ** What [FV.__init__] establishes *)

(** What [FV.__init__] has checked when it returns. *)
Theorem init_validates clk a self :
  FV.init clk a = inr self ->
  (FV.source a = "CAMS-GLOB-ANT" /\ FV.version a ∈ ["v5.3"; "v6.2"] /\
     FV.original_resolution a = Some "0.1x0.1" /\
     2000 <= FV.start_year a /\ FV.end_year a <= now_year clk - 1
   \/
   FV.source a = "CEDS" /\ FV.version a = "v2021-04-21" /\
     FV.original_resolution a = Some "0.5x0.5" /\
     (if decide (FV.download_method a = None \/ FV.download_method a = Some "wget")
      then 1950 else 1750) <= FV.start_year a /\
     FV.end_year a <= 2019) /\
  FV.target_resolution a = "0.9x1.25" /\
  FV.start_year a <= FV.end_year a /\
  FV._start_month self = default 1 (FV.start_month a) /\
  FV._end_month self = default 12 (FV.end_month a) /\
  2 <= (FV._end_year self - FV._start_year self) * 12
       + (FV._end_month self - FV._start_month self) + 1.
Proof.
  unfold FV.init. intros H.
  destruct (Py.contains (FV.source a) _) eqn:Hsrc; [|discriminate H].
  destruct (Py.contains (FV.target_resolution a) _) eqn:Htr; [|discriminate H].
  cbn [negb] in H.
  apply bool_decide_eq_true in Hsrc, Htr.
  apply list_elem_of_singleton in Htr.
  destruct (bool_decide (filter _ _ = [])) eqn:Hinv; [|discriminate H].
  cbn [negb] in H.
  apply bind_inr in H as (sm & Hsm & H).
  destruct (decide (FV.source a = "CAMS-GLOB-ANT")) as [Hcams|Hcams].
  - destruct (Py.contains (FV.version a) _) eqn:Hv; [|discriminate H].
    destruct (bool_decide (FV.original_resolution a = Some "0.1x0.1")) eqn:Hres;
      [|discriminate H].
    cbn [negb] in H.
    apply bool_decide_eq_true in Hv, Hres.
    repeat (destruct (decide _) as [?|?] in H; [discriminate H|]).
    apply bind_inr in H as (sp & Hsp & H). injection H as <-. simpl.
    split; [left; repeat split; (done || lia)|].
    repeat split; (done || lia).
  - assert (Hceds : FV.source a = "CEDS").
    { apply elem_of_cons in Hsrc as [?|Hsrc]; [done|].
      by apply list_elem_of_singleton in Hsrc. }
    destruct (Py.contains (FV.version a) _) eqn:Hv; [|discriminate H].
    destruct (bool_decide (FV.original_resolution a = Some "0.5x0.5")) eqn:Hres;
      [|discriminate H].
    cbn [negb] in H.
    apply bool_decide_eq_true in Hv, Hres.
    apply list_elem_of_singleton in Hv.
    destruct (decide (FV.start_year a > FV.end_year a)) as [?|?]; [discriminate H|].
    destruct (decide (FV.start_year a < _)) as [?|Hfirst] in H; [discriminate H|].
    destruct (decide (FV.end_year a > 2019)) as [?|?]; [discriminate H|].
    destruct (decide (12 * _ + _ <= _)) as [?|?] in H; [discriminate H|].
    apply bind_inr in H as (sp & Hsp & H). injection H as <-. simpl.
    split.
    + right. repeat split; try (done || lia).
      destruct (FV.download_method a) as [dm|]; simpl in Hfirst.
      * destruct (decide (dm = "wget")) as [->|Hdm].
        -- rewrite decide_True by (by right). lia.
        -- rewrite decide_False by (intros [?|[=]]; done). lia.
      * rewrite decide_True by (by left). simpl in Hfirst. lia.
    + repeat split; (done || lia).
Qed.

Lemma init_validates_witness :
  (FV.source (example_args (Some ["CO"]) 2010 6 2010 7) = "CAMS-GLOB-ANT" /\
     FV.version (example_args (Some ["CO"]) 2010 6 2010 7) ∈ ["v5.3"; "v6.2"] /\
     FV.original_resolution (example_args (Some ["CO"]) 2010 6 2010 7) = Some "0.1x0.1" /\
     2000 <= FV.start_year (example_args (Some ["CO"]) 2010 6 2010 7) /\
     FV.end_year (example_args (Some ["CO"]) 2010 6 2010 7) <= now_year example_clock - 1
   \/
   FV.source (example_args (Some ["CO"]) 2010 6 2010 7) = "CEDS" /\
     FV.version (example_args (Some ["CO"]) 2010 6 2010 7) = "v2021-04-21" /\
     FV.original_resolution (example_args (Some ["CO"]) 2010 6 2010 7) = Some "0.5x0.5" /\
     (if decide (FV.download_method (example_args (Some ["CO"]) 2010 6 2010 7) = None \/
                 FV.download_method (example_args (Some ["CO"]) 2010 6 2010 7) = Some "wget")
      then 1950 else 1750) <= FV.start_year (example_args (Some ["CO"]) 2010 6 2010 7) /\
     FV.end_year (example_args (Some ["CO"]) 2010 6 2010 7) <= 2019) /\
  FV.target_resolution (example_args (Some ["CO"]) 2010 6 2010 7) = "0.9x1.25" /\
  FV.start_year (example_args (Some ["CO"]) 2010 6 2010 7)
    <= FV.end_year (example_args (Some ["CO"]) 2010 6 2010 7) /\
  FV._start_month (example_self ["CO"] [Single "co"] 2010 6 2010 7)
    = default 1 (FV.start_month (example_args (Some ["CO"]) 2010 6 2010 7)) /\
  FV._end_month (example_self ["CO"] [Single "co"] 2010 6 2010 7)
    = default 12 (FV.end_month (example_args (Some ["CO"]) 2010 6 2010 7)) /\
  2 <= (FV._end_year (example_self ["CO"] [Single "co"] 2010 6 2010 7)
        - FV._start_year (example_self ["CO"] [Single "co"] 2010 6 2010 7)) * 12
       + (FV._end_month (example_self ["CO"] [Single "co"] 2010 6 2010 7)
          - FV._start_month (example_self ["CO"] [Single "co"] 2010 6 2010 7)) + 1.
Proof.
  apply (init_validates example_clock (example_args (Some ["CO"]) 2010 6 2010 7)
           (example_self ["CO"] [Single "co"] 2010 6 2010 7)).
  reflexivity.
Defined.

(** ** The list of variables *)

Lemma lookup_all_Forall2 {V} (d : gmap string V) (l : list string) (vs : list V) :
  lookup_all d l = inr vs -> Forall2 (fun k v => d !! k = Some v) l vs.
Proof.
  revert vs. induction l as [|k l IH]; intros vs H; simpl in H.
  - injection H as <-. constructor.
  - apply bind_inr in H as (v & Hv & H).
    apply bind_inr in H as (vs' & Hvs & H). injection H as <-.
    constructor; [|by apply IH].
    unfold Py.getitem in Hv. destruct (d !! k); [by injection Hv as ->|done].
Qed.

Lemma lookup_all_total {V} (d : gmap string V) (l : list string) :
  Forall (fun k => is_Some (d !! k)) l -> exists vs, lookup_all d l = inr vs.
Proof.
  induction 1 as [|k l [v Hv] _ [vs IH]]; [by exists []|].
  exists (v :: vs). simpl. unfold Py.getitem. rewrite Hv. simpl. by rewrite IH.
Qed.

Lemma lookup_all_missing {V} (d : gmap string V) (l1 l2 : list string) (k : string) :
  Forall (fun k => is_Some (d !! k)) l1 -> d !! k = None ->
  lookup_all d (l1 ++ k :: l2) = inl (KeyError k).
Proof.
  intros H Hk. induction H as [|k' l1 [v Hv] _ IH]; simpl.
  - unfold Py.getitem. by rewrite Hk.
  - unfold Py.getitem. rewrite Hv. simpl. by rewrite IH.
Qed.

Lemma remove_Permutation (x : string) (l : list string) :
  x ∈ l -> x :: Py.remove x l ≡ₚ l.
Proof.
  induction l as [|y l IH]; intros Hin; [by apply elem_of_nil in Hin|].
  simpl. destruct (decide (y = x)) as [->|Hne]; [done|].
  apply elem_of_cons in Hin as [->|Hin]; [done|].
  rewrite Permutation_swap. by rewrite IH.
Qed.

Lemma move_IVOC_last_Permutation (l : list string) : FV.move_IVOC_last l ≡ₚ l.
Proof.
  unfold FV.move_IVOC_last, Py.contains. case_bool_decide as Hin; [|done].
  rewrite <- Permutation_cons_append. by apply remove_Permutation.
Qed.

Lemma init_model_var_list clk a self :
  FV.init clk a = inr self ->
  let requested := default full_model_var_list (FV.model_var_list a) in
  FV._model_var_list self = FV.move_IVOC_last requested /\
  Forall (fun var => var ∈ full_model_var_list) requested /\
  lookup_all species_mapping requested = inr (FV._species_mapping self).
Proof.
  unfold FV.init. intros H. cbv zeta.
  destruct (Py.contains (FV.source a) _); [|discriminate H].
  destruct (Py.contains (FV.target_resolution a) _); [|discriminate H].
  cbn [negb] in H.
  destruct (bool_decide (filter _ _ = [])) eqn:Hinv; [|discriminate H].
  cbn [negb] in H. apply bool_decide_eq_true in Hinv.
  apply bind_inr in H as (sm & Hsm & H).
  assert (Hvalid : Forall (fun var => var ∈ full_model_var_list)
            (default full_model_var_list (FV.model_var_list a))).
  { apply Forall_forall. intros v Hv.
    destruct (decide (v ∈ full_model_var_list)) as [|Hn]; [done|].
    assert (v ∈ filter (fun var => var ∉ full_model_var_list)
                  (default full_model_var_list (FV.model_var_list a)))
      as Hf by (by apply list_elem_of_filter).
    rewrite Hinv in Hf. by apply elem_of_nil in Hf. }
  destruct (if decide (FV.source a = "CAMS-GLOB-ANT") then _ else _)
    as [[[dv dr] df] dl].
  repeat (match type of H with
          | (if ?b then _ else _) = inr _ => destruct b; [discriminate H|]
          end).
  apply bind_inr in H as (sp & Hsp & H). injection H as <-. simpl.
  done.
Qed.

(** The list of variables that [FV.__init__] keeps holds the requested
    variables, each as often as requested and each a valid name; when IVOC
    is requested it is the last one; and there are as many species entries
    as variables. *)
Theorem init_model_var_list_permutation clk a self :
  FV.init clk a = inr self ->
  let requested := default full_model_var_list (FV.model_var_list a) in
  FV._model_var_list self ≡ₚ requested /\
  Forall (fun var => var ∈ full_model_var_list) (FV._model_var_list self) /\
  ("IVOC" ∈ requested -> last (FV._model_var_list self) = Some "IVOC") /\
  length (FV._species_mapping self) = length (FV._model_var_list self).
Proof.
  intros H. cbv zeta.
  destruct (init_model_var_list _ _ _ H) as (-> & Hvalid & Hsm).
  split; [apply move_IVOC_last_Permutation|]. split.
  - by rewrite move_IVOC_last_Permutation.
  - split.
    + intros Hin. unfold FV.move_IVOC_last, Py.contains.
      rewrite bool_decide_eq_true_2 by done. by rewrite last_snoc.
    + apply lookup_all_Forall2 in Hsm. apply Forall2_length in Hsm.
      rewrite <- Hsm. symmetry. apply Permutation_length.
      apply move_IVOC_last_Permutation.
Qed.

Lemma init_model_var_list_permutation_witness :
  let requested :=
    default full_model_var_list
      (FV.model_var_list (example_args (Some ["IVOC"; "CO"]) 2010 1 2010 12)) in
  FV._model_var_list
    (example_self ["CO"; "IVOC"] [Multi IVOC_children; Single "co"] 2010 1 2010 12)
    ≡ₚ requested /\
  Forall (fun var => var ∈ full_model_var_list)
    (FV._model_var_list
       (example_self ["CO"; "IVOC"] [Multi IVOC_children; Single "co"] 2010 1 2010 12)) /\
  ("IVOC" ∈ requested ->
   last (FV._model_var_list
           (example_self ["CO"; "IVOC"] [Multi IVOC_children; Single "co"] 2010 1 2010 12))
   = Some "IVOC") /\
  length (FV._species_mapping
            (example_self ["CO"; "IVOC"] [Multi IVOC_children; Single "co"] 2010 1 2010 12))
  = length (FV._model_var_list
              (example_self ["CO"; "IVOC"] [Multi IVOC_children; Single "co"] 2010 1 2010 12)).
Proof.
  apply (init_model_var_list_permutation example_clock
           (example_args (Some ["IVOC"; "CO"]) 2010 1 2010 12)
           (example_self ["CO"; "IVOC"] [Multi IVOC_children; Single "co"] 2010 1 2010 12)).
  reflexivity.
Defined.

Lemma remove_snoc (x : string) (l : list string) :
  x ∉ l -> Py.remove x (l ++ [x]) = l.
Proof.
  induction l as [|y l IH]; intros Hn; simpl.
  - by rewrite decide_True.
  - rewrite decide_False by (intros ->; apply Hn; by left).
    rewrite IH; [done|]. intros Hin. apply Hn. by right.
Qed.

(** When IVOC is not requested, or is requested once and last, the move
    of IVOC changes nothing and every variable is paired with its own
    entry of [species_mapping]. *)
Theorem init_species_aligned clk a self :
  FV.init clk a = inr self ->
  let requested := default full_model_var_list (FV.model_var_list a) in
  ("IVOC" ∉ requested \/ exists l, requested = l ++ ["IVOC"] /\ "IVOC" ∉ l) ->
  FV._model_var_list self = requested /\
  Forall2 (fun var species => species_mapping !! var = Some species)
    (FV._model_var_list self) (FV._species_mapping self).
Proof.
  intros H. cbv zeta. intros Hpos.
  destruct (init_model_var_list _ _ _ H) as (Hmvl & _ & Hsm).
  assert (E : FV.move_IVOC_last (default full_model_var_list (FV.model_var_list a))
              = default full_model_var_list (FV.model_var_list a)).
  { unfold FV.move_IVOC_last, Py.contains. destruct Hpos as [Hn|(l & -> & Hn)].
    - by rewrite bool_decide_eq_false_2.
    - rewrite bool_decide_eq_true_2 by (apply elem_of_app; right; by left).
      by rewrite remove_snoc. }
  rewrite Hmvl, E. split; [done|]. by apply lookup_all_Forall2.
Qed.

Lemma init_species_aligned_witness :
  FV._model_var_list (example_self ["CO"; "IVOC"] [Single "co"; Multi IVOC_children] 2010 1 2010 12)
    = ["CO"; "IVOC"] /\
  Forall2 (fun var species => species_mapping !! var = Some species)
    (FV._model_var_list (example_self ["CO"; "IVOC"] [Single "co"; Multi IVOC_children] 2010 1 2010 12))
    (FV._species_mapping (example_self ["CO"; "IVOC"] [Single "co"; Multi IVOC_children] 2010 1 2010 12)).
Proof.
  apply (init_species_aligned example_clock
           (example_args (Some ["CO"; "IVOC"]) 2010 1 2010 12)).
  - reflexivity.
  - right. exists ["CO"]. split; [reflexivity|].
    intros Hin. apply list_elem_of_singleton in Hin. discriminate Hin.
Defined.

(** A table of molecular weights that lacks a requested variable makes
    [FV.rename] raise [KeyError] for the first such variable, whatever the
    files are; so does a table of scale factors, when the molecular
    weights are all there. *)
Theorem rename_missing_table_entry (self : FV.t) (renamed_path : string)
  (mw_mapping sf_mapping : option (gmap string Qc))
  (fs : gmap string Nc.Dataset) (l1 l2 : list string) (var : string) :
  FV._model_var_list self = l1 ++ var :: l2 ->
  (Forall (fun v => is_Some (default default_mw_mapping mw_mapping !! v)) l1 /\
   default default_mw_mapping mw_mapping !! var = None
   \/
   Forall (fun v => is_Some (default default_mw_mapping mw_mapping !! v))
     (FV._model_var_list self) /\
   Forall (fun v => is_Some (default default_sf_mapping sf_mapping !! v)) l1 /\
   default default_sf_mapping sf_mapping !! var = None) ->
  FV.rename self renamed_path mw_mapping sf_mapping fs = inl (KeyError var).
Proof.
  intros Hl [[H1 Hv]|(Hall & H1 & Hv)]; unfold FV.rename; cbv zeta.
  - rewrite Hl. by rewrite (lookup_all_missing _ _ _ _ H1 Hv).
  - destruct (lookup_all_total _ _ Hall) as [mwl ->].
    cbn [mbind result_bind]. rewrite Hl.
    by rewrite (lookup_all_missing _ _ _ _ H1 Hv).
Qed.

Lemma rename_missing_table_entry_witness :
  FV.rename (example_self ["CO"; "NO"] [Single "co"; Single "nox"] 2010 1 2010 12)
    "out/" (Some {[ "CO" := qz 28 ]}) None ∅ = inl (KeyError "NO").
Proof.
  apply (rename_missing_table_entry _ _ _ _ _ ["CO"] [] "NO").
  - reflexivity.
  - left. split; [|reflexivity].
    constructor; [|constructor]. eexists. reflexivity.
Defined.

(** ** The derived files *)

Section Derived.

Variables (renamed : string -> string).
Hypothesis renamed_inj : Inj (=) (=) renamed.

(** Two files derived one after the other from the same output file. *)
Lemma derive_twice wu1 wu2 src dst1 dst2 k1 k2
  (fs : gmap string Nc.Dataset) output f :
  src <> dst1 -> src <> dst2 -> dst1 <> dst2 ->
  fs !! renamed src = Some output ->
  has_field3 output Transform._var_name f ->
  exists fs1 fs2 ds1 ds2,
    Transform.derive wu1 (renamed src) (renamed dst1) k1 fs = inr fs1 /\
    Transform.derive wu2 (renamed src) (renamed dst2) k2 fs1 = inr fs2 /\
    fs2 !! renamed src = Some output /\
    fs2 !! renamed dst1 = Some ds1 /\
    fs2 !! renamed dst2 = Some ds2 /\
    has_field3 ds1 Transform._var_name (fun t i j => (f t i j * k1)%Qc) /\
    has_field3 ds2 Transform._var_name (fun t i j => (f t i j * k2)%Qc) /\
    same_axis output ds1 /\ same_axis output ds2 /\
    forall p, p <> renamed dst1 -> p <> renamed dst2 -> fs2 !! p = fs !! p.
Proof.
  intros H1 H2 H12 Hsrc Hf.
  destruct (derive_spec wu1 (renamed src) (renamed dst1) k1 fs output f Hsrc Hf)
    as (fs1 & ds1 & E1 & Hd1 & Hf1 & Ht1 & Hdd1 & Hrest1).
  assert (Hsrc1 : fs1 !! renamed src = Some output).
  { rewrite Hrest1; [done|]. intros E. by apply renamed_inj in E. }
  destruct (derive_spec wu2 (renamed src) (renamed dst2) k2 fs1 output f Hsrc1 Hf)
    as (fs2 & ds2 & E2 & Hd2 & Hf2 & Ht2 & Hdd2 & Hrest2).
  exists fs1, fs2, ds1, ds2. repeat (split; [done|]).
  split. { rewrite Hrest2; [done|]. intros E. by apply renamed_inj in E. }
  split. { rewrite Hrest2; [done|]. intros E. by apply renamed_inj in E. }
  repeat (split; [done|]).
  intros p Hp1 Hp2. rewrite Hrest2 by done. by apply Hrest1.
Qed.

End Derived.

Lemma derived_blocks_CO renamed wu y1 y2 mw fs :
  Transform.derived_blocks renamed wu y1 y2 "CO" mw fs
  = Transform.CO_block renamed y1 y2 "CO" mw fs.
Proof.
  unfold Transform.derived_blocks.
  destruct (decide ("CO" = "bc_a4")) as [?|_]; [done|].
  destruct (decide ("CO" = "CO")) as [_|?]; [|done].
  destruct (decide ("CO" = "pom_a4")) as [?|_]; [done|].
  cbn [mbind result_bind mret result_ret].
  by destruct (Transform.CO_block renamed y1 y2 "CO" mw fs).
Qed.

(** The turn of [FV.rename] for CO also writes the files of HCN and
    CH3CN: the converted field of CO times [0.003 * mw / 27] and
    [0.002 * mw / 41].  The molecular weight of CO cancels. *)
Theorem rename_CO_writes_HCN_CH3CN (self : FV.t) (renamed_path : string)
  (mw_mapping : gmap string Qc) (date : string) (T D : list Z)
  (fs : gmap string Nc.Dataset) (s : string) (mw sf : Qc)
  (input_ds : Nc.Dataset) (inp : Nc.Field3) :
  fs !! FV.regridded_filename self date s = Some input_ds ->
  has_field3 input_ds "emiss_anthro" inp ->
  mw <> 0%Qc ->
  exists fs' hcn ch3cn hcn_field ch3cn_field,
    FV.rename_iter self renamed_path mw_mapping date T D fs
      (Single s, "CO", mw, sf) = inr fs' /\
    fs' !! FV.renamed_filename self renamed_path date "HCN_anthro" = Some hcn /\
    fs' !! FV.renamed_filename self renamed_path date "CH3CN_anthro" = Some ch3cn /\
    Nc.time hcn = T /\ Nc.date hcn = D /\
    Nc.time ch3cn = T /\ Nc.date ch3cn = D /\
    has_field3 hcn "emiss_anthro" hcn_field /\
    has_field3 ch3cn "emiss_anthro" ch3cn_field /\
    forall t i j,
      hcn_field t i j
        = (inp t i j * (Transform.unit_factor / mw) * sf
           * (Q2Qc 0.003 * mw / qz 27))%Qc /\
      hcn_field t i j
        = (inp t i j * Transform.unit_factor * sf * Q2Qc 0.003 / qz 27)%Qc /\
      ch3cn_field t i j
        = (inp t i j * (Transform.unit_factor / mw) * sf
           * (Q2Qc 0.002 * mw / qz 41))%Qc /\
      ch3cn_field t i j
        = (inp t i j * Transform.unit_factor * sf * Q2Qc 0.002 / qz 41)%Qc.
Proof.
  intros Hin Hinp Hmw.
  unfold FV.rename_iter. rewrite decide_False by done.
  destruct (write_output_single (FV.regridded_filename self date)
              (FV.renamed_filename self renamed_path date) T D
              (regridded_ne_renamed self renamed_path date)
              s "CO" mw sf fs input_ds inp Hin Hinp Hmw)
    as (fs1 & output & -> & Hout & Hf & Ht & Hd & _).
  cbn [mbind result_bind]. rewrite derived_blocks_CO.
  unfold Transform.CO_block. cbv zeta.
  destruct (derive_twice (FV.renamed_filename self renamed_path date)
              (renamed_filename_inj self renamed_path date)
              false false ("CO" +:+ "_anthro") "HCN_anthro" "CH3CN_anthro"
              (Q2Qc 0.003 * mw / qz 27)%Qc (Q2Qc 0.002 * mw / qz 41)%Qc
              fs1 output _ ltac:(done) ltac:(done) ltac:(done) Hout Hf)
    as (fs2 & fs3 & ds1 & ds2 & -> & E2 & _ & H1 & H2 & Hf1 & Hf2 & [Ht1 Hd1] & [Ht2 Hd2] & _).
  cbn [mbind result_bind]. rewrite E2. cbn [mbind result_bind].
  unfold Py.contains. rewrite bool_decide_eq_false_2.
  2:{ intros Hc. repeat (apply elem_of_cons in Hc as [Hc|Hc]; [done|]).
      by apply elem_of_nil in Hc. }
  cbn [mbind result_bind mret result_ret]. rewrite decide_False by done.
  eexists fs3, ds1, ds2, _, _. split; [done|].
  split; [done|]. split; [done|].
  split; [congruence|]. split; [congruence|].
  split; [congruence|]. split; [congruence|].
  split; [exact Hf1|]. split; [exact Hf2|].
  intros t i j. repeat split; try reflexivity; field; split; try done.
  all: intros E; apply (f_equal this) in E; vm_compute in E; discriminate E.
Qed.

Lemma rename_CO_writes_HCN_CH3CN_witness :
  exists fs' hcn ch3cn hcn_field ch3cn_field,
    FV.rename_iter self_CO "out/" default_mw_mapping "16" [3665] [20100116]
      (regridded_files self_CO "16" [("co", qz 2)])
      (Single "co", "CO", qz 28, qz 1) = inr fs' /\
    fs' !! FV.renamed_filename self_CO "out/" "16" "HCN_anthro" = Some hcn /\
    fs' !! FV.renamed_filename self_CO "out/" "16" "CH3CN_anthro" = Some ch3cn /\
    Nc.time hcn = [3665] /\ Nc.date hcn = [20100116] /\
    Nc.time ch3cn = [3665] /\ Nc.date ch3cn = [20100116] /\
    has_field3 hcn "emiss_anthro" hcn_field /\
    has_field3 ch3cn "emiss_anthro" ch3cn_field /\
    forall t i j,
      hcn_field t i j
        = (qz 2 * (Transform.unit_factor / qz 28) * qz 1
           * (Q2Qc 0.003 * qz 28 / qz 27))%Qc /\
      hcn_field t i j
        = (qz 2 * Transform.unit_factor * qz 1 * Q2Qc 0.003 / qz 27)%Qc /\
      ch3cn_field t i j
        = (qz 2 * (Transform.unit_factor / qz 28) * qz 1
           * (Q2Qc 0.002 * qz 28 / qz 41))%Qc /\
      ch3cn_field t i j
        = (qz 2 * Transform.unit_factor * qz 1 * Q2Qc 0.002 / qz 41)%Qc.
Proof.
  apply (rename_CO_writes_HCN_CH3CN self_CO "out/" default_mw_mapping "16"
           [3665] [20100116] (regridded_files self_CO "16" [("co", qz 2)])
           "co" (qz 28) (qz 1) (constant_file (qz 2)) (fun _ _ _ => qz 2)).
  - (vm_compute; reflexivity).
  - (eexists; vm_compute; reflexivity).
  - qc_ne0.
Defined.

Lemma getvar_Some ds name v :
  Nc.variables ds !! name = Some v -> Nc.getvar ds name = inr v.
Proof. intros H. unfold Nc.getvar, Py.getitem. by rewrite H. Qed.

Lemma getvar_set_var_eq name v ds :
  Nc.getvar (Nc.set_var name v ds) name = inr v.
Proof. apply getvar_Some. unfold Nc.set_var. simpl. apply lookup_insert_eq. Qed.

Lemma imul3_units ds name u f k :
  Nc.variables ds !! name = Some {| Nc.units := u; Nc.data := Nc.D3 f |} ->
  Nc.imul3 name k ds
  = inr (Nc.set_var name
           {| Nc.units := u; Nc.data := Nc.D3 (fun t i j => (f t i j * k)%Qc) |} ds).
Proof.
  intros Hv. unfold Nc.imul3, Nc.values3, Nc.assign3.
  rewrite (getvar_Some _ _ _ Hv). done.
Qed.

(** A derived file with its units. *)
Lemma derive_units wu src dst k (fs : gmap string Nc.Dataset) ds u f :
  fs !! src = Some ds ->
  Nc.variables ds !! Transform._var_name
    = Some {| Nc.units := u; Nc.data := Nc.D3 f |} ->
  exists fs' ds',
    Transform.derive wu src dst k fs = inr fs' /\
    fs' !! dst = Some ds' /\
    Nc.variables ds' !! Transform._var_name
      = Some {| Nc.units := if wu then Transform.num_var_unit else u;
                Nc.data := Nc.D3 (fun t i j => (f t i j * k)%Qc) |} /\
    Nc.time ds' = Nc.time ds /\ Nc.date ds' = Nc.date ds /\
    forall p, p <> dst -> fs' !! p = fs !! p.
Proof.
  intros Hsrc Hv.
  unfold Transform.derive, copy, modify, open_dataset. rewrite Hsrc.
  cbn [mbind result_bind mret result_ret].
  rewrite lookup_insert_eq. cbn [mbind result_bind mret result_ret].
  rewrite (imul3_units _ _ _ _ _ Hv). cbn [mbind result_bind mret result_ret].
  destruct wu; unfold Transform.set_num_units.
  - unfold Nc.set_units. rewrite getvar_set_var_eq.
    cbn [mbind result_bind mret result_ret].
    eexists _, _. split; [done|]. rewrite lookup_insert_eq.
    split; [done|]. unfold Nc.set_var. simpl. rewrite lookup_insert_eq.
    repeat (split; [done|]).
    intros p Hp. by rewrite !lookup_insert_ne.
  - cbn [mbind result_bind mret result_ret].
    eexists _, _. split; [done|]. rewrite lookup_insert_eq.
    split; [done|]. unfold Nc.set_var. simpl. rewrite lookup_insert_eq.
    repeat (split; [done|]).
    intros p Hp. by rewrite !lookup_insert_ne.
Qed.

Lemma write_output_single_units (regridded renamed : string -> string)
  (T D : list Z) s model_var mw sf (fs : gmap string Nc.Dataset) input_ds inp :
  (forall species x, regridded species <> renamed (x +:+ "_anthro")) ->
  fs !! regridded s = Some input_ds ->
  has_field3 input_ds Transform._var_name inp ->
  mw <> 0%Qc ->
  exists fs' output,
    Transform.write_output regridded renamed T D (Single s) model_var mw sf fs
      = inr fs' /\
    fs' !! renamed (model_var +:+ "_anthro") = Some output /\
    Nc.variables output !! Transform._var_name
      = Some {| Nc.units := Transform.var_unit;
                Nc.data := Nc.D3 (fun t i j =>
                  (inp t i j * (Transform.unit_factor / mw) * sf)%Qc) |} /\
    Nc.time output = T /\ Nc.date output = D /\
    forall p, p <> renamed (model_var +:+ "_anthro") -> fs' !! p = fs !! p.
Proof.
  intros Hne Hin Hinp Hmw. unfold Transform.write_output. simpl.
  unfold open_dataset. rewrite lookup_insert_ne by (by apply not_eq_sym).
  rewrite Hin. simpl. rewrite (values3_has _ _ _ Hinp). simpl.
  rewrite (div_ne0 _ _ Hmw). simpl.
  unfold Nc.assign3, Nc.getvar, Py.getitem, Nc.createVariable3. simpl.
  rewrite lookup_insert_eq. simpl.
  eexists _, _. split; [done|]. rewrite lookup_insert_eq. split; [done|].
  simpl. rewrite lookup_insert_eq. repeat (split; [done|]).
  intros p Hp. by rewrite !lookup_insert_ne.
Qed.

Lemma mass_per_particle_ne0 (rho diam : Qc) :
  rho <> 0%Qc -> diam <> 0%Qc -> Transform.mass_per_particle rho diam <> 0%Qc.
Proof.
  intros Hr Hd. unfold Transform.mass_per_particle. intros E.
  apply Qcmult_integral in E as [E|E].
  - apply Qcmult_integral in E as [E|E]; [done|].
    apply (f_equal this) in E. vm_compute in E. discriminate E.
  - apply Qcmult_integral in E as [E|E]; [|done].
    apply Qcmult_integral in E as [E|E]; done.
Qed.

Lemma derived_blocks_bc_a4 renamed wu y1 y2 mw fs :
  Transform.derived_blocks renamed wu y1 y2 "bc_a4" mw fs
  = Transform.bc_a4_block renamed wu "bc_a4" mw fs.
Proof.
  unfold Transform.derived_blocks.
  destruct (decide ("bc_a4" = "bc_a4")) as [_|?]; [|done].
  destruct (decide ("bc_a4" = "CO")) as [?|_]; [done|].
  destruct (decide ("bc_a4" = "pom_a4")) as [?|_]; [done|].
  by destruct (Transform.bc_a4_block renamed wu "bc_a4" mw fs).
Qed.

Lemma derived_blocks_pom_a4 renamed wu y1 y2 mw fs :
  Transform.derived_blocks renamed wu y1 y2 "pom_a4" mw fs
  = Transform.pom_a4_block renamed wu "pom_a4" mw fs.
Proof.
  unfold Transform.derived_blocks.
  destruct (decide ("pom_a4" = "bc_a4")) as [?|_]; [done|].
  destruct (decide ("pom_a4" = "CO")) as [?|_]; [done|].
  destruct (decide ("pom_a4" = "pom_a4")) as [_|?]; [|done].
  cbn [mbind result_bind mret result_ret].
  by destruct (Transform.pom_a4_block renamed wu "pom_a4" mw fs).
Qed.

Lemma not_composite (mv : string) :
  mv <> "BIGALK" -> mv <> "XYLENES" -> Py.contains mv ["BIGALK"; "XYLENES"] = false.
Proof.
  intros H1 H2. unfold Py.contains. apply bool_decide_eq_false_2. intros Hc.
  repeat (apply elem_of_cons in Hc as [Hc|Hc]; [done|]).
  by apply elem_of_nil in Hc.
Qed.

(** The turn of [FV.rename] for black carbon also writes the particle
    number file [num_bc_a4_anthro]: the converted field times
    [mw / mass_per_particle(1700, 0.134e-6)], in the units of particle
    numbers.  The molecular weight cancels. *)
Theorem rename_bc_a4_number_file (self : FV.t) (renamed_path : string)
  (mw_mapping : gmap string Qc) (date : string) (T D : list Z)
  (fs : gmap string Nc.Dataset) (s : string) (mw sf : Qc)
  (input_ds : Nc.Dataset) (inp : Nc.Field3) :
  fs !! FV.regridded_filename self date s = Some input_ds ->
  has_field3 input_ds "emiss_anthro" inp ->
  mw <> 0%Qc ->
  exists fs' output num num_field,
    FV.rename_iter self renamed_path mw_mapping date T D fs
      (Single s, "bc_a4", mw, sf) = inr fs' /\
    fs' !! FV.renamed_filename self renamed_path date "bc_a4_anthro" = Some output /\
    fs' !! FV.renamed_filename self renamed_path date "num_bc_a4_anthro" = Some num /\
    Nc.time num = T /\ Nc.date num = D /\
    Nc.variables output !! "emiss_anthro"
      = Some {| Nc.units := "molecules/cm2/s";
                Nc.data := Nc.D3 (fun t i j =>
                  (inp t i j * (Transform.unit_factor / mw) * sf)%Qc) |} /\
    Nc.variables num !! "emiss_anthro"
      = Some {| Nc.units := "particles/cm2/s)(molecules/mole)(g/kg)";
                Nc.data := Nc.D3 num_field |} /\
    forall t i j,
      num_field t i j
        = (inp t i j * (Transform.unit_factor / mw) * sf
           * (mw / Transform.mass_per_particle (qz 1700) (Q2Qc 0.134e-6)))%Qc /\
      num_field t i j
        = (inp t i j * Transform.unit_factor * sf
           / Transform.mass_per_particle (qz 1700) (Q2Qc 0.134e-6))%Qc.
Proof.
  intros Hin Hinp Hmw.
  unfold FV.rename_iter. rewrite decide_False by done.
  destruct (write_output_single_units (FV.regridded_filename self date)
              (FV.renamed_filename self renamed_path date) T D
              s "bc_a4" mw sf fs input_ds inp
              (regridded_ne_renamed self renamed_path date) Hin Hinp Hmw)
    as (fs1 & output & -> & Hout & Hv & Ht & Hd & _).
  cbn [mbind result_bind]. rewrite derived_blocks_bc_a4.
  unfold Transform.bc_a4_block. cbv zeta.
  destruct (derive_units true _
              (FV.renamed_filename self renamed_path date ("num_" +:+ "bc_a4" +:+ "_anthro"))
              (mw / Transform.mass_per_particle (qz 1700) (Q2Qc 0.134e-6))%Qc
              fs1 output _ _ Hout Hv)
    as (fs2 & num & -> & Hnum & Hnv & Htn & Hdn & Hrest).
  cbn [mbind result_bind]. rewrite not_composite by done.
  cbn [mbind result_bind mret result_ret]. rewrite decide_False by done.
  eexists fs2, output, num, _. split; [done|].
  split.
  { rewrite Hrest; [exact Hout|]. intros E.
    by apply renamed_filename_inj in E. }
  split; [exact Hnum|].
  split; [congruence|]. split; [congruence|].
  split; [exact Hv|]. split; [exact Hnv|].
  intros t i j. split; [reflexivity|].
  field. split; [|done].
  apply mass_per_particle_ne0; intros E; apply (f_equal this) in E;
    vm_compute in E; discriminate E.
Qed.

Lemma rename_bc_a4_number_file_witness :
  exists fs' output num num_field,
    FV.rename_iter self_CO "out/" default_mw_mapping "16" [3665] [20100116]
      (regridded_files self_CO "16" [("bc", qz 2)])
      (Single "bc", "bc_a4", qz 12, qz 1) = inr fs' /\
    fs' !! FV.renamed_filename self_CO "out/" "16" "bc_a4_anthro" = Some output /\
    fs' !! FV.renamed_filename self_CO "out/" "16" "num_bc_a4_anthro" = Some num /\
    Nc.time num = [3665] /\ Nc.date num = [20100116] /\
    Nc.variables output !! "emiss_anthro"
      = Some {| Nc.units := "molecules/cm2/s";
                Nc.data := Nc.D3 (fun t i j =>
                  (qz 2 * (Transform.unit_factor / qz 12) * qz 1)%Qc) |} /\
    Nc.variables num !! "emiss_anthro"
      = Some {| Nc.units := "particles/cm2/s)(molecules/mole)(g/kg)";
                Nc.data := Nc.D3 num_field |} /\
    forall t i j,
      num_field t i j
        = (qz 2 * (Transform.unit_factor / qz 12) * qz 1
           * (qz 12 / Transform.mass_per_particle (qz 1700) (Q2Qc 0.134e-6)))%Qc /\
      num_field t i j
        = (qz 2 * Transform.unit_factor * qz 1
           / Transform.mass_per_particle (qz 1700) (Q2Qc 0.134e-6))%Qc.
Proof.
  apply (rename_bc_a4_number_file self_CO "out/" default_mw_mapping "16"
           [3665] [20100116] (regridded_files self_CO "16" [("bc", qz 2)])
           "bc" (qz 12) (qz 1) (constant_file (qz 2)) (fun _ _ _ => qz 2)).
  - (vm_compute; reflexivity).
  - (eexists; vm_compute; reflexivity).
  - qc_ne0.
Defined.

(** The turn of [FV.rename] for organic carbon also writes the particle
    number file [num_pom_a4_anthro], the converted field times
    [mw / mass_per_particle(1000, 0.134e-6)] in the units of particle
    numbers, and the file of SVOC, the converted field times
    [0.6 * mw / 310]. *)
Theorem rename_pom_a4_number_and_SVOC (self : FV.t) (renamed_path : string)
  (mw_mapping : gmap string Qc) (date : string) (T D : list Z)
  (fs : gmap string Nc.Dataset) (s : string) (mw sf : Qc)
  (input_ds : Nc.Dataset) (inp : Nc.Field3) :
  fs !! FV.regridded_filename self date s = Some input_ds ->
  has_field3 input_ds "emiss_anthro" inp ->
  mw <> 0%Qc ->
  exists fs' num svoc,
    FV.rename_iter self renamed_path mw_mapping date T D fs
      (Single s, "pom_a4", mw, sf) = inr fs' /\
    fs' !! FV.renamed_filename self renamed_path date "num_pom_a4_anthro" = Some num /\
    fs' !! FV.renamed_filename self renamed_path date "SVOC_anthro" = Some svoc /\
    Nc.time num = T /\ Nc.date num = D /\
    Nc.time svoc = T /\ Nc.date svoc = D /\
    Nc.variables num !! "emiss_anthro"
      = Some {| Nc.units := "particles/cm2/s)(molecules/mole)(g/kg)";
                Nc.data := Nc.D3 (fun t i j =>
                  (inp t i j * (Transform.unit_factor / mw) * sf
                   * (mw / Transform.mass_per_particle (qz 1000) (Q2Qc 0.134e-6)))%Qc) |} /\
    Nc.variables svoc !! "emiss_anthro"
      = Some {| Nc.units := "molecules/cm2/s";
                Nc.data := Nc.D3 (fun t i j =>
                  (inp t i j * (Transform.unit_factor / mw) * sf
                   * (Q2Qc 0.6 * mw / qz 310))%Qc) |}.
Proof.
  intros Hin Hinp Hmw.
  unfold FV.rename_iter. rewrite decide_False by done.
  destruct (write_output_single_units (FV.regridded_filename self date)
              (FV.renamed_filename self renamed_path date) T D
              s "pom_a4" mw sf fs input_ds inp
              (regridded_ne_renamed self renamed_path date) Hin Hinp Hmw)
    as (fs1 & output & -> & Hout & Hv & Ht & Hd & _).
  cbn [mbind result_bind]. rewrite derived_blocks_pom_a4.
  unfold Transform.pom_a4_block. cbv zeta.
  destruct (derive_units true _
              (FV.renamed_filename self renamed_path date ("num_" +:+ "pom_a4" +:+ "_anthro"))
              (mw / Transform.mass_per_particle (qz 1000) (Q2Qc 0.134e-6))%Qc
              fs1 output _ _ Hout Hv)
    as (fs2 & num & -> & Hnum & Hnv & Htn & Hdn & Hrest).
  cbn [mbind result_bind].
  assert (Hout2 : fs2 !! FV.renamed_filename self renamed_path date ("pom_a4" +:+ "_anthro")
                  = Some output).
  { rewrite Hrest; [exact Hout|]. intros E. by apply renamed_filename_inj in E. }
  destruct (derive_units false _
              (FV.renamed_filename self renamed_path date "SVOC_anthro")
              (Q2Qc 0.6 * mw / qz 310)%Qc fs2 output _ _ Hout2 Hv)
    as (fs3 & svoc & -> & Hsvoc & Hsv & Hts & Hds & Hrest3).
  cbn [mbind result_bind]. rewrite not_composite by done.
  cbn [mbind result_bind mret result_ret]. rewrite decide_False by done.
  eexists fs3, num, svoc. split; [done|].
  split.
  { rewrite Hrest3; [exact Hnum|]. intros E.
    by apply renamed_filename_inj in E. }
  split; [exact Hsvoc|].
  split; [congruence|]. split; [congruence|].
  split; [congruence|]. split; [congruence|].
  split; [exact Hnv|exact Hsv].
Qed.

Lemma rename_pom_a4_number_and_SVOC_witness :
  exists fs' num svoc,
    FV.rename_iter self_CO "out/" default_mw_mapping "16" [3665] [20100116]
      (regridded_files self_CO "16" [("oc", qz 2)])
      (Single "oc", "pom_a4", qz 12, qz 1) = inr fs' /\
    fs' !! FV.renamed_filename self_CO "out/" "16" "num_pom_a4_anthro" = Some num /\
    fs' !! FV.renamed_filename self_CO "out/" "16" "SVOC_anthro" = Some svoc /\
    Nc.time num = [3665] /\ Nc.date num = [20100116] /\
    Nc.time svoc = [3665] /\ Nc.date svoc = [20100116] /\
    Nc.variables num !! "emiss_anthro"
      = Some {| Nc.units := "particles/cm2/s)(molecules/mole)(g/kg)";
                Nc.data := Nc.D3 (fun t i j =>
                  (qz 2 * (Transform.unit_factor / qz 12) * qz 1
                   * (qz 12 / Transform.mass_per_particle (qz 1000) (Q2Qc 0.134e-6)))%Qc) |} /\
    Nc.variables svoc !! "emiss_anthro"
      = Some {| Nc.units := "molecules/cm2/s";
                Nc.data := Nc.D3 (fun t i j =>
                  (qz 2 * (Transform.unit_factor / qz 12) * qz 1
                   * (Q2Qc 0.6 * qz 12 / qz 310))%Qc) |}.
Proof.
  apply (rename_pom_a4_number_and_SVOC self_CO "out/" default_mw_mapping "16"
           [3665] [20100116] (regridded_files self_CO "16" [("oc", qz 2)])
           "oc" (qz 12) (qz 1) (constant_file (qz 2)) (fun _ _ _ => qz 2)).
  - (vm_compute; reflexivity).
  - (eexists; vm_compute; reflexivity).
  - qc_ne0.
Defined.

(** ** The sulfur dioxide block *)





Ltac in_list :=
  repeat first [ apply list_elem_of_here | apply list_elem_of_further ].






Section SO2.

Variables (regridded renamed : string -> string).



Hypothesis renamed_inj : Inj (=) (=) renamed.
Variables (T D : list Z).







End SO2.

(** A regridded file is never an output file whose stem ends in seven
    characters other than [monthly]. *)
Lemma regridded_ne_renamed_suffix self rp date species x suffix :
  String.length suffix = 7%nat -> suffix <> "monthly" ->
  FV.regridded_filename self date species
  <> FV.renamed_filename self rp date (x +:+ suffix).
Proof.
  intros Hlen Hsuf.
  unfold FV.regridded_filename, FV.renamed_filename, FV._timestep. intros H.
  rewrite (string_app_assoc x) in H.
  rewrite <- !(string_app_assoc _ _ ("monthly" +:+ _)) in H.
  rewrite <- !(string_app_assoc _ _ (suffix +:+ _)) in H.
  apply string_app_inj_2 in H as [_ H].
  - apply string_app_inj_2 in H as [H _]; [by symmetry in H|done].
  - rewrite !string_app_length. rewrite Hlen. done.
Qed.







(** ** The sector groups and the regridded sectors *)

Lemma sum_over_app l k g : sum_over (l ++ k) g = (sum_over l g + sum_over k g)%Qc.
Proof.
  induction l as [|x l IH]; simpl; [by rewrite Qcplus_0_l|].
  rewrite IH. ring.
Qed.

Lemma sum_over_Permutation l k g : l ≡ₚ k -> sum_over l g = sum_over k g.
Proof.
  induction 1 as [|x l k _ IH|x y l|l k m _ IH1 _ IH2]; simpl.
  - done.
  - by rewrite IH.
  - ring.
  - by rewrite IH1.
Qed.

(** The four sector groups of the sulfur dioxide branch of [FV.rename]
    hold together every sector that [FV.apply_regridder] regrids, each
    once; so the four gas variables add up to the sum of all regridded
    sectors times [0.975 * (unit_factor / mw)]. *)
Theorem so2_groups_partition_sectors (self : FV.t)
  (ag_sol_was res_tra ene_ind : list string) (mw : Qc) (F : string -> Nc.Field3) :
  FV.so2_sectors self = inr (ag_sol_was, res_tra, ene_ind) ->
  (FV._source self = "CEDS" ->
   FV._download_method self = "globus" \/ FV._download_method self = "wget") ->
  ag_sol_was ++ res_tra ++ ["shp"] ++ ene_ind ≡ₚ FV.sector_list self /\
  forall t i j,
    (so2_sum mw F ag_sol_was t i j + so2_sum mw F res_tra t i j
     + so2_sum mw F ["shp"] t i j + so2_sum mw F ene_ind t i j)%Qc
    = so2_sum mw F (FV.sector_list self) t i j.
Proof.
  intros Hsec Hdm.
  assert (Hperm : ag_sol_was ++ res_tra ++ ["shp"] ++ ene_ind ≡ₚ FV.sector_list self).
  { unfold FV.so2_sectors in Hsec. unfold FV.sector_list.
    destruct (decide (FV._source self = "CAMS-GLOB-ANT")) as [|_].
    - destruct (decide (FV._version self = "v5.3"));
        injection Hsec as <- <- <-; by apply (bool_decide_unpack _).
    - destruct (decide (FV._source self = "CEDS")) as [Hc|]; [|discriminate Hsec].
      injection Hsec as <- <- <-.
      destruct (Hdm Hc) as [-> | ->].
      + rewrite decide_True by done. by apply (bool_decide_unpack _).
      + rewrite decide_False by done. rewrite decide_True by done.
        by apply (bool_decide_unpack _). }
  split; [exact Hperm|].
  intros t i j. unfold so2_sum.
  rewrite <- (sum_over_Permutation _ _ _ Hperm), !sum_over_app. ring.
Qed.

Lemma so2_groups_partition_sectors_witness :
  ["agr"; "sol"; "was"] ++ ["res"; "tra"] ++ ["shp"] ++ ["ene"; "ind"]
    ≡ₚ FV.sector_list self_SO2 /\
  forall t i j,
    (so2_sum (qz 64) (constant_fields so2_sector_values) ["agr"; "sol"; "was"] t i j
     + so2_sum (qz 64) (constant_fields so2_sector_values) ["res"; "tra"] t i j
     + so2_sum (qz 64) (constant_fields so2_sector_values) ["shp"] t i j
     + so2_sum (qz 64) (constant_fields so2_sector_values) ["ene"; "ind"] t i j)%Qc
    = so2_sum (qz 64) (constant_fields so2_sector_values) (FV.sector_list self_SO2) t i j.
Proof.
  apply (so2_groups_partition_sectors self_SO2
           ["agr"; "sol"; "was"] ["res"; "tra"] ["ene"; "ind"] (qz 64)
           (constant_fields so2_sector_values)).
  - reflexivity.
  - intros _. left. reflexivity.
Defined.

(** ** The list of inventory species *)

#[local] Instance str_le_total : Total Py.str_le.
Proof. intros a b. apply String.leb_total. Qed.

Lemma elem_of_unique (l : list string) (x : string) : x ∈ Py.unique l <-> x ∈ l.
Proof.
  unfold Py.unique. rewrite merge_sort_Permutation. apply elem_of_remove_dups.
Qed.

Lemma NoDup_unique (l : list string) : NoDup (Py.unique l).
Proof.
  unfold Py.unique. rewrite merge_sort_Permutation. apply NoDup_remove_dups.
Qed.

Lemma Sorted_unique (l : list string) : Sorted Py.str_le (Py.unique l).
Proof. unfold Py.unique. apply (Sorted_merge_sort _). Qed.

Lemma sel_species_list_step (acc : list string) (model_var : string) :
  model_var ∈ full_model_var_list ->
  (species ← Py.getitem species_mapping model_var;
   if negb (is_list species) then
     mret (acc ++ FV.as_list species)
   else if negb (bool_decide (model_var = "IVOC")) then
     mret (acc ++ FV.as_list species)
   else
     ivoc ← Py.getitem species_mapping "IVOC";
     mapped_species ← lookup_all species_mapping (iter_species ivoc);
     let flattened_species := concat (FV.as_list <$> mapped_species) in
     mret (acc ++ flattened_species))
  = inr (acc ++ inventory_species model_var).
Proof.
  intros Hin. unfold full_model_var_list in Hin.
  repeat (apply elem_of_cons in Hin as [->|Hin]; [vm_compute; reflexivity|]).
  by apply elem_of_nil in Hin.
Qed.

Lemma sel_species_list_spec (l : list string) :
  Forall (fun v => v ∈ full_model_var_list) l ->
  FV.sel_species_list l = inr (concat (inventory_species <$> l)).
Proof.
  unfold FV.sel_species_list. intros H.
  change (concat (inventory_species <$> l))
    with ([] ++ concat (inventory_species <$> l)).
  generalize (@nil string) as acc.
  induction H as [|v l Hv _ IH]; intros acc.
  - cbn [for_each fmap list_fmap concat]. by rewrite app_nil_r.
  - cbn [for_each]. pose proof (sel_species_list_step acc v Hv) as E.
    cbv zeta in E. rewrite E.
    cbn [mbind result_bind]. rewrite IH.
    rewrite fmap_cons. cbn [concat]. by rewrite app_assoc.
Qed.

Lemma elem_of_concat {A} (ls : list (list A)) (x : A) :
  x ∈ concat ls <-> exists l, x ∈ l /\ l ∈ ls.
Proof.
  induction ls as [|l ls IH]; simpl.
  - split; [by intros ?%elem_of_nil|by intros (l & _ & ?%elem_of_nil)].
  - rewrite elem_of_app, IH. split.
    + intros [H|(l' & H & Hl')].
      * exists l. split; [done|by left].
      * exists l'. split; [done|by right].
    + intros (l' & H & [->|Hl']%elem_of_cons); [by left|].
      right. by exists l'.
Qed.

Lemma init_source clk a self :
  FV.init clk a = inr self ->
  FV._source self = "CAMS-GLOB-ANT" \/ FV._source self = "CEDS".
Proof.
  unfold FV.init. intros H.
  destruct (Py.contains (FV.source a) _) eqn:Hsrc; [|discriminate H].
  apply bool_decide_eq_true in Hsrc.
  destruct (Py.contains (FV.target_resolution a) _); [|discriminate H].
  cbn [negb] in H.
  destruct (bool_decide (filter _ _ = [])); [|discriminate H].
  cbn [negb] in H.
  apply bind_inr in H as (sm & Hsm & H).
  destruct (if decide (FV.source a = "CAMS-GLOB-ANT") then _ else _)
    as [[[dv dr] df] dl].
  repeat (match type of H with
          | (if ?b then _ else _) = inr _ => destruct b; [discriminate H|]
          end).
  apply bind_inr in H as (sp & Hsp & H). injection H as <-. simpl.
  apply elem_of_cons in Hsrc as [?|Hsrc]; [by left|].
  apply list_elem_of_singleton in Hsrc. by right.
Qed.

Lemma inventory_species_mapped (source v s : string) :
  source = "CAMS-GLOB-ANT" \/ source = "CEDS" ->
  v ∈ full_model_var_list -> s ∈ inventory_species v ->
  exists m, FV.sourcedata_var_mapping source = inr m /\ is_Some (m !! s).
Proof.
  intros Hsrc Hv Hs.
  assert (H : forall src, src ∈ ["CAMS-GLOB-ANT"; "CEDS"] ->
            Forall (fun v => Forall (fun s =>
              match FV.sourcedata_var_mapping src with
              | inr m => is_Some (m !! s)
              | inl _ => False
              end) (inventory_species v)) full_model_var_list).
  { intros src Hsrc'.
    repeat (apply elem_of_cons in Hsrc' as [->|Hsrc']);
      [apply (bool_decide_unpack _); vm_compute; exact I..
      |by apply elem_of_nil in Hsrc']. }
  assert (Hin : source ∈ ["CAMS-GLOB-ANT"; "CEDS"]).
  { destruct Hsrc as [-> | ->]; [by left|by right; left]. }
  specialize (H source Hin).
  rewrite Forall_forall in H. specialize (H v Hv).
  rewrite Forall_forall in H. specialize (H s Hs).
  destruct (FV.sourcedata_var_mapping source) as [|m]; [done|].
  by exists m.
Qed.

(** For a configuration that [FV.__init__] accepts, the list of inventory
    species and the list of the names of their source data are computed
    without an exception and are of the same length; the species list is
    in increasing order without repetition, and holds exactly the
    inventory species behind the variables of the configuration. *)
Theorem init_species_list clk a self :
  FV.init clk a = inr self ->
  exists species_list sourcedata_var_list,
    FV._species_list self = inr species_list /\
    FV._sourcedata_var_list self = inr sourcedata_var_list /\
    length sourcedata_var_list = length species_list /\
    NoDup species_list /\
    Sorted Py.str_le species_list /\
    forall s, s ∈ species_list <->
      exists v, v ∈ FV._model_var_list self /\ s ∈ inventory_species v.
Proof.
  intros H.
  assert (Hvalid : Forall (fun v => v ∈ full_model_var_list) (FV._model_var_list self)).
  { destruct (init_model_var_list _ _ _ H) as (-> & Hv & _).
    by rewrite move_IVOC_last_Permutation. }
  pose proof (init_source _ _ _ H) as Hsrc.
  unfold FV._sourcedata_var_list, FV._species_list.
  rewrite (sel_species_list_spec _ Hvalid).
  cbn [mbind result_bind mret result_ret].
  set (sl := Py.unique (concat (inventory_species <$> FV._model_var_list self))).
  assert (Hmem : forall s, s ∈ sl <->
            exists v, v ∈ FV._model_var_list self /\ s ∈ inventory_species v).
  { intros s. unfold sl. rewrite elem_of_unique, elem_of_concat.
    split.
    - intros (l & Hs & Hl). apply list_elem_of_fmap in Hl as (v & -> & Hv).
      by exists v.
    - intros (v & Hv & Hs). exists (inventory_species v). split; [done|].
      by apply list_elem_of_fmap_2. }
  assert (Hm : exists m, FV.sourcedata_var_mapping (FV._source self) = inr m /\
                 Forall (fun s => is_Some (m !! s)) sl).
  { destruct (FV.sourcedata_var_mapping (FV._source self)) as [e|m] eqn:Em.
    - exfalso. unfold FV.sourcedata_var_mapping in Em.
      destruct Hsrc as [Hs|Hs]; rewrite Hs in Em; discriminate Em.
    - exists m. split; [done|]. apply Forall_forall. intros s Hs.
      apply Hmem in Hs as (v & Hv & Hs).
      rewrite Forall_forall in Hvalid.
      destruct (inventory_species_mapped _ v s Hsrc (Hvalid v Hv) Hs)
        as (m' & Em' & Hm').
      rewrite Em in Em'. by injection Em' as <-. }
  destruct Hm as (m & -> & Hall).
  cbn [mbind result_bind mret result_ret].
  destruct (lookup_all_total _ _ Hall) as [svl Hsvl].
  exists sl, svl. split; [done|]. split; [exact Hsvl|].
  split.
  { apply lookup_all_Forall2 in Hsvl. symmetry. by eapply Forall2_length. }
  split; [apply NoDup_unique|]. split; [apply Sorted_unique|]. exact Hmem.
Qed.

Lemma init_species_list_witness :
  exists species_list sourcedata_var_list,
    FV._species_list (example_self ["CO"; "BIGALK"]
                        [Single "co"; Multi ["butanes"; "pentanes"; "hexanes"; "esters"; "ethers"]]
                        2010 1 2010 12) = inr species_list /\
    FV._sourcedata_var_list (example_self ["CO"; "BIGALK"]
                        [Single "co"; Multi ["butanes"; "pentanes"; "hexanes"; "esters"; "ethers"]]
                        2010 1 2010 12) = inr sourcedata_var_list /\
    length sourcedata_var_list = length species_list /\
    NoDup species_list /\
    Sorted Py.str_le species_list /\
    forall s, s ∈ species_list <->
      exists v,
        v ∈ FV._model_var_list (example_self ["CO"; "BIGALK"]
                        [Single "co"; Multi ["butanes"; "pentanes"; "hexanes"; "esters"; "ethers"]]
                        2010 1 2010 12) /\
        s ∈ inventory_species v.
Proof.
  apply (init_species_list example_clock
           (example_args (Some ["CO"; "BIGALK"]) 2010 1 2010 12)).
  reflexivity.
Defined.

(** ** What [rename] leaves as it was *)

Section Frame.

Variables (regridded renamed : string -> string).
Variables (T D : list Z).
Variable (P : string -> Prop).

Abbreviation FS := (gmap string Nc.Dataset).

Lemma only_at_refl (fs : FS) : only_at P fs fs.
Proof. by intros p _. Qed.

Lemma only_at_trans (fs1 fs2 fs3 : FS) :
  only_at P fs1 fs2 -> only_at P fs2 fs3 -> only_at P fs1 fs3.
Proof. intros H12 H23 p Hp. rewrite (H23 p Hp). by apply H12. Qed.

Lemma only_at_insert (fs : FS) p ds : P p -> only_at P fs (<[p := ds]> fs).
Proof.
  intros Hp q Hq. rewrite lookup_insert_ne; [done|]. by intros ->.
Qed.

Lemma copy_frame src dst (fs fs' : FS) :
  copy src dst fs = inr fs' -> P dst -> only_at P fs fs'.
Proof.
  unfold copy. intros H Hp. inv_res H. subst. by apply only_at_insert.
Qed.

Lemma modify_frame p body (fs fs' : FS) :
  modify p body fs = inr fs' -> P p -> only_at P fs fs'.
Proof.
  unfold modify. intros H Hp. inv_res H. subst. by apply only_at_insert.
Qed.

Lemma derive_frame wu src dst k (fs fs' : FS) :
  Transform.derive wu src dst k fs = inr fs' -> P dst -> only_at P fs fs'.
Proof.
  unfold Transform.derive. intros H Hp.
  apply bind_inr in H as (fs1 & H1 & H2).
  eapply only_at_trans; [by eapply copy_frame|by eapply modify_frame].
Qed.

Lemma for_each_frame {A} (l : list A) (body : FS -> A -> result FS) :
  (forall fs x fs', x ∈ l -> body fs x = inr fs' -> only_at P fs fs') ->
  forall fs fs', for_each l body fs = inr fs' -> only_at P fs fs'.
Proof.
  induction l as [|x l IH]; intros Hbody fs fs' H; simpl in H.
  - injection H as <-. apply only_at_refl.
  - apply bind_inr in H as (fs1 & H1 & H2).
    eapply only_at_trans.
    + eapply Hbody; [by left|exact H1].
    + eapply IH; [|exact H2]. intros ? ? ? ?. apply Hbody. by right.
Qed.

Lemma write_output_frame species model_var mw sf (fs fs' : FS) :
  Transform.write_output regridded renamed T D species model_var mw sf fs
    = inr fs' ->
  P (renamed (model_var +:+ "_anthro")) -> only_at P fs fs'.
Proof.
  unfold Transform.write_output. intros H Hp.
  apply bind_inr in H as (output & _ & H). injection H as <-.
  eapply only_at_trans; by apply only_at_insert.
Qed.

Lemma derived_blocks_frame wu y1 y2 model_var mw (fs fs' : FS) :
  Transform.derived_blocks renamed wu y1 y2 model_var mw fs = inr fs' ->
  (model_var = "bc_a4" -> P (renamed ("num_" +:+ model_var +:+ "_anthro"))) ->
  (model_var = "CO" -> P (renamed "HCN_anthro") /\ P (renamed "CH3CN_anthro")) ->
  (model_var = "pom_a4" ->
   P (renamed ("num_" +:+ model_var +:+ "_anthro")) /\ P (renamed "SVOC_anthro")) ->
  only_at P fs fs'.
Proof.
  unfold Transform.derived_blocks. intros H Hbc Hco Hpom.
  apply bind_inr in H as (fs1 & H1 & H).
  apply bind_inr in H as (fs2 & H2 & H3).
  eapply only_at_trans; [|eapply only_at_trans].
  - destruct (decide (model_var = "bc_a4")) as [E|_].
    + unfold Transform.bc_a4_block in H1. eapply derive_frame; [exact H1|by apply Hbc].
    + injection H1 as <-. apply only_at_refl.
  - destruct (decide (model_var = "CO")) as [E|_].
    + unfold Transform.CO_block in H2.
      apply bind_inr in H2 as (fsa & Ha & Hb).
      destruct (Hco E) as [P1 P2].
      eapply only_at_trans; eapply derive_frame; eassumption.
    + injection H2 as <-. apply only_at_refl.
  - destruct (decide (model_var = "pom_a4")) as [E|_].
    + unfold Transform.pom_a4_block in H3.
      apply bind_inr in H3 as (fsa & Ha & Hb).
      destruct (Hpom E) as [P1 P2].
      eapply only_at_trans; eapply derive_frame; eassumption.
    + injection H3 as <-. apply only_at_refl.
Qed.

Lemma so2_block_frame wu species model_var mw ag_sol_was res_tra ene_ind
  (fs fs' : FS) :
  Transform.so2_block regridded renamed T D wu species model_var mw
    ag_sol_was res_tra ene_ind fs = inr fs' ->
  (forall stem,
     stem ∈ [model_var +:+ "_anthro-ag-ship-res"; model_var +:+ "_anthro-ene";
             "so4_a1_anthro-ag-ship"; "so4_a2_anthro-res";
             "so4_a1_anthro-ene-vertical"; "num_so4_a1_anthro-ag-ship";
             "num_so4_a2_anthro-res"; "num_so4_a1_anthro-ene-vertical"] ->
     P (renamed stem)) ->
  only_at P fs fs'.
Proof.
  unfold Transform.so2_block. cbv zeta. intros H HP.
  apply bind_inr in H as (fs1 & Hloop & H).
  apply for_each_frame in Hloop.
  2:{ intros fs0 f fs0' Hf Hb. cbv beta in Hb.
      repeat (match type of Hb with
              | (_ ≫= _) = inr _ =>
                  let o := fresh "o" in let Ho := fresh "Ho" in
                  apply bind_inr in Hb as (o & Ho & Hb)
              end).
      injection Hb as <-.
      assert (Pf : P f).
      { repeat (apply elem_of_cons in Hf as [->|Hf]; [apply HP; in_list|]).
        by apply elem_of_nil in Hf. }
      eapply only_at_trans; by apply only_at_insert. }
  apply bind_inr in H as (fs2 & Hc1 & H).
  apply bind_inr in H as (fs3 & Hm1 & H).
  apply bind_inr in H as (fs4 & Hc2 & H).
  apply bind_inr in H as (fs5 & Hm2 & H).
  apply bind_inr in H as (fs6 & Hc3 & Hm3).
  eapply only_at_trans; [exact Hloop|].
  eapply only_at_trans; [eapply copy_frame; [exact Hc1|apply HP; in_list]|].
  eapply only_at_trans; [eapply modify_frame; [exact Hm1|apply HP; in_list]|].
  eapply only_at_trans; [eapply copy_frame; [exact Hc2|apply HP; in_list]|].
  eapply only_at_trans; [eapply modify_frame; [exact Hm2|apply HP; in_list]|].
  eapply only_at_trans; [eapply copy_frame; [exact Hc3|apply HP; in_list]|].
  eapply modify_frame; [exact Hm3|apply HP; in_list].
Qed.

End Frame.

Lemma only_at_mono (P Q : string -> Prop) (fs fs' : gmap string Nc.Dataset) :
  (forall p, P p -> Q p) -> only_at P fs fs' -> only_at Q fs fs'.
Proof. intros HPQ H p Hp. apply H. intros HP. by apply Hp, HPQ. Qed.

(** One turn of [FV.rename] writes the files of its variable only. *)
Lemma rename_iter_frame (self : FV.t) (renamed_path : string)
  (mw_mapping : gmap string Qc) (date : string) (T D : list Z)
  (fs fs' : gmap string Nc.Dataset)
  (species : Species) (model_var : string) (mw sf : Qc) :
  FV.rename_iter self renamed_path mw_mapping date T D fs
    (species, model_var, mw, sf) = inr fs' ->
  only_at (fun p => exists stem, stem ∈ output_stems model_var /\
             p = FV.renamed_filename self renamed_path date stem) fs fs'.
Proof.
  unfold FV.rename_iter, output_stems. intros H.
  destruct (decide (model_var = "SO2")) as [Hso2|Hso2].
  - apply bind_inr in H as ([[ag rt] ei] & _ & H).
    eapply so2_block_frame; [exact H|].
    intros stem Hstem. by exists stem.
  - apply bind_inr in H as (fs1 & H1 & H).
    apply bind_inr in H as (fs2 & H2 & H).
    apply bind_inr in H as (fs3 & H3 & H4).
    set (P := fun p => exists stem, _ /\ p = _).
    assert (P0 : P (FV.renamed_filename self renamed_path date (model_var +:+ "_anthro"))).
    { eexists. split; [|reflexivity]. apply elem_of_app. left. by left. }
    eapply only_at_trans; [by eapply write_output_frame|].
    eapply only_at_trans.
    { eapply derived_blocks_frame; [exact H2|..].
      - intros E. eexists. split; [|reflexivity].
        rewrite !elem_of_app. right. left. rewrite decide_True by done. by left.
      - intros E. split; eexists; (split; [|reflexivity]);
          rewrite !elem_of_app; right; right; left; rewrite decide_True by done;
          in_list.
      - intros E. split; eexists; (split; [|reflexivity]);
          rewrite !elem_of_app; right; right; right; rewrite decide_True by done;
          in_list. }
    eapply only_at_trans.
    { destruct (Py.contains model_var ["BIGALK"; "XYLENES"]).
      - by eapply modify_frame.
      - injection H3 as <-. apply only_at_refl. }
    destruct (decide (model_var = "IVOC")).
    + by eapply modify_frame.
    + injection H4 as <-. apply only_at_refl.
Qed.

Lemma new_time_values_date source sy ey date dates :
  Transform.new_time_values source sy ey = inr (date, dates) ->
  date = anchor_date source.
Proof.
  unfold Transform.new_time_values, anchor_date.
  destruct (decide (source = "CAMS-GLOB-ANT")); [by intros [= <- _]|].
  destruct (decide (source = "CEDS")); [by intros [= <- _]|done].
Qed.

Lemma elem_of_zip4 {A B C E} (a : list A) (b : list B) (c : list C) (d : list E)
  x y z w :
  (x, y, z, w) ∈ Py.zip4 a b c d -> x ∈ a /\ y ∈ b /\ z ∈ c /\ w ∈ d.
Proof.
  revert b c d. induction a as [|x' a IH]; intros [|y' b] [|z' c] [|w' d] H;
    simpl in H; try (by apply elem_of_nil in H).
  apply elem_of_cons in H as [[= -> -> -> ->]|H].
  - repeat split; by left.
  - destruct (IH _ _ _ H) as (? & ? & ? & ?). repeat split; by right.
Qed.

Lemma regridded_ne_output_stems self rp date species model_var stem :
  stem ∈ output_stems model_var ->
  FV.regridded_filename self date species
  <> FV.renamed_filename self rp date stem.
Proof.
  unfold output_stems. intros Hstem.
  destruct (decide (model_var = "SO2")) as [->|_].
  - repeat (apply elem_of_cons in Hstem as [->|Hstem]).
    + by apply (regridded_ne_renamed_suffix _ _ _ _ "SO2_anthro-ag-s" "hip-res").
    + by apply (regridded_ne_renamed_suffix _ _ _ _ "SO2_ant" "hro-ene").
    + by apply (regridded_ne_renamed_suffix _ _ _ _ "so4_a1_anthro-" "ag-ship").
    + by apply (regridded_ne_renamed_suffix _ _ _ _ "so4_a2_ant" "hro-res").
    + by apply (regridded_ne_renamed_suffix _ _ _ _ "so4_a1_anthro-ene-v" "ertical").
    + by apply (regridded_ne_renamed_suffix _ _ _ _ "num_so4_a1_anthro-" "ag-ship").
    + by apply (regridded_ne_renamed_suffix _ _ _ _ "num_so4_a2_ant" "hro-res").
    + by apply (regridded_ne_renamed_suffix _ _ _ _ "num_so4_a1_anthro-ene-v" "ertical").
    + by apply elem_of_nil in Hstem.
  - rewrite !elem_of_app in Hstem.
    destruct Hstem as [Hstem|[Hstem|[Hstem|Hstem]]].
    + apply list_elem_of_singleton in Hstem as ->. apply regridded_ne_renamed.
    + destruct (decide (model_var = "bc_a4")); [|by apply elem_of_nil in Hstem].
      apply list_elem_of_singleton in Hstem as ->.
      rewrite <- string_app_assoc. apply regridded_ne_renamed.
    + destruct (decide (model_var = "CO")); [|by apply elem_of_nil in Hstem].
      repeat (apply elem_of_cons in Hstem as [->|Hstem]).
      * apply (regridded_ne_renamed _ _ _ _ "HCN").
      * apply (regridded_ne_renamed _ _ _ _ "CH3CN").
      * by apply elem_of_nil in Hstem.
    + destruct (decide (model_var = "pom_a4")); [|by apply elem_of_nil in Hstem].
      repeat (apply elem_of_cons in Hstem as [->|Hstem]).
      * rewrite <- string_app_assoc. apply regridded_ne_renamed.
      * apply (regridded_ne_renamed _ _ _ _ "SVOC").
      * by apply elem_of_nil in Hstem.
Qed.

(** [FV.rename] writes the output files of its variables and nothing
    else: every other path holds what it held before, and so does every
    regridded file. *)
Theorem rename_writes_only_outputs (self : FV.t) (renamed_path : string)
  (mw_mapping sf_mapping : option (gmap string Qc))
  (fs fs' : gmap string Nc.Dataset) :
  FV.rename self renamed_path mw_mapping sf_mapping fs = inr fs' ->
  let date := anchor_date (FV._source self) in
  (forall p,
     (forall model_var stem,
        model_var ∈ FV._model_var_list self -> stem ∈ output_stems model_var ->
        p <> FV.renamed_filename self renamed_path date stem) ->
     fs' !! p = fs !! p) /\
  (forall species,
     fs' !! FV.regridded_filename self date species
     = fs !! FV.regridded_filename self date species).
Proof.
  unfold FV.rename. intros H. cbv zeta.
  apply bind_inr in H as (mw_list & _ & H).
  apply bind_inr in H as (sf_list & _ & H).
  apply bind_inr in H as ([date dates] & Hdt & H).
  apply new_time_values_date in Hdt. subst date.
  set (date := anchor_date (FV._source self)) in *.
  set (P := fun p => exists model_var stem,
         model_var ∈ FV._model_var_list self /\ stem ∈ output_stems model_var /\
         p = FV.renamed_filename self renamed_path date stem).
  assert (Hframe : only_at P fs fs').
  { revert H. apply for_each_frame.
    intros fs0 [[[species model_var] mw] sf] fs0' Hin Hb.
    apply elem_of_zip4 in Hin as (_ & Hmv & _ & _).
    eapply only_at_mono; [|by eapply rename_iter_frame].
    intros p (stem & Hstem & ->). by exists model_var, stem. }
  split.
  - intros p Hp. apply Hframe. intros (v & stem & Hv & Hstem & ->).
    by eapply Hp.
  - intros species. apply Hframe. intros (v & stem & Hv & Hstem & E).
    by eapply regridded_ne_output_stems.
Qed.

Lemma rename_writes_only_outputs_witness :
  exists fs',
    FV.rename self_CO "out/" None None
      (regridded_files self_CO "16" [("co", qz 1)]) = inr fs' /\
    let date := anchor_date (FV._source self_CO) in
    (forall p,
       (forall model_var stem,
          model_var ∈ FV._model_var_list self_CO -> stem ∈ output_stems model_var ->
          p <> FV.renamed_filename self_CO "out/" date stem) ->
       fs' !! p = regridded_files self_CO "16" [("co", qz 1)] !! p) /\
    (forall species,
       fs' !! FV.regridded_filename self_CO date species
       = regridded_files self_CO "16" [("co", qz 1)]
           !! FV.regridded_filename self_CO date species).
Proof.
  destruct (eval_result
    (FV.rename self_CO "out/" None None
       (regridded_files self_CO "16" [("co", qz 1)]))
    (fun _ => tt) tt) as (fs' & E & _).
  { vm_compute. reflexivity. }
  exists fs'. split; [exact E|].
  exact (rename_writes_only_outputs self_CO "out/" None None _ fs' E).
Defined.

(** ** The time values are increasing *)

Lemma StronglySorted_fmap_seqZ (f : Z -> Z) (m n : Z) :
  (forall i j, m <= i -> i < j -> j < m + n -> f i < f j) ->
  StronglySorted Z.lt (f <$> seqZ m n).
Proof.
  intros Hf. destruct (decide (0 <= n)) as [Hn|Hn].
  2:{ rewrite seqZ_nil by lia. constructor. }
  rewrite <- (Z2Nat.id n Hn) in Hf |- *.
  generalize dependent m. induction (Z.to_nat n) as [|len IH]; intros m Hf.
  - constructor.
  - rewrite Nat2Z.inj_succ, seqZ_cons by lia. simpl.
    replace (Z.pred (Z.succ (Z.of_nat len))) with (Z.of_nat len) by lia.
    constructor.
    + apply IH. intros i j ? ? ?. apply Hf; lia.
    + apply Forall_fmap, Forall_forall. intros i Hi. simpl.
      apply elem_of_seqZ in Hi. apply Hf; lia.
Qed.

Lemma days_before_month_increasing (m m' : Z) :
  1 <= m -> m < m' -> m' <= 12 ->
  0 <= Cal.days_before_month m /\
  Cal.days_before_month m < Cal.days_before_month m' /\
  Cal.days_before_month m' <= 334.
Proof.
  intros H1 H2 H3.
  assert (H : Forall (fun a => Forall (fun b => a < b ->
            0 <= Cal.days_before_month a /\
            Cal.days_before_month a < Cal.days_before_month b /\
            Cal.days_before_month b <= 334) (seqZ 1 12)) (seqZ 1 12)).
  { apply (bool_decide_unpack _). vm_compute. exact I. }
  rewrite Forall_forall in H. specialize (H m). rewrite Forall_forall in H.
  apply H; [| |done]; apply elem_of_seqZ; lia.
Qed.

Lemma month_of_index (k : Z) : 1 <= k mod 12 + 1 <= 12.
Proof. pose proof (Z.mod_pos_bound k 12). lia. Qed.

Lemma calendar_time_increasing (sy ey day : Z) :
  StronglySorted Z.lt (Cal.date2num <$> calendar_months sy ey day).
Proof.
  unfold calendar_months. rewrite <- list_fmap_compose.
  apply StronglySorted_fmap_seqZ. intros i j Hi Hij _. simpl.
  pose proof (month_of_index i). pose proof (month_of_index j).
  assert (i / 12 <= j / 12) as Hq by (apply Z.div_le_mono; lia).
  destruct (decide (i / 12 = j / 12)) as [E|Hne].
  - assert (i mod 12 < j mod 12).
    { rewrite (Z.div_mod i 12), (Z.div_mod j 12) in Hij by lia. lia. }
    destruct (days_before_month_increasing (i mod 12 + 1) (j mod 12 + 1))
      as (_ & Hlt & _); lia.
  - assert (0 <= Cal.days_before_month (j mod 12 + 1)).
    { destruct (decide (j mod 12 + 1 = 12)) as [->|].
      - vm_compute. discriminate.
      - destruct (days_before_month_increasing (j mod 12 + 1) 12); lia. }
    assert (Cal.days_before_month (i mod 12 + 1) <= 334).
    { destruct (decide (i mod 12 + 1 = 1)) as [->|].
      - vm_compute. discriminate.
      - destruct (days_before_month_increasing 1 (i mod 12 + 1)); lia. }
    lia.
Qed.

Lemma calendar_date_increasing (sy ey day : Z) :
  0 <= day < 100 ->
  StronglySorted Z.lt (Cal.strftime_int <$> calendar_months sy ey day).
Proof.
  intros Hday. unfold calendar_months. rewrite <- list_fmap_compose.
  apply StronglySorted_fmap_seqZ. intros i j Hi Hij _. simpl.
  pose proof (month_of_index i). pose proof (month_of_index j).
  assert (i / 12 <= j / 12) as Hq by (apply Z.div_le_mono; lia).
  destruct (decide (i / 12 = j / 12)) as [E|Hne].
  - assert (i mod 12 < j mod 12).
    { rewrite (Z.div_mod i 12), (Z.div_mod j 12) in Hij by lia. lia. }
    lia.
  - lia.
Qed.

Lemma anchor_day_bounds source : 0 <= anchor_day source < 100.
Proof. unfold anchor_day. destruct (decide _); lia. Qed.

Lemma calendar_time_year (sy ey day : Z) (k : nat) (x y : Z) :
  (Cal.date2num <$> calendar_months sy ey day) !! k = Some x ->
  (Cal.date2num <$> calendar_months sy ey day) !! (k + 12)%nat = Some y ->
  y = x + 365.
Proof.
  unfold calendar_months. rewrite <- !list_fmap_compose, !list_lookup_fmap.
  intros Hx Hy.
  apply fmap_Some in Hx as (i & Hi & ->). apply fmap_Some in Hy as (j & Hj & ->).
  apply lookup_seqZ in Hi as [-> _]. apply lookup_seqZ in Hj as [-> _].
  simpl. rewrite !Z.add_0_l.
  replace (Z.of_nat (k + 12)) with (Z.of_nat k + 1 * 12) by lia.
  rewrite Z.div_add, Z.mod_add by lia. lia.
Qed.

(** Every file that [FV.rename] writes has strictly increasing time and
    date coordinates, and, the calendar having no leap years, two time
    values twelve entries apart differ by 365 days. *)
Theorem rename_time_increasing (self : FV.t) (renamed_path : string)
  (mw_mapping sf_mapping : option (gmap string Qc))
  (fs fs' : gmap string Nc.Dataset) :
  FV.rename self renamed_path mw_mapping sf_mapping fs = inr fs' ->
  forall path ds,
    fs' !! path = Some ds -> fs !! path <> Some ds ->
    StronglySorted Z.lt (Nc.time ds) /\
    StronglySorted Z.lt (Nc.date ds) /\
    forall (k : nat) (x y : Z),
      Nc.time ds !! k = Some x -> Nc.time ds !! (k + 12)%nat = Some y ->
      y = x + 365.
Proof.
  unfold FV.rename. intros H path ds Hds Hnew.
  apply bind_inr in H as (mw_list & _ & H).
  apply bind_inr in H as (sf_list & _ & H).
  apply bind_inr in H as ([date dates] & Hdt & H).
  apply new_time_values_calendar in Hdt. subst dates.
  assert (Hstep : step
    (Cal.date2num <$> calendar_months (FV._start_year self) (FV._end_year self)
                        (anchor_day (FV._source self)))
    (Cal.strftime_int <$> calendar_months (FV._start_year self) (FV._end_year self)
                            (anchor_day (FV._source self))) fs fs').
  { revert H. apply for_each_step. intros fs1 item fs2. apply rename_iter_step. }
  destruct (Hstep path) as [E|(ds' & E & Ht & Hd)].
  - rewrite Hds in E. by symmetry in E.
  - rewrite Hds in E. injection E as <-. rewrite Ht, Hd.
    split; [apply calendar_time_increasing|].
    split; [apply calendar_date_increasing, anchor_day_bounds|].
    apply calendar_time_year.
Qed.

Lemma rename_time_increasing_witness :
  exists fs',
    FV.rename self_window "out/" None None
      (regridded_files self_window "16" [("co", qz 1)]) = inr fs' /\
    forall path ds,
      fs' !! path = Some ds ->
      regridded_files self_window "16" [("co", qz 1)] !! path <> Some ds ->
      StronglySorted Z.lt (Nc.time ds) /\
      StronglySorted Z.lt (Nc.date ds) /\
      forall (k : nat) (x y : Z),
        Nc.time ds !! k = Some x -> Nc.time ds !! (k + 12)%nat = Some y ->
        y = x + 365.
Proof.
  destruct (eval_result
    (FV.rename self_window "out/" None None
       (regridded_files self_window "16" [("co", qz 1)]))
    (fun _ => tt) tt) as (fs' & E & _).
  { vm_compute. reflexivity. }
  exists fs'. split; [exact E|].
  exact (rename_time_increasing self_window "out/" None None _ fs' E).
Defined.

(** ** The stand-alone [Rename] class *)

Lemma Rename_output_filename_inj self date :
  Inj (=) (=) (Rename.output_filename self date).
Proof.
  intros s1 s2 H. unfold Rename.output_filename in H.
  do 4 apply (inj (String.app _)) in H.
  apply string_app_inj_2 in H as [H _]; done.
Qed.

Lemma Rename_input_ne_output_suffix self date species x suffix :
  Rename._timestep self = "monthly" ->
  String.length suffix = 7%nat -> suffix <> "monthly" ->
  Rename.input_filename self date species
  <> Rename.output_filename self date (x +:+ suffix).
Proof.
  intros Hts Hlen Hsuf.
  unfold Rename.input_filename, Rename.output_filename. rewrite Hts. intros H.
  rewrite (string_app_assoc x) in H.
  rewrite <- !(string_app_assoc _ _ ("monthly" +:+ _)) in H.
  rewrite <- !(string_app_assoc _ _ (suffix +:+ _)) in H.
  apply string_app_inj_2 in H as [_ H].
  - apply string_app_inj_2 in H as [H _]; [by symmetry in H|done].
  - rewrite !string_app_length. rewrite Hlen. done.
Qed.

Lemma Rename_input_ne_output self date species x :
  Rename._timestep self = "monthly" ->
  Rename.input_filename self date species
  <> Rename.output_filename self date (x +:+ "_anthro").
Proof. intros H. by apply Rename_input_ne_output_suffix. Qed.

(** The turn of [Rename.rename] for a single-name variable other than
    SO2 writes the output file with the regridded field times
    [unit_factor / mw * sf], in molecules/cm2/s, on the new time axis. *)
Theorem Rename_single_species (self : Rename.t) (date : string) (T D : list Z)
  (fs : gmap string Nc.Dataset) (varname s : string) (mw sf : Qc)
  (input_ds : Nc.Dataset) (inp : Nc.Field3) :
  Rename._timestep self = "monthly" ->
  species_mapping !! varname = Some (Single s) ->
  varname <> "SO2" ->
  fs !! Rename.input_filename self date s = Some input_ds ->
  has_field3 input_ds "emiss_anthro" inp ->
  mw <> 0%Qc ->
  exists fs' output,
    Rename.rename_iter self date T D fs (varname, Single s, mw, sf) = inr fs' /\
    fs' !! Rename.output_filename self date (varname +:+ "_anthro") = Some output /\
    Nc.time output = T /\ Nc.date output = D /\
    Nc.variables output !! "emiss_anthro"
      = Some {| Nc.units := "molecules/cm2/s";
                Nc.data := Nc.D3 (fun t i j =>
                  (inp t i j * (Transform.unit_factor / mw) * sf)%Qc) |}.
Proof.
  intros Hts Hsp Hso2 Hin Hinp Hmw.
  destruct (single_not_composite _ _ Hsp) as [Hcomp Hivoc].
  unfold Rename.rename_iter.
  destruct (write_output_single_units (Rename.input_filename self date)
              (Rename.output_filename self date) T D
              s varname mw sf fs input_ds inp
              (fun sp x => Rename_input_ne_output self date sp x Hts) Hin Hinp Hmw)
    as (fs1 & output & -> & Hout & Hv & Ht & Hd & _).
  cbn [mbind result_bind].
  destruct (derived_blocks_keep (Rename.output_filename self date)
              T D (Rename_output_filename_inj self date)
              false (Q2Qc 0.0055) (Q2Qc 0.0025) varname mw fs1 output _
              Hout ltac:(by eexists) Ht Hd)
    as (fs2 & -> & Hout2 & _).
  cbn [mbind result_bind]. rewrite decide_False by done.
  cbn [mbind result_bind mret result_ret]. rewrite Hcomp.
  cbn [mbind result_bind mret result_ret]. rewrite decide_False by done.
  exists fs2, output. done.
Qed.

Lemma Rename_single_species_witness :
  exists fs' output,
    Rename.rename_iter (example_rename_self ["CO"] [Single "co"] [qz 28] [qz 1])
      "16" [3665] [20100116] (regridded_files self_CO "16" [("co", qz 2)])
      ("CO", Single "co", qz 28, qz 1) = inr fs' /\
    fs' !! Rename.output_filename
             (example_rename_self ["CO"] [Single "co"] [qz 28] [qz 1])
             "16" ("CO" +:+ "_anthro") = Some output /\
    Nc.time output = [3665] /\ Nc.date output = [20100116] /\
    Nc.variables output !! "emiss_anthro"
      = Some {| Nc.units := "molecules/cm2/s";
                Nc.data := Nc.D3 (fun t i j =>
                  (qz 2 * (Transform.unit_factor / qz 28) * qz 1)%Qc) |}.
Proof.
  apply (Rename_single_species
           (example_rename_self ["CO"] [Single "co"] [qz 28] [qz 1])
           "16" [3665] [20100116] (regridded_files self_CO "16" [("co", qz 2)])
           "CO" "co" (qz 28) (qz 1) (constant_file (qz 2)) (fun _ _ _ => qz 2)).
  - reflexivity.
  - (vm_compute; reflexivity).
  - discriminate.
  - (vm_compute; reflexivity).
  - (eexists; vm_compute; reflexivity).
  - qc_ne0.
Defined.






(** ** Where the roll moves the data *)

Lemma roll_lookup {A} (k : nat) (l : list A) (j : nat) :
  (j < length l)%nat ->
  Py.roll k l !! j = l !! ((j + (length l - k mod length l)) mod length l)%nat.
Proof.
  intros Hj. unfold Py.roll.
  destruct (length l) as [|n'] eqn:Hn; [lia|].
  set (n := S n') in *. set (d := (n - k mod n)%nat).
  assert (k mod n < n)%nat by (apply Nat.mod_upper_bound; lia).
  assert (Hd : (0 < d <= n)%nat) by (unfold d; lia).
  destruct (decide (j < n - d)%nat) as [Hlt|Hge].
  - rewrite lookup_app_l by (rewrite length_drop; lia).
    rewrite lookup_drop. f_equal.
    rewrite Nat.mod_small by lia. lia.
  - rewrite lookup_app_r by (rewrite length_drop; lia).
    rewrite length_drop, Hn. rewrite lookup_take_lt by lia. f_equal.
    replace (j + d)%nat with ((j - (n - d)) + 1 * n)%nat by lia.
    rewrite Nat.Div0.mod_add. rewrite Nat.mod_small by lia. done.
Qed.

Lemma length_arange (start stop step : Qc) :
  length (Py.arange start stop step)
  = Z.to_nat (Qceiling ((stop - start) / step)%Qc).
Proof. unfold Py.arange. by rewrite length_fmap, length_seqZ. Qed.

Lemma arange_lookup_Some (start stop step : Qc) (k : nat) :
  (k < length (Py.arange start stop step))%nat ->
  Py.arange start stop step !! k = Some (start + qz (Z.of_nat k) * step)%Qc.
Proof.
  intros Hk. rewrite length_arange in Hk.
  unfold Py.arange. rewrite list_lookup_fmap.
  rewrite lookup_seqZ_lt by lia. simpl. by rewrite Z.add_0_l.
Qed.

Lemma init_source_resolution clk a self :
  FV.init clk a = inr self ->
  FV._source self = "CAMS-GLOB-ANT" /\ FV._original_resolution self = "0.1x0.1" \/
  FV._source self = "CEDS" /\ FV._original_resolution self = "0.5x0.5".
Proof.
  unfold FV.init. intros H.
  destruct (Py.contains (FV.source a) _) eqn:Hsrc; [|discriminate H].
  apply bool_decide_eq_true in Hsrc.
  destruct (Py.contains (FV.target_resolution a) _); [|discriminate H].
  cbn [negb] in H.
  destruct (bool_decide (filter _ _ = [])); [|discriminate H].
  cbn [negb] in H.
  apply bind_inr in H as (sm & Hsm & H).
  destruct (decide (FV.source a = "CAMS-GLOB-ANT")) as [Hcams|Hcams].
  - destruct (Py.contains (FV.version a) _); [|discriminate H].
    destruct (bool_decide (FV.original_resolution a = Some "0.1x0.1")) eqn:Hres;
      [|discriminate H].
    cbn [negb] in H. apply bool_decide_eq_true in Hres.
    repeat (destruct (decide _) as [?|?] in H; [discriminate H|]).
    apply bind_inr in H as (sp & Hsp & H). injection H as <-. simpl.
    left. rewrite Hres. done.
  - destruct (Py.contains (FV.version a) _); [|discriminate H].
    destruct (bool_decide (FV.original_resolution a = Some "0.5x0.5")) eqn:Hres;
      [|discriminate H].
    cbn [negb] in H. apply bool_decide_eq_true in Hres.
    destruct (decide (FV.start_year a > FV.end_year a)) as [?|?]; [discriminate H|].
    destruct (decide (FV.start_year a < _)) as [?|?] in H; [discriminate H|].
    destruct (decide (FV.end_year a > 2019)) as [?|?]; [discriminate H|].
    destruct (decide (12 * _ + _ <= _)) as [?|?] in H; [discriminate H|].
    apply bind_inr in H as (sp & Hsp & H). injection H as <-. simpl.
    right. rewrite Hres. split; [|done].
    apply elem_of_cons in Hsrc as [?|Hsrc]; [done|].
    by apply list_elem_of_singleton in Hsrc.
Qed.

(** The grid of a source: its spacing, the number of its longitudes and
    the roll, half that number. *)
Lemma init_grid clk a self :
  FV.init clk a = inr self ->
  exists (spacing : Qc) (half : nat),
    FV.grid_spacing (FV._original_resolution self) = inr spacing /\
    FV._original_lon self = Py.arange (qz 0) (qz 360) spacing /\
    FV._original_lat self = Py.arange (qz (-90)) (qz 90) spacing /\
    FV.nlon self = half /\ (0 < half)%nat /\
    length (Py.arange (qz 0) (qz 360) spacing) = (2 * half)%nat /\
    length (Py.arange (qz (-180)) (qz 180) spacing) = (2 * half)%nat /\
    (qz (Z.of_nat half) * spacing = qz 180)%Qc.
Proof.
  intros H.
  destruct (init_original_grid _ _ _ H) as (spacing & Hsp & _ & Hlon & Hlat).
  destruct (init_source_resolution _ _ _ H) as [[Hs Hr]|[Hs Hr]];
    rewrite Hr in Hsp; injection Hsp as <-; unfold FV.nlon; rewrite Hs.
  - exists (Q2Qc 0.1), 1800%nat. rewrite Hr.
    split; [done|]. split; [done|]. split; [done|]. split; [done|].
    split; [lia|]. rewrite !length_arange.
    split; [by vm_compute|]. split; [by vm_compute|].
    apply Qc_is_canon. reflexivity.
  - exists (Q2Qc 0.5), 360%nat. rewrite Hr.
    split; [done|]. split; [done|]. split; [done|]. split; [done|].
    split; [lia|]. rewrite !length_arange.
    split; [by vm_compute|]. split; [by vm_compute|].
    apply Qc_is_canon. reflexivity.
Qed.

Lemma qz_add (a b : Z) : (qz a + qz b = qz (a + b))%Qc.
Proof.
  unfold qz. apply Qc_is_canon. simpl. rewrite !Qred_correct.
  unfold Qeq. simpl. lia.
Qed.

Lemma qz_mul (a b : Z) : (qz a * qz b = qz (a * b))%Qc.
Proof.
  unfold qz. apply Qc_is_canon. simpl. rewrite !Qred_correct.
  unfold Qeq. simpl. lia.
Qed.

Lemma align_longitude_values clk a self (ds : FV.GridDataset) (half : nat) :
  FV.init clk a = inr self ->
  FV.nlon self = half -> (0 < half)%nat ->
  length (FV.gd_lon ds) = (2 * half)%nat ->
  length (FV._original_lon self) = (2 * half)%nat ->
  length (FV.gd_lat ds) = length (FV._original_lat self) ->
  exists ds',
    FV.align_longitude self ds = inr ds' /\
    FV.gd_lon ds' = FV._original_lon self /\
    forall t i j, (j < 2 * half)%nat ->
      FV.gd_values ds' t i j = FV.gd_values ds t i ((j + half) mod (2 * half))%nat.
Proof.
  intros Hinit Hn Hpos Hlen Holen Hlat.
  unfold FV.align_longitude, FV.assign_coords. simpl.
  rewrite length_fmap, length_roll, Hlen, Holen, Hlat.
  rewrite !bool_decide_eq_true_2 by done. simpl.
  eexists. split; [reflexivity|]. split; [reflexivity|]. simpl.
  intros t i j Hj. rewrite Hn.
  change (half + (half + 0))%nat with (2 * half)%nat in *.
  destruct (2 * half)%nat as [|m] eqn:Em; [lia|].
  rewrite <- Em. f_equal. f_equal.
  rewrite (Nat.mod_small half) by lia. lia.
Qed.

(** A field stored from 180 W eastwards, as the inventories store it,
    keeps its geography through the alignment: every column of the
    result holds the data of the source column whose longitude is the
    same angle, equal or 360 degrees less. *)
Theorem align_longitude_keeps_geography clk a self (ds : FV.GridDataset)
  (spacing : Qc) :
  FV.init clk a = inr self ->
  FV.grid_spacing (FV._original_resolution self) = inr spacing ->
  FV.gd_lon ds = Py.arange (qz (-180)) (qz 180) spacing ->
  length (FV.gd_lat ds) = length (FV._original_lat self) ->
  exists ds',
    FV.align_longitude self ds = inr ds' /\
    forall (j : nat) (x : Qc),
      FV.gd_lon ds' !! j = Some x ->
      exists (j0 : nat) (x0 : Qc),
        FV.gd_lon ds !! j0 = Some x0 /\
        (x = x0 \/ x = (x0 + qz 360)%Qc) /\
        forall t i, FV.gd_values ds' t i j = FV.gd_values ds t i j0.
Proof.
  intros Hinit Hsp Hlon Hlat.
  destruct (init_grid _ _ _ Hinit)
    as (sp & half & Hsp' & Holon & _ & Hn & Hpos & Hl0 & Hl180 & Hhalf).
  rewrite Hsp in Hsp'. injection Hsp' as <-.
  destruct (align_longitude_values clk a self ds half Hinit Hn Hpos)
    as (ds' & E & Hlon' & Hval); [by rewrite Hlon|by rewrite Holon|done|].
  exists ds'. split; [exact E|]. intros j x Hx.
  rewrite Hlon', Holon in Hx.
  assert (Hj : (j < 2 * half)%nat).
  { apply lookup_lt_Some in Hx. by rewrite Hl0 in Hx. }
  rewrite arange_lookup_Some in Hx by (by rewrite Hl0). injection Hx as <-.
  exists ((j + half) mod (2 * half))%nat. eexists.
  assert (Hj0 : ((j + half) mod (2 * half) < 2 * half)%nat)
    by (apply Nat.mod_upper_bound; lia).
  split.
  { rewrite Hlon. apply arange_lookup_Some. by rewrite Hl180. }
  split; [|intros t i; by apply Hval].
  assert (C1 : (qz (-180) + qz 180 = 0)%Qc) by (apply Qc_is_canon; reflexivity).
  assert (C2 : (qz (-180) - qz 180 + qz 360 = 0)%Qc) by (apply Qc_is_canon; reflexivity).
  assert (C0 : qz 0 = 0%Qc) by (apply Qc_is_canon; reflexivity).
  destruct (decide (j < half)%nat) as [Hlt|Hge].
  - left. rewrite Nat.mod_small by lia.
    rewrite Nat2Z.inj_add, <- qz_add.
    replace ((qz (Z.of_nat j) + qz (Z.of_nat half)) * spacing)%Qc
      with (qz (Z.of_nat j) * spacing + qz (Z.of_nat half) * spacing)%Qc by ring.
    rewrite Hhalf, C0.
    replace (qz (-180) + (qz (Z.of_nat j) * spacing + qz 180))%Qc
      with (qz (Z.of_nat j) * spacing + (qz (-180) + qz 180))%Qc by ring.
    rewrite C1. ring.
  - right.
    replace (j + half)%nat with ((j - half) + 1 * (2 * half))%nat by lia.
    rewrite Nat.Div0.mod_add. rewrite Nat.mod_small by lia.
    assert (Ej : (qz (Z.of_nat j) = qz (Z.of_nat (j - half)) + qz (Z.of_nat half))%Qc).
    { rewrite qz_add. f_equal. lia. }
    rewrite Ej.
    replace ((qz (Z.of_nat (j - half)) + qz (Z.of_nat half)) * spacing)%Qc
      with (qz (Z.of_nat (j - half)) * spacing + qz (Z.of_nat half) * spacing)%Qc by ring.
    rewrite Hhalf, C0.
    replace (qz (-180) + qz (Z.of_nat (j - half)) * spacing + qz 360)%Qc
      with (qz (Z.of_nat (j - half)) * spacing + qz 180
            + (qz (-180) - qz 180 + qz 360))%Qc by ring.
    rewrite C2. ring.
Qed.

Lemma align_longitude_keeps_geography_witness :
  exists ds',
    FV.align_longitude (example_self ["CO"] [Single "co"] 2010 1 2010 12)
      example_source_ds = inr ds' /\
    forall (j : nat) (x : Qc),
      FV.gd_lon ds' !! j = Some x ->
      exists (j0 : nat) (x0 : Qc),
        FV.gd_lon example_source_ds !! j0 = Some x0 /\
        (x = x0 \/ x = (x0 + qz 360)%Qc) /\
        forall t i, FV.gd_values ds' t i j = FV.gd_values example_source_ds t i j0.
Proof.
  apply (align_longitude_keeps_geography example_clock
           (example_args (Some ["CO"]) 2010 1 2010 12)
           (example_self ["CO"] [Single "co"] 2010 1 2010 12)
           example_source_ds (Q2Qc 0.5)).
  - reflexivity.
  - reflexivity.
  - reflexivity.
  - vm_compute. reflexivity.
Defined.

(** The roll is not conditional: a field that is already stored from 0
    eastwards comes out with the data of the opposite meridian under
    each longitude. *)
Theorem align_longitude_turns_0_360_source clk a self (ds : FV.GridDataset) :
  FV.init clk a = inr self ->
  FV.gd_lon ds = FV._original_lon self ->
  length (FV.gd_lat ds) = length (FV._original_lat self) ->
  exists ds',
    FV.align_longitude self ds = inr ds' /\
    FV.gd_lon ds' = FV.gd_lon ds /\
    forall (j : nat) (x : Qc),
      FV.gd_lon ds' !! j = Some x ->
      exists (j0 : nat) (x0 : Qc),
        FV.gd_lon ds !! j0 = Some x0 /\
        (x0 = (x + qz 180)%Qc \/ x0 = (x - qz 180)%Qc) /\
        forall t i, FV.gd_values ds' t i j = FV.gd_values ds t i j0.
Proof.
  intros Hinit Hlon Hlat.
  destruct (init_grid _ _ _ Hinit)
    as (spacing & half & Hsp & Holon & _ & Hn & Hpos & Hl0 & _ & Hhalf).
  destruct (align_longitude_values clk a self ds half Hinit Hn Hpos)
    as (ds' & E & Hlon' & Hval);
    [by rewrite Hlon, Holon|by rewrite Holon|done|].
  exists ds'. split; [exact E|]. split; [by rewrite Hlon', Hlon|].
  intros j x Hx. rewrite Hlon', Holon in Hx.
  assert (Hj : (j < 2 * half)%nat).
  { apply lookup_lt_Some in Hx. by rewrite Hl0 in Hx. }
  rewrite arange_lookup_Some in Hx by (by rewrite Hl0). injection Hx as <-.
  exists ((j + half) mod (2 * half))%nat. eexists.
  assert (Hj0 : ((j + half) mod (2 * half) < 2 * half)%nat)
    by (apply Nat.mod_upper_bound; lia).
  split.
  { rewrite Hlon, Holon. apply arange_lookup_Some. by rewrite Hl0. }
  split; [|intros t i; by apply Hval].
  destruct (decide (j < half)%nat) as [Hlt|Hge].
  - left. rewrite Nat.mod_small by lia.
    rewrite Nat2Z.inj_add, <- qz_add. rewrite <- Hhalf. ring.
  - right.
    replace (j + half)%nat with ((j - half) + 1 * (2 * half))%nat by lia.
    rewrite Nat.Div0.mod_add. rewrite Nat.mod_small by lia.
    assert (Ej : (qz (Z.of_nat j) = qz (Z.of_nat (j - half)) + qz (Z.of_nat half))%Qc).
    { rewrite qz_add. f_equal. lia. }
    rewrite Ej. rewrite <- Hhalf. ring.
Qed.

Lemma align_longitude_turns_0_360_source_witness :
  exists ds',
    FV.align_longitude (example_self ["CO"] [Single "co"] 2010 1 2010 12)
      example_source_0_360 = inr ds' /\
    FV.gd_lon ds' = FV.gd_lon example_source_0_360 /\
    forall (j : nat) (x : Qc),
      FV.gd_lon ds' !! j = Some x ->
      exists (j0 : nat) (x0 : Qc),
        FV.gd_lon example_source_0_360 !! j0 = Some x0 /\
        (x0 = (x + qz 180)%Qc \/ x0 = (x - qz 180)%Qc) /\
        forall t i, FV.gd_values ds' t i j = FV.gd_values example_source_0_360 t i j0.
Proof.
  apply (align_longitude_turns_0_360_source example_clock
           (example_args (Some ["CO"]) 2010 1 2010 12)
           (example_self ["CO"] [Single "co"] 2010 1 2010 12)
           example_source_0_360).
  - reflexivity.
  - reflexivity.
  - reflexivity.
Defined.

(** ** The values of the aggregated fields *)

Lemma Forall_zip_fst {B} (P : Z -> Prop) (l : list Z) (k : list B) :
  Forall P l -> Forall (fun p : Z * B => P p.1) (zip l k).
Proof.
  intros H. revert k. induction H as [|x l Hx _ IH]; intros [|y k]; try constructor.
  - done.
  - apply IH.
Qed.

Lemma filter_le_sorted_zip {B} (l : list Z) (k : list B) (b : nat) (hi : Z) :
  StronglySorted Z.lt l -> l !! b = Some hi ->
  filter (fun p : Z * B => p.1 <= hi) (zip l k) = take (S b) (zip l k).
Proof.
  intros Hs. revert k b.
  induction Hs as [|x l Hs IH Hall]; intros k b Hb; [done|].
  destruct k as [|y k]; [done|].
  change (zip (x :: l) (y :: k)) with ((x, y) :: zip l k).
  destruct b as [|b]; simpl in Hb.
  - injection Hb as ->. rewrite filter_cons_True by (simpl; lia).
    simpl. f_equal. rewrite take_0. apply filter_none.
    apply (Forall_zip_fst (fun t => ~ t <= hi)).
    eapply Forall_impl; [exact Hall|]. simpl. lia.
  - assert (x < hi).
    { rewrite Forall_forall in Hall. apply Hall. by eapply list_elem_of_lookup_2. }
    rewrite filter_cons_True by (simpl; lia). simpl. f_equal. by apply IH.
Qed.

Lemma filter_ge_sorted_zip {B} (l : list Z) (k : list B) (a : nat) (lo : Z) :
  StronglySorted Z.lt l -> l !! a = Some lo ->
  filter (fun p : Z * B => lo <= p.1) (zip l k) = drop a (zip l k).
Proof.
  intros Hs. revert k a.
  induction Hs as [|x l Hs IH Hall]; intros k a Ha; [done|].
  destruct k as [|y k]; [by destruct a|].
  change (zip (x :: l) (y :: k)) with ((x, y) :: zip l k).
  destruct a as [|a]; simpl in Ha.
  - injection Ha as ->. rewrite filter_cons_True by (simpl; lia).
    simpl. f_equal. apply filter_all.
    apply (Forall_zip_fst (fun t => lo <= t)).
    eapply Forall_impl; [exact Hall|]. simpl. lia.
  - assert (x < lo).
    { rewrite Forall_forall in Hall. apply Hall. by eapply list_elem_of_lookup_2. }
    rewrite filter_cons_False by (simpl; lia). simpl. by apply IH.
Qed.

Lemma filter_range_sorted_zip {B} (l : list Z) (k : list B) (a b : nat) (lo hi : Z) :
  StronglySorted Z.lt l -> (a <= b)%nat ->
  l !! a = Some lo -> l !! b = Some hi ->
  filter (fun p : Z * B => lo <= p.1 <= hi) (zip l k)
  = take (S (b - a)) (drop a (zip l k)).
Proof.
  intros Hs Hab Ha Hb.
  assert (E : drop a (zip l k) = zip (drop a l) (drop a k))
    by apply zip_with_drop.
  rewrite E.
  rewrite <- (filter_le_sorted_zip (drop a l) (drop a k) (b - a) hi).
  - rewrite <- E.
    rewrite <- (filter_ge_sorted_zip l k a lo) by done.
    rewrite list_filter_filter. apply list_filter_iff. intros t. lia.
  - by apply StronglySorted_drop.
  - rewrite lookup_drop. by replace (a + (b - a))%nat with b by lia.
Qed.

(** The time steps that the slice of [sum_up] selects, with their
    positions in the file. *)
Lemma sel_time_lookup (ds : FV.SectorDataset) (a b : nat) (lo hi : Z) :
  StronglySorted Z.lt (FV.sd_time ds) -> (a <= b)%nat ->
  FV.sd_time ds !! a = Some lo -> FV.sd_time ds !! b = Some hi ->
  length (FV.sel_time ds lo hi) = S (b - a) /\
  forall (k : nat) (label : Z) (p : nat),
    FV.sel_time ds lo hi !! k = Some (label, p) ->
    p = (a + k)%nat /\ FV.sd_time ds !! (a + k)%nat = Some label.
Proof.
  intros Hs Hab Ha Hb. unfold FV.sel_time.
  rewrite (filter_range_sorted_zip _ _ a b lo hi Hs Hab Ha Hb).
  apply lookup_lt_Some in Hb.
  split.
  - rewrite length_take, length_drop, length_zip, length_seq. lia.
  - intros k label p Hk.
    apply lookup_take_Some in Hk as [Hk _].
    rewrite lookup_drop in Hk.
    apply lookup_zip_with_Some in Hk as (x & y & [= -> ->] & Hx & Hy).
    apply lookup_seq in Hy as [-> _]. done.
Qed.

(** Within the twenty years of the file, each time step that [sum_up]
    writes carries the label of the file at its position, counted from
    the start index, and at each grid cell the sum over all sectors of the
    values of the file at that position. *)
Theorem sum_up_values (self : FV.t) (ds : FV.SectorDataset) :
  FV._source self = "CEDS" ->
  FV._download_method self = "globus" ->
  StronglySorted Z.lt (FV.sd_time ds) ->
  0 <= FV.period_start_index self ->
  FV.period_start_index self <= FV.period_end_index self ->
  FV.period_end_index self < Z.of_nat (length (FV.sd_time ds)) ->
  exists ts,
    FV.sum_up self ds = inr ts /\
    forall (k : nat) (label : Z) (f : nat -> nat -> Qc),
      ts !! k = Some (label, f) ->
      let p := (Z.to_nat (FV.period_start_index self) + k)%nat in
      FV.sd_time ds !! p = Some label /\
      forall i j,
        f i j = foldr Qcplus 0%Qc
                  ((fun s => FV.sd_values ds p s i j) <$> seq 0 (FV.sd_sectors ds)).
Proof.
  intros Hsrc Hdm Hs H0 Hle Hlt.
  destruct (index_nonneg (FV.sd_time ds) (FV.period_start_index self))
    as (lo & Elo & Hlo); [lia|].
  destruct (index_nonneg (FV.sd_time ds) (FV.period_end_index self))
    as (hi & Ehi & Hhi); [lia|].
  assert (Hab : (Z.to_nat (FV.period_start_index self)
                  <= Z.to_nat (FV.period_end_index self))%nat) by lia.
  unfold FV.sum_up. rewrite Hsrc, Hdm. simpl. rewrite Elo, Ehi. simpl.
  eexists. split; [reflexivity|].
  intros k label f Hk. cbv zeta.
  unfold FV.TimeSeries in *. rewrite list_lookup_fmap in Hk.
  destruct (FV.sel_time ds lo hi !! k) as [[label' p]|] eqn:Hsel; [|done].
  simpl in Hk. injection Hk as <- <-.
  destruct (sel_time_lookup ds _ _ lo hi Hs Hab Hlo Hhi) as [_ Hpos].
  destruct (Hpos k label' p Hsel) as [-> Hlabel].
  split; [exact Hlabel|]. intros i j. reflexivity.
Qed.

Lemma sum_up_values_witness :
  exists ts,
    FV.sum_up (example_self ["CO"] [Single "co"] 2010 6 2011 5) example_raw = inr ts /\
    forall (k : nat) (label : Z) (f : nat -> nat -> Qc),
      ts !! k = Some (label, f) ->
      let p := (Z.to_nat (FV.period_start_index
                            (example_self ["CO"] [Single "co"] 2010 6 2011 5)) + k)%nat in
      FV.sd_time example_raw !! p = Some label /\
      forall i j,
        f i j = foldr Qcplus 0%Qc
                  ((fun s => FV.sd_values example_raw p s i j)
                     <$> seq 0 (FV.sd_sectors example_raw)).
Proof.
  apply (sum_up_values (example_self ["CO"] [Single "co"] 2010 6 2011 5) example_raw).
  - reflexivity.
  - reflexivity.
  - apply (bool_decide_unpack _). vm_compute. exact I.
  - vm_compute. discriminate.
  - vm_compute. discriminate.
  - vm_compute. reflexivity.
Defined.

(** The file of one sector of sulfur dioxide has the time steps of the
    aggregated field, one for each position from the start index to the
    end index, and holds at each of them the values of that sector at
    that position of the file. *)
Theorem sum_up_sector_values (self : FV.t) (ds : FV.SectorDataset) (sector : nat) :
  FV._source self = "CEDS" ->
  FV._download_method self = "globus" ->
  StronglySorted Z.lt (FV.sd_time ds) ->
  0 <= FV.period_start_index self ->
  FV.period_start_index self <= FV.period_end_index self ->
  FV.period_end_index self < Z.of_nat (length (FV.sd_time ds)) ->
  exists ts ts_sector,
    FV.sum_up self ds = inr ts /\
    FV.sum_up_sector self ds sector = inr ts_sector /\
    ts_sector.*1 = ts.*1 /\
    Z.of_nat (length ts_sector)
      = FV.period_end_index self - FV.period_start_index self + 1 /\
    forall (k : nat) (label : Z) (f : nat -> nat -> Qc),
      ts_sector !! k = Some (label, f) ->
      forall i j,
        f i j = FV.sd_values ds (Z.to_nat (FV.period_start_index self) + k) sector i j.
Proof.
  intros Hsrc Hdm Hs H0 Hle Hlt.
  destruct (index_nonneg (FV.sd_time ds) (FV.period_start_index self))
    as (lo & Elo & Hlo); [lia|].
  destruct (index_nonneg (FV.sd_time ds) (FV.period_end_index self))
    as (hi & Ehi & Hhi); [lia|].
  assert (Hab : (Z.to_nat (FV.period_start_index self)
                  <= Z.to_nat (FV.period_end_index self))%nat) by lia.
  unfold FV.sum_up, FV.sum_up_sector. rewrite Hsrc, Hdm. simpl.
  rewrite Elo, Ehi. simpl.
  eexists _, _. split; [reflexivity|]. split; [reflexivity|].
  destruct (sel_time_lookup ds _ _ lo hi Hs Hab Hlo Hhi) as [Hlen Hpos].
  split; [by rewrite <- !list_fmap_compose|].
  split; [rewrite length_fmap, Hlen; lia|].
  intros k label f Hk.
  unfold FV.TimeSeries in *. rewrite list_lookup_fmap in Hk.
  destruct (FV.sel_time ds lo hi !! k) as [[label' p]|] eqn:Hsel; [|done].
  simpl in Hk. injection Hk as <- <-.
  destruct (Hpos k label' p Hsel) as [-> _].
  intros i j. reflexivity.
Qed.

Lemma sum_up_sector_values_witness :
  exists ts ts_sector,
    FV.sum_up (example_self ["SO2"] [Single "so2"] 2010 6 2011 5) example_raw = inr ts /\
    FV.sum_up_sector (example_self ["SO2"] [Single "so2"] 2010 6 2011 5) example_raw 7
      = inr ts_sector /\
    ts_sector.*1 = ts.*1 /\
    Z.of_nat (length ts_sector)
      = FV.period_end_index (example_self ["SO2"] [Single "so2"] 2010 6 2011 5)
        - FV.period_start_index (example_self ["SO2"] [Single "so2"] 2010 6 2011 5) + 1 /\
    forall (k : nat) (label : Z) (f : nat -> nat -> Qc),
      ts_sector !! k = Some (label, f) ->
      forall i j,
        f i j = FV.sd_values example_raw
                  (Z.to_nat (FV.period_start_index
                               (example_self ["SO2"] [Single "so2"] 2010 6 2011 5)) + k)
                  7 i j.
Proof.
  apply (sum_up_sector_values (example_self ["SO2"] [Single "so2"] 2010 6 2011 5)
           example_raw 7).
  - reflexivity.
  - reflexivity.
  - apply (bool_decide_unpack _). vm_compute. exact I.
  - vm_compute. discriminate.
  - vm_compute. discriminate.
  - vm_compute. reflexivity.
Defined.

Lemma index_error {A} (l : list A) (i : Z) (e : error) :
  Py.index l i = inl e -> e = IndexError.
Proof.
  unfold Py.index. cbv zeta. intros H.
  destruct (decide (0 <= _ < _)); [|by injection H].
  destruct (l !! _); [done|by injection H].
Qed.

(** A start or end index that is not a position of the time axis,
    counted from either end, makes [sum_up] raise [IndexError]: for a file
    of 240 months that is every start before January 1980. *)
Theorem sum_up_index_error (self : FV.t) (ds : FV.SectorDataset) :
  FV._source self = "CEDS" ->
  FV._download_method self = "globus" ->
  let n := Z.of_nat (length (FV.sd_time ds)) in
  (FV.period_start_index self < - n \/ n <= FV.period_start_index self \/
   FV.period_end_index self < - n \/ n <= FV.period_end_index self) ->
  FV.sum_up self ds = inl IndexError /\
  (n = 240 -> FV._start_year self < 1980 -> 1 <= FV._start_month self <= 12 ->
   FV.period_start_index self < - n).
Proof.
  intros Hsrc Hdm n Hout.
  split.
  - unfold FV.sum_up. rewrite Hsrc, Hdm. simpl.
    assert (Hidx : forall i, i < - n \/ n <= i ->
              Py.index (FV.sd_time ds) i = inl IndexError).
    { intros i Hi. unfold Py.index. cbv zeta. fold n.
      destruct (decide (i < 0)).
      - rewrite decide_False by lia. done.
      - rewrite decide_False by lia. done. }
    destruct Hout as [H|[H|H]].
    + by rewrite (Hidx _ (or_introl H)).
    + by rewrite (Hidx _ (or_intror H)).
    + destruct (Py.index (FV.sd_time ds) (FV.period_start_index self)) as [e|lo] eqn:E.
      * by rewrite (index_error _ _ _ E).
      * by rewrite (Hidx _ H).
  - intros Hn Hy Hm. unfold FV.period_start_index. rewrite Hn. lia.
Qed.

Lemma sum_up_index_error_witness :
  let n := Z.of_nat (length (FV.sd_time example_raw)) in
  FV.sum_up (example_self ["CO"] [Single "co"] 1979 1 1979 12) example_raw
    = inl IndexError /\
  (n = 240 ->
   FV._start_year (example_self ["CO"] [Single "co"] 1979 1 1979 12) < 1980 ->
   1 <= FV._start_month (example_self ["CO"] [Single "co"] 1979 1 1979 12) <= 12 ->
   FV.period_start_index (example_self ["CO"] [Single "co"] 1979 1 1979 12) < - n).
Proof.
  apply (sum_up_index_error (example_self ["CO"] [Single "co"] 1979 1 1979 12)
           example_raw).
  - reflexivity.
  - reflexivity.
  - left. vm_compute. reflexivity.
Defined.

(** ** The derived files of the stand-alone class *)

(** The turn of [Rename.rename] for CO writes the files of HCN and CH3CN
    with the factors [0.0055 * mw / 27] and [0.0025 * mw / 41]: the
    stand-alone class has other yields than [FV.rename], which takes
    0.003 and 0.002. *)
Theorem Rename_CO_writes_HCN_CH3CN (self : Rename.t) (date : string) (T D : list Z)
  (fs : gmap string Nc.Dataset) (s : string) (mw sf : Qc)
  (input_ds : Nc.Dataset) (inp : Nc.Field3) :
  Rename._timestep self = "monthly" ->
  fs !! Rename.input_filename self date s = Some input_ds ->
  has_field3 input_ds "emiss_anthro" inp ->
  mw <> 0%Qc ->
  exists fs' hcn ch3cn hcn_field ch3cn_field,
    Rename.rename_iter self date T D fs ("CO", Single s, mw, sf) = inr fs' /\
    fs' !! Rename.output_filename self date "HCN_anthro" = Some hcn /\
    fs' !! Rename.output_filename self date "CH3CN_anthro" = Some ch3cn /\
    Nc.time hcn = T /\ Nc.date hcn = D /\
    Nc.time ch3cn = T /\ Nc.date ch3cn = D /\
    has_field3 hcn "emiss_anthro" hcn_field /\
    has_field3 ch3cn "emiss_anthro" ch3cn_field /\
    forall t i j,
      hcn_field t i j
        = (inp t i j * (Transform.unit_factor / mw) * sf
           * (Q2Qc 0.0055 * mw / qz 27))%Qc /\
      hcn_field t i j
        = (inp t i j * Transform.unit_factor * sf * Q2Qc 0.0055 / qz 27)%Qc /\
      ch3cn_field t i j
        = (inp t i j * (Transform.unit_factor / mw) * sf
           * (Q2Qc 0.0025 * mw / qz 41))%Qc /\
      ch3cn_field t i j
        = (inp t i j * Transform.unit_factor * sf * Q2Qc 0.0025 / qz 41)%Qc.
Proof.
  intros Hts Hin Hinp Hmw.
  unfold Rename.rename_iter.
  destruct (write_output_single (Rename.input_filename self date)
              (Rename.output_filename self date) T D
              (fun sp x => Rename_input_ne_output self date sp x Hts)
              s "CO" mw sf fs input_ds inp Hin Hinp Hmw)
    as (fs1 & output & -> & Hout & Hf & Ht & Hd & _).
  cbn [mbind result_bind]. rewrite derived_blocks_CO.
  unfold Transform.CO_block. cbv zeta.
  destruct (derive_twice (Rename.output_filename self date)
              (Rename_output_filename_inj self date)
              false false ("CO" +:+ "_anthro") "HCN_anthro" "CH3CN_anthro"
              (Q2Qc 0.0055 * mw / qz 27)%Qc (Q2Qc 0.0025 * mw / qz 41)%Qc
              fs1 output _ ltac:(done) ltac:(done) ltac:(done) Hout Hf)
    as (fs2 & fs3 & ds1 & ds2 & -> & E2 & _ & H1 & H2 & Hf1 & Hf2 & [Ht1 Hd1] & [Ht2 Hd2] & _).
  cbn [mbind result_bind]. rewrite E2. cbn [mbind result_bind].
  rewrite decide_False by done. cbn [mbind result_bind mret result_ret].
  unfold Py.contains. rewrite bool_decide_eq_false_2.
  2:{ intros Hc. repeat (apply elem_of_cons in Hc as [Hc|Hc]; [done|]).
      by apply elem_of_nil in Hc. }
  cbn [mbind result_bind mret result_ret]. rewrite decide_False by done.
  eexists fs3, ds1, ds2, _, _. split; [done|].
  split; [done|]. split; [done|].
  split; [congruence|]. split; [congruence|].
  split; [congruence|]. split; [congruence|].
  split; [exact Hf1|]. split; [exact Hf2|].
  intros t i j. repeat split; try reflexivity; field; split; try done.
  all: intros E; apply (f_equal this) in E; vm_compute in E; discriminate E.
Qed.

Lemma Rename_CO_writes_HCN_CH3CN_witness :
  exists fs' hcn ch3cn hcn_field ch3cn_field,
    Rename.rename_iter (example_rename_self ["CO"] [Single "co"] [qz 28] [qz 1])
      "16" [3665] [20100116] (regridded_files self_CO "16" [("co", qz 2)])
      ("CO", Single "co", qz 28, qz 1) = inr fs' /\
    fs' !! Rename.output_filename
             (example_rename_self ["CO"] [Single "co"] [qz 28] [qz 1])
             "16" "HCN_anthro" = Some hcn /\
    fs' !! Rename.output_filename
             (example_rename_self ["CO"] [Single "co"] [qz 28] [qz 1])
             "16" "CH3CN_anthro" = Some ch3cn /\
    Nc.time hcn = [3665] /\ Nc.date hcn = [20100116] /\
    Nc.time ch3cn = [3665] /\ Nc.date ch3cn = [20100116] /\
    has_field3 hcn "emiss_anthro" hcn_field /\
    has_field3 ch3cn "emiss_anthro" ch3cn_field /\
    forall t i j,
      hcn_field t i j
        = (qz 2 * (Transform.unit_factor / qz 28) * qz 1
           * (Q2Qc 0.0055 * qz 28 / qz 27))%Qc /\
      hcn_field t i j
        = (qz 2 * Transform.unit_factor * qz 1 * Q2Qc 0.0055 / qz 27)%Qc /\
      ch3cn_field t i j
        = (qz 2 * (Transform.unit_factor / qz 28) * qz 1
           * (Q2Qc 0.0025 * qz 28 / qz 41))%Qc /\
      ch3cn_field t i j
        = (qz 2 * Transform.unit_factor * qz 1 * Q2Qc 0.0025 / qz 41)%Qc.
Proof.
  apply (Rename_CO_writes_HCN_CH3CN
           (example_rename_self ["CO"] [Single "co"] [qz 28] [qz 1])
           "16" [3665] [20100116] (regridded_files self_CO "16" [("co", qz 2)])
           "co" (qz 28) (qz 1) (constant_file (qz 2)) (fun _ _ _ => qz 2)).
  - reflexivity.
  - (vm_compute; reflexivity).
  - (eexists; vm_compute; reflexivity).
  - qc_ne0.
Defined.

(** The turn of [Rename.rename] for black carbon writes the particle
    number file as the converted field times
    [mw / mass_per_particle(1700, 0.134e-6)] and leaves its units as they
    were copied, molecules/cm2/s: only [FV.rename] sets the units of
    particle numbers. *)
Theorem Rename_bc_a4_number_file (self : Rename.t) (date : string) (T D : list Z)
  (fs : gmap string Nc.Dataset) (s : string) (mw sf : Qc)
  (input_ds : Nc.Dataset) (inp : Nc.Field3) :
  Rename._timestep self = "monthly" ->
  fs !! Rename.input_filename self date s = Some input_ds ->
  has_field3 input_ds "emiss_anthro" inp ->
  mw <> 0%Qc ->
  exists fs' num,
    Rename.rename_iter self date T D fs ("bc_a4", Single s, mw, sf) = inr fs' /\
    fs' !! Rename.output_filename self date "num_bc_a4_anthro" = Some num /\
    Nc.time num = T /\ Nc.date num = D /\
    Nc.variables num !! "emiss_anthro"
      = Some {| Nc.units := "molecules/cm2/s";
                Nc.data := Nc.D3 (fun t i j =>
                  (inp t i j * (Transform.unit_factor / mw) * sf
                   * (mw / Transform.mass_per_particle (qz 1700) (Q2Qc 0.134e-6)))%Qc) |}.
Proof.
  intros Hts Hin Hinp Hmw.
  unfold Rename.rename_iter.
  destruct (write_output_single_units (Rename.input_filename self date)
              (Rename.output_filename self date) T D
              s "bc_a4" mw sf fs input_ds inp
              (fun sp x => Rename_input_ne_output self date sp x Hts) Hin Hinp Hmw)
    as (fs1 & output & -> & Hout & Hv & Ht & Hd & _).
  cbn [mbind result_bind]. rewrite derived_blocks_bc_a4.
  unfold Transform.bc_a4_block. cbv zeta.
  destruct (derive_units false _
              (Rename.output_filename self date ("num_" +:+ "bc_a4" +:+ "_anthro"))
              (mw / Transform.mass_per_particle (qz 1700) (Q2Qc 0.134e-6))%Qc
              fs1 output _ _ Hout Hv)
    as (fs2 & num & -> & Hnum & Hnv & Htn & Hdn & Hrest).
  cbn [mbind result_bind]. rewrite decide_False by done.
  cbn [mbind result_bind mret result_ret].
  rewrite not_composite by done.
  cbn [mbind result_bind mret result_ret]. rewrite decide_False by done.
  eexists fs2, num. split; [done|].
  split; [exact Hnum|].
  split; [congruence|]. split; [congruence|]. exact Hnv.
Qed.

Lemma Rename_bc_a4_number_file_witness :
  exists fs' num,
    Rename.rename_iter (example_rename_self ["bc_a4"] [Single "bc"] [qz 12] [qz 1])
      "16" [3665] [20100116] (regridded_files self_CO "16" [("bc", qz 2)])
      ("bc_a4", Single "bc", qz 12, qz 1) = inr fs' /\
    fs' !! Rename.output_filename
             (example_rename_self ["bc_a4"] [Single "bc"] [qz 12] [qz 1])
             "16" "num_bc_a4_anthro" = Some num /\
    Nc.time num = [3665] /\ Nc.date num = [20100116] /\
    Nc.variables num !! "emiss_anthro"
      = Some {| Nc.units := "molecules/cm2/s";
                Nc.data := Nc.D3 (fun t i j =>
                  (qz 2 * (Transform.unit_factor / qz 12) * qz 1
                   * (qz 12 / Transform.mass_per_particle (qz 1700) (Q2Qc 0.134e-6)))%Qc) |}.
Proof.
  apply (Rename_bc_a4_number_file
           (example_rename_self ["bc_a4"] [Single "bc"] [qz 12] [qz 1])
           "16" [3665] [20100116] (regridded_files self_CO "16" [("bc", qz 2)])
           "bc" (qz 12) (qz 1) (constant_file (qz 2)) (fun _ _ _ => qz 2)).
  - reflexivity.
  - (vm_compute; reflexivity).
  - (eexists; vm_compute; reflexivity).
  - qc_ne0.
Defined.

(** ** From [__init__] to [sum_up] *)

(** The attributes that [FV.__init__] copies, and its bounds on the
    years of CEDS. *)
Lemma init_CEDS_fields clk a self :
  FV.init clk a = inr self ->
  FV.source a = "CEDS" ->
  FV._source self = "CEDS" /\
  FV._download_method self = default "wget" (FV.download_method a) /\
  FV._start_year self = FV.start_year a /\
  FV._end_year self = FV.end_year a /\
  FV._end_year self <= 2019 /\
  12 * FV._start_year self + FV._start_month self
    < 12 * FV._end_year self + FV._end_month self.
Proof.
  unfold FV.init. intros H Hceds.
  destruct (Py.contains (FV.source a) _); [|discriminate H].
  destruct (Py.contains (FV.target_resolution a) _); [|discriminate H].
  cbn [negb] in H.
  destruct (bool_decide (filter _ _ = [])); [|discriminate H].
  cbn [negb] in H.
  apply bind_inr in H as (sm & Hsm & H).
  rewrite decide_False in H by (rewrite Hceds; done).
  destruct (Py.contains (FV.version a) _); [|discriminate H].
  destruct (bool_decide (FV.original_resolution a = Some "0.5x0.5"));
    [|discriminate H].
  cbn [negb] in H.
  destruct (decide (FV.start_year a > FV.end_year a)) as [?|?]; [discriminate H|].
  destruct (decide (FV.start_year a < _)) as [?|?] in H; [discriminate H|].
  destruct (decide (FV.end_year a > 2019)) as [?|?]; [discriminate H|].
  destruct (decide (12 * _ + _ <= _)) as [?|?] in H; [discriminate H|].
  apply bind_inr in H as (sp & Hsp & H). injection H as <-. simpl.
  repeat split; (done || lia).
Qed.

(** A configuration that [FV.__init__] accepts for CEDS by globus, with a
    start year from 2000 on, a start month from January on and an end
    month up to December, lies within the 240 months of the file: on
    an opened file the slice and the sum of [sum_up] raise nothing and
    give as many time steps as the window has months. *)
Theorem init_then_sum_up clk a self (ds : FV.SectorDataset) :
  FV.init clk a = inr self ->
  FV.source a = "CEDS" ->
  FV.download_method a = Some "globus" ->
  2000 <= FV.start_year a ->
  1 <= FV._start_month self ->
  FV._end_month self <= 12 ->
  StronglySorted Z.lt (FV.sd_time ds) ->
  length (FV.sd_time ds) = 240%nat ->
  exists ts,
    FV.sum_up self ds = inr ts /\
    Z.of_nat (length ts)
      = (FV._end_year self - FV._start_year self) * 12
        + (FV._end_month self - FV._start_month self) + 1.
Proof.
  intros Hinit Hceds Hdm Hsy Hsm Hem Hs Hlen.
  destruct (init_CEDS_fields _ _ _ Hinit Hceds)
    as (Hsrc & Hdm' & Esy & Eey & Hey & Hwin).
  rewrite Hdm in Hdm'. simpl in Hdm'. rewrite <- Esy in Hsy.
  assert (H0 : 0 <= FV.period_start_index self)
    by (unfold FV.period_start_index; lia).
  assert (Hle : FV.period_start_index self <= FV.period_end_index self)
    by (unfold FV.period_start_index, FV.period_end_index; lia).
  assert (Hlt : FV.period_end_index self < Z.of_nat (length (FV.sd_time ds)))
    by (rewrite Hlen; unfold FV.period_end_index; lia).
  destruct (index_nonneg (FV.sd_time ds) (FV.period_start_index self))
    as (lo & Elo & Hlo); [lia|].
  destruct (index_nonneg (FV.sd_time ds) (FV.period_end_index self))
    as (hi & Ehi & Hhi); [lia|].
  assert (Hab : (Z.to_nat (FV.period_start_index self)
                  <= Z.to_nat (FV.period_end_index self))%nat) by lia.
  unfold FV.sum_up. rewrite Hsrc, Hdm'. simpl. rewrite Elo, Ehi. simpl.
  eexists. split; [reflexivity|].
  destruct (sel_time_lookup ds _ _ lo hi Hs Hab Hlo Hhi) as [Hn _].
  rewrite length_fmap, Hn.
  unfold FV.period_start_index, FV.period_end_index in *. lia.
Qed.

Lemma init_then_sum_up_witness :
  exists ts,
    FV.sum_up (example_self ["CO"] [Single "co"] 2010 6 2011 5) example_raw = inr ts /\
    Z.of_nat (length ts)
      = (FV._end_year (example_self ["CO"] [Single "co"] 2010 6 2011 5)
         - FV._start_year (example_self ["CO"] [Single "co"] 2010 6 2011 5)) * 12
        + (FV._end_month (example_self ["CO"] [Single "co"] 2010 6 2011 5)
           - FV._start_month (example_self ["CO"] [Single "co"] 2010 6 2011 5)) + 1.
Proof.
  apply (init_then_sum_up example_clock (example_args (Some ["CO"]) 2010 6 2011 5)
           (example_self ["CO"] [Single "co"] 2010 6 2011 5) example_raw).
  - reflexivity.
  - reflexivity.
  - reflexivity.
  - vm_compute. discriminate.
  - vm_compute. discriminate.
  - vm_compute. discriminate.
  - apply (bool_decide_unpack _). vm_compute. exact I.
  - vm_compute. reflexivity.
Defined.

(** ** The stand-alone [Sum] class *)

Lemma filter_nil_Forall {A} (P : A -> Prop) `{!forall x, Decision (P x)}
  (l : list A) :
  filter (fun x => ~ P x) l = [] -> Forall P l.
Proof.
  intros Hnil. apply Forall_forall. intros x Hx.
  destruct (decide (P x)) as [|Hn]; [done|].
  assert (x ∈ filter (fun x => ~ P x) l) as Hf by (by apply list_elem_of_filter).
  rewrite Hnil in Hf. by apply elem_of_nil in Hf.
Qed.

(** What [Sum.__init__] has checked when it returns: the source, the
    version and the resolution of the target, the years between 1750 and
    2020 in order, a window of two months or more, an input path that
    exists; and the list of variables it keeps is the request, each name
    a valid one, with the name of the model for each at the same
    position. *)
Theorem Sum_init_validates clk a self :
  Sum.init clk a = inr self ->
  Sum.source a = "CEDS" /\
  Sum.target_resolution a = "0.9x1.25" /\
  Sum.version a = "v2021-04-21" /\
  1750 <= Sum.start_year a /\
  Sum.start_year a <= Sum.end_year a /\
  Sum.end_year a <= 2020 /\
  Sum.input_path_exists a = true /\
  2 <= (Sum._end_year self - Sum._start_year self) * 12
       + (Sum._end_month self - Sum._start_month self) + 1 /\
  Sum._sourcedata_var_list self
    = default Sum.full_sourcedata_var_list (Sum.sourcedata_var_list a) /\
  Forall2 (fun source_var model_var =>
             source_var ∈ Sum.full_sourcedata_var_list /\
             Sum.model_mapping !! source_var = Some model_var)
    (Sum._sourcedata_var_list self) (Sum._model_var_list self).
Proof.
  unfold Sum.init. cbv zeta. intros H.
  destruct (bool_decide (filter _ _ = [])) eqn:Hinv; [|discriminate H].
  cbn [negb] in H. apply bool_decide_eq_true in Hinv.
  apply filter_nil_Forall in Hinv.
  apply bind_inr in H as (mvl & Hmvl & H).
  destruct (Py.contains (Sum.source a) _) eqn:Hsrc; [|discriminate H].
  destruct (Py.contains (Sum.target_resolution a) _) eqn:Htr; [|discriminate H].
  destruct (Py.contains (Sum.version a) _) eqn:Hv; [|discriminate H].
  cbn [negb] in H.
  apply bool_decide_eq_true in Hsrc, Htr, Hv.
  apply list_elem_of_singleton in Hsrc, Htr, Hv.
  destruct (decide (Sum.start_year a > Sum.end_year a)) as [?|?]; [discriminate H|].
  destruct (decide (Sum.start_year a < 1750)) as [?|?]; [discriminate H|].
  destruct (decide (Sum.end_year a > 2020)) as [?|?]; [discriminate H|].
  destruct (decide (12 * _ + _ <= _)) as [?|?] in H; [discriminate H|].
  destruct (Sum.input_path_exists a); [|discriminate H].
  cbn [negb] in H. injection H as <-. simpl.
  repeat (split; [done || lia|]).
  set (l := default Sum.full_sourcedata_var_list (Sum.sourcedata_var_list a)) in *.
  assert (Hall : filter (fun var => is_Some (Sum.model_mapping !! var)) l = l).
  { apply filter_all. eapply Forall_impl; [exact Hinv|].
    intros x Hx. unfold Sum.full_sourcedata_var_list in Hx.
    repeat (apply elem_of_cons in Hx as [->|Hx]; [by eexists|]).
    by apply elem_of_nil in Hx. }
  rewrite Hall in Hmvl.
  apply lookup_all_Forall2 in Hmvl.
  clear Hall. induction Hmvl as [|x y l' k Hxy _ IH]; [constructor|].
  apply Forall_cons in Hinv as [Hx Hl'].
  constructor; [done|]. by apply IH.
Qed.

Lemma Sum_init_validates_witness :
  Sum.source (example_sum_args 2010 2011) = "CEDS" /\
  Sum.target_resolution (example_sum_args 2010 2011) = "0.9x1.25" /\
  Sum.version (example_sum_args 2010 2011) = "v2021-04-21" /\
  1750 <= Sum.start_year (example_sum_args 2010 2011) /\
  Sum.start_year (example_sum_args 2010 2011)
    <= Sum.end_year (example_sum_args 2010 2011) /\
  Sum.end_year (example_sum_args 2010 2011) <= 2020 /\
  Sum.input_path_exists (example_sum_args 2010 2011) = true /\
  2 <= (Sum._end_year (example_sum_self 2010 2011)
        - Sum._start_year (example_sum_self 2010 2011)) * 12
       + (Sum._end_month (example_sum_self 2010 2011)
          - Sum._start_month (example_sum_self 2010 2011)) + 1 /\
  Sum._sourcedata_var_list (example_sum_self 2010 2011)
    = default Sum.full_sourcedata_var_list
        (Sum.sourcedata_var_list (example_sum_args 2010 2011)) /\
  Forall2 (fun source_var model_var =>
             source_var ∈ Sum.full_sourcedata_var_list /\
             Sum.model_mapping !! source_var = Some model_var)
    (Sum._sourcedata_var_list (example_sum_self 2010 2011))
    (Sum._model_var_list (example_sum_self 2010 2011)).
Proof.
  apply (Sum_init_validates example_clock (example_sum_args 2010 2011)
           (example_sum_self 2010 2011)).
  reflexivity.
Defined.

Lemma Sum_init_end_year clk a self :
  Sum.init clk a = inr self -> Sum._end_year self = Sum.end_year a.
Proof.
  unfold Sum.init. cbv zeta. intros H.
  destruct (bool_decide (filter _ _ = [])); [|discriminate H].
  cbn [negb] in H.
  apply bind_inr in H as (mvl & Hmvl & H).
  repeat (match type of H with
          | (if ?b then _ else _) = inr _ => destruct b; try discriminate H
          end).
  cbn [negb] in H. by injection H as <-.
Qed.

(** [Sum.__init__] accepts the end year 2020, one more than
    [FV.__init__] does; the file ends in December 2019, so for every
    accepted window that ends in a month of 2020 [Sum.sum_up] raises
    [IndexError]. *)
Theorem Sum_end_year_2020_IndexError clk a self (ds : FV.SectorDataset) :
  Sum.init clk a = inr self ->
  Sum.end_year a = 2020 ->
  1 <= Sum._end_month self ->
  length (FV.sd_time ds) = 240%nat ->
  Sum.sum_up self ds = inl IndexError.
Proof.
  intros H Hey Hem Hlen.
  rewrite <- (Sum_init_end_year _ _ _ H) in Hey.
  unfold Sum.sum_up.
  assert (Hend : Py.index (FV.sd_time ds) (Sum.period_end_index self)
                 = inl IndexError).
  { unfold Sum.period_end_index, Py.index. cbv zeta.
    rewrite Hlen, Hey.
    rewrite (decide_False (P := _ < 0)) by lia.
    rewrite decide_False by lia. done. }
  destruct (Py.index (FV.sd_time ds) (Sum.period_start_index self))
    as [e|lo] eqn:E.
  - by rewrite (index_error _ _ _ E).
  - cbn [mbind result_bind]. by rewrite Hend.
Qed.

Lemma Sum_end_year_2020_IndexError_witness :
  Sum.sum_up (example_sum_self 2019 2020) example_raw = inl IndexError.
Proof.
  apply (Sum_end_year_2020_IndexError example_clock (example_sum_args 2019 2020)
           (example_sum_self 2019 2020) example_raw).
  - reflexivity.
  - reflexivity.
  - vm_compute. discriminate.
  - vm_compute. reflexivity.
Defined.

(** ** A child of IVOC whose output file is missing *)

Lemma add_outputs_missing (renamed : string -> string)
  (sub_mw_mapping : gmap string Qc) (l1 l2 : list string) (c : string)
  (mw sf : Qc) (fs : gmap string Nc.Dataset)
  (child_out : string -> Nc.Field3) :
  mw <> 0%Qc ->
  (forall c', c' ∈ l1 ->
     is_Some (sub_mw_mapping !! c') /\
     exists ds, fs !! renamed (c' +:+ "_anthro") = Some ds /\
       has_field3 ds Transform._var_name (child_out c')) ->
  is_Some (sub_mw_mapping !! c) ->
  fs !! renamed (c +:+ "_anthro") = None ->
  forall output acc,
  has_field3 output Transform._var_name acc ->
  Transform.add_outputs renamed sub_mw_mapping (Multi (l1 ++ c :: l2)) mw sf fs
    output = inl (FileNotFoundError (renamed (c +:+ "_anthro"))).
Proof.
  intros Hmw Hl1 [m Hc] Hnone. unfold Transform.add_outputs. simpl.
  induction l1 as [|c' l1 IH]; intros output acc Hacc.
  - simpl. unfold Py.getitem, open_dataset. rewrite Hc, Hnone. done.
  - destruct (Hl1 c') as ([m' Hc'] & ds & Hds & Hf); [by left|].
    simpl. unfold Py.getitem, open_dataset. rewrite Hc', Hds. simpl.
    rewrite (values3_has _ _ _ Hf). simpl.
    rewrite (div_ne0 _ _ Hmw). simpl.
    edestruct (iadd3_has output) as (output1 & -> & Hf1 & _); [exact Hacc|].
    simpl. eapply IH; [|exact Hf1].
    intros c'' Hc''. apply Hl1. by right.
Qed.

(** The turn of [FV.rename] for IVOC reads the children in the order of
    the list; when the output files of the first children are there and
    the one of the next child is not, it raises [FileNotFoundError] for
    the output file of that child, whatever regridded files there are. *)
Theorem rename_IVOC_missing_child (self : FV.t) (renamed_path : string)
  (mw_mapping : gmap string Qc) (date : string) (T D : list Z)
  (fs : gmap string Nc.Dataset) (mw sf : Qc)
  (l1 l2 : list string) (c : string) (child_out : string -> Nc.Field3) :
  IVOC_children = l1 ++ c :: l2 ->
  mw <> 0%Qc ->
  (forall c', c' ∈ l1 ->
     is_Some (mw_mapping !! c') /\
     exists ds,
       fs !! FV.renamed_filename self renamed_path date (c' +:+ "_anthro")
         = Some ds /\
       has_field3 ds "emiss_anthro" (child_out c')) ->
  is_Some (mw_mapping !! c) ->
  fs !! FV.renamed_filename self renamed_path date (c +:+ "_anthro") = None ->
  FV.rename_iter self renamed_path mw_mapping date T D fs
    (Multi IVOC_children, "IVOC", mw, sf)
  = inl (FileNotFoundError
           (FV.renamed_filename self renamed_path date (c +:+ "_anthro"))).
Proof.
  intros Hsplit Hmw Hl1 Hc Hnone.
  assert (Hne : forall c', c' ∈ IVOC_children ->
            FV.renamed_filename self renamed_path date (c' +:+ "_anthro")
            <> FV.renamed_filename self renamed_path date ("IVOC" +:+ "_anthro")).
  { intros c' Hc' E. apply renamed_filename_inj in E.
    apply string_app_inj_2 in E as [-> _]; [|done].
    revert Hc'. clear. unfold IVOC_children. intros Hc'.
    repeat (apply elem_of_cons in Hc' as [Hc'|Hc']; [discriminate Hc'|]).
    by apply elem_of_nil in Hc'. }
  unfold FV.rename_iter. rewrite decide_False by done.
  destruct (write_output_multi (FV.regridded_filename self date)
              (FV.renamed_filename self renamed_path date) T D
              IVOC_children "IVOC" mw sf fs)
    as (fs1 & output & -> & Hout & Hf & Ht & Hd & Hrest).
  cbn [mbind result_bind].
  change (Transform.derived_blocks _ _ _ _ "IVOC" mw fs1) with (inr fs1 : result _).
  cbn [mbind result_bind].
  change (Py.contains "IVOC" ["BIGALK"; "XYLENES"]) with false.
  cbn [mbind result_bind mret result_ret].
  rewrite decide_True by done.
  unfold modify, open_dataset. rewrite Hout.
  cbn [mbind result_bind mret result_ret].
  rewrite Hsplit.
  rewrite (add_outputs_missing (FV.renamed_filename self renamed_path date)
             mw_mapping l1 l2 c mw sf fs1 child_out Hmw) with (acc := Nc.zeros3);
    [done| |exact Hc| |exact Hf].
  - intros c' Hc'. destruct (Hl1 c' Hc') as (? & ds & Hds & ?).
    split; [done|]. exists ds. split; [|done].
    rewrite Hrest; [done|]. apply Hne. rewrite Hsplit.
    apply elem_of_app. by left.
  - rewrite Hrest; [done|]. apply Hne. rewrite Hsplit.
    apply elem_of_app. right. by left.
Qed.

Lemma rename_IVOC_missing_child_witness :
  FV.rename_iter self_IVOC "out/" default_mw_mapping "16" [3665] [20100116]
    (renamed_files self_IVOC "out/" "16" [("C3H6", qz 1); ("C3H8", qz 2)])
    (Multi IVOC_children, "IVOC", qz 184, Q2Qc 0.2)
  = inl (FileNotFoundError
           (FV.renamed_filename self_IVOC "out/" "16" ("C2H6" +:+ "_anthro"))).
Proof.
  apply (rename_IVOC_missing_child self_IVOC "out/" default_mw_mapping "16"
           [3665] [20100116]
           (renamed_files self_IVOC "out/" "16" [("C3H6", qz 1); ("C3H8", qz 2)])
           (qz 184) (Q2Qc 0.2) ["C3H6"; "C3H8"]
           ["C2H4"; "BIGENE"; "BIGALK"; "CH3COCH3"; "MEK"; "CH3CHO"; "CH2O";
            "BENZENE"; "TOLUENE"; "XYLENES"]
           "C2H6" (constant_fields [("C3H6", qz 1); ("C3H8", qz 2)])).
  - reflexivity.
  - qc_ne0.
  - intros c Hc.
    each_child Hc ltac:(
      split; [eexists; vm_compute; reflexivity|];
      eexists; split; [vm_compute; reflexivity|];
      eexists; vm_compute; reflexivity).
  - eexists. vm_compute. reflexivity.
  - vm_compute. reflexivity.
Defined.

(** ** The whole loop of [FV.rename] *)

(** One turn for a single-name variable other than SO2, with the units
    of the output. *)
Lemma rename_iter_single (self : FV.t) (renamed_path : string)
  (mw_mapping : gmap string Qc) (date : string) (T D : list Z)
  (fs : gmap string Nc.Dataset) (model_var s : string) (mw sf : Qc)
  (input_ds : Nc.Dataset) (inp : Nc.Field3) :
  species_mapping !! model_var = Some (Single s) ->
  model_var <> "SO2" ->
  fs !! FV.regridded_filename self date s = Some input_ds ->
  has_field3 input_ds "emiss_anthro" inp ->
  mw <> 0%Qc ->
  exists fs',
    FV.rename_iter self renamed_path mw_mapping date T D fs
      (Single s, model_var, mw, sf) = inr fs' /\
    file_has3 fs' T D
      (FV.renamed_filename self renamed_path date (model_var +:+ "_anthro"))
      "emiss_anthro" "molecules/cm2/s"
      (fun t i j => (inp t i j * (Transform.unit_factor / mw) * sf)%Qc).
Proof.
  intros Hsp Hso2 Hin Hinp Hmw.
  destruct (single_not_composite _ _ Hsp) as [Hcomp Hivoc].
  unfold FV.rename_iter. rewrite decide_False by done.
  destruct (write_output_single_units (FV.regridded_filename self date)
              (FV.renamed_filename self renamed_path date) T D
              s model_var mw sf fs input_ds inp
              (regridded_ne_renamed self renamed_path date) Hin Hinp Hmw)
    as (fs1 & output & -> & Hout & Hv & Ht & Hd & _).
  cbn [mbind result_bind].
  destruct (derived_blocks_keep (FV.renamed_filename self renamed_path date)
              T D (renamed_filename_inj self renamed_path date)
              true (Q2Qc 0.003) (Q2Qc 0.002) model_var mw fs1 output _
              Hout ltac:(by eexists) Ht Hd)
    as (fs2 & -> & Hout2 & _).
  cbn [mbind result_bind]. rewrite Hcomp.
  cbn [mbind result_bind mret result_ret]. rewrite decide_False by done.
  exists fs2. split; [done|].
  exists output. eexists. split; [exact Hout2|].
  split; [exact Ht|]. split; [exact Hd|]. split; [exact Hv|]. done.
Qed.

(** A loop that establishes, turn by turn, a property of the items
    processed so far. *)
Lemma for_each_prefix {A St} (l : list A) (body : St -> A -> result St)
  (Inv : list A -> St -> Prop) :
  (forall pre x post st,
     l = pre ++ x :: post -> Inv pre st ->
     exists st', body st x = inr st' /\ Inv (pre ++ [x]) st') ->
  forall st, Inv [] st ->
  exists st', for_each l body st = inr st' /\ Inv l st'.
Proof.
  intros Hbody.
  assert (H : forall post pre st,
            l = pre ++ post -> Inv pre st ->
            exists st', for_each post body st = inr st' /\ Inv l st').
  { induction post as [|x post IH]; intros pre st Hl Hinv.
    - rewrite app_nil_r in Hl. subst pre. by exists st.
    - destruct (Hbody pre x post st Hl Hinv) as (st1 & E1 & Hinv1).
      destruct (IH (pre ++ [x]) st1) as (st' & E & Hinv').
      { by rewrite <- app_assoc. }
      { exact Hinv1. }
      exists st'. split; [|done]. simpl. by rewrite E1. }
  intros st Hinv. by apply (H l [] st).
Qed.

Lemma zip4_Forall {A B C E} (R1 : B -> A -> Prop) (R2 : B -> C -> Prop)
  (R3 : B -> E -> Prop) (a : list A) (b : list B) (c : list C) (d : list E) :
  Forall2 R1 b a -> Forall2 R2 b c -> Forall2 R3 b d ->
  Forall (fun item : A * B * C * E =>
            let '(x, y, z, w) := item in R1 y x /\ R2 y z /\ R3 y w)
    (Py.zip4 a b c d).
Proof.
  intros H1. revert c d.
  induction H1 as [|y x b a Hyx _ IH]; intros c d H2 H3.
  - constructor.
  - inversion H2 as [|? z ? c' Hyz H2']; subst.
    inversion H3 as [|? w ? d' Hyw H3']; subst.
    simpl. constructor; [done|]. by apply IH.
Qed.

(** The output file of a variable is not among the files that the turn
    of another variable writes. *)
Lemma output_not_in_other_stems (v v' : string) :
  v ∈ full_model_var_list -> v' ∈ full_model_var_list -> v <> v' ->
  v' +:+ "_anthro" ∉ output_stems v.
Proof.
  intros Hv Hv' Hne.
  assert (H : Forall (fun v => Forall (fun v' =>
                 v = v' \/ v' +:+ "_anthro" ∉ output_stems v)
               full_model_var_list) full_model_var_list).
  { apply (bool_decide_unpack _). vm_compute. exact I. }
  rewrite Forall_forall in H. specialize (H v Hv).
  rewrite Forall_forall in H. by destruct (H v' Hv').
Qed.

Lemma species_mapping_valid (v : string) (sp : Species) :
  species_mapping !! v = Some sp -> v ∈ full_model_var_list.
Proof.
  intros H. apply elem_of_list_to_map_2 in H.
  repeat (apply elem_of_cons in H as [[= -> _]|H]; [in_list|]).
  by apply elem_of_nil in H.
Qed.

Lemma default_mw_ne0 (v : string) (mw : Qc) :
  default_mw_mapping !! v = Some mw -> mw <> 0%Qc.
Proof.
  intros H. apply elem_of_list_to_map_2 in H.
  repeat (apply elem_of_cons in H as [[= _ ->]|H]; [qc_ne0|]).
  by apply elem_of_nil in H.
Qed.

Lemma default_tables_total (l : list string) :
  Forall (fun v => v ∈ full_model_var_list) l ->
  Forall (fun v => is_Some (default_mw_mapping !! v)) l /\
  Forall (fun v => is_Some (default_sf_mapping !! v)) l.
Proof.
  intros H.
  assert (Hall : Forall (fun v => is_Some (default_mw_mapping !! v) /\
                                  is_Some (default_sf_mapping !! v))
                   full_model_var_list).
  { apply (bool_decide_unpack _). vm_compute. exact I. }
  rewrite Forall_forall in Hall.
  split; (eapply Forall_impl; [exact H|]); intros v Hv; by destruct (Hall v Hv).
Qed.

Lemma zip4_elem_of {A B C E} (R1 : B -> A -> Prop) (R2 : B -> C -> Prop)
  (R3 : B -> E -> Prop) (a : list A) (b : list B) (c : list C) (d : list E)
  (y : B) :
  Forall2 R1 b a -> Forall2 R2 b c -> Forall2 R3 b d -> y ∈ b ->
  exists x z w, (x, y, z, w) ∈ Py.zip4 a b c d.
Proof.
  intros H1. revert c d.
  induction H1 as [|y' x b a Hyx _ IH]; intros c d H2 H3 Hy.
  - by apply elem_of_nil in Hy.
  - inversion H2 as [|? z ? c' Hyz H2']; subst.
    inversion H3 as [|? w ? d' Hyw H3']; subst.
    apply elem_of_cons in Hy as [->|Hy].
    + exists x, z, w. simpl. by left.
    + destruct (IH c' d' H2' H3' Hy) as (x0 & z0 & w0 & Hin).
      exists x0, z0, w0. simpl. by right.
Qed.

Lemma new_time_values_total (source : string) (sy ey : Z) :
  source = "CAMS-GLOB-ANT" \/ source = "CEDS" ->
  Transform.new_time_values source sy ey
  = inr (anchor_date source, calendar_months sy ey (anchor_day source)).
Proof.
  intros Hsrc.
  destruct (Transform.new_time_values source sy ey) as [e|[date dates]] eqn:E.
  - exfalso. unfold Transform.new_time_values in E.
    destruct Hsrc as [-> | ->]; discriminate E.
  - rewrite (new_time_values_date _ _ _ _ _ E).
    by rewrite (new_time_values_calendar _ _ _ _ _ E).
Qed.

Lemma file_has3_eq (fs fs' : gmap string Nc.Dataset) T D path name u g :
  fs' !! path = fs !! path ->
  file_has3 fs T D path name u g -> file_has3 fs' T D path name u g.
Proof.
  intros E (ds & g' & H & ?). exists ds, g'. by rewrite E.
Qed.

(** For a configuration of single-name variables other than SO2, each
    paired with its own species, whose regridded files are all there,
    [FV.rename] with the default tables runs to completion, and the
    output file of every variable holds, on the new time axis, the
    regridded field times [unit_factor / mw * sf] with the molecular
    weight and scale factor of the tables; the regridded files are as
    they were. *)
Theorem rename_single_variables (self : FV.t) (renamed_path : string)
  (fs : gmap string Nc.Dataset) (inp : string -> Nc.Field3) :
  FV._source self = "CAMS-GLOB-ANT" \/ FV._source self = "CEDS" ->
  Forall2 (fun model_var species =>
             exists s, species = Single s /\ model_var <> "SO2" /\
               species_mapping !! model_var = Some (Single s) /\
               exists input_ds,
                 fs !! FV.regridded_filename self
                         (anchor_date (FV._source self)) s = Some input_ds /\
                 has_field3 input_ds "emiss_anthro" (inp s))
    (FV._model_var_list self) (FV._species_mapping self) ->
  let date := anchor_date (FV._source self) in
  let months :=
    calendar_months (FV._start_year self) (FV._end_year self)
      (anchor_day (FV._source self)) in
  exists fs',
    FV.rename self renamed_path None None fs = inr fs' /\
    (forall species,
       fs' !! FV.regridded_filename self date species
       = fs !! FV.regridded_filename self date species) /\
    forall model_var s,
      model_var ∈ FV._model_var_list self ->
      species_mapping !! model_var = Some (Single s) ->
      exists mw sf,
        default_mw_mapping !! model_var = Some mw /\
        default_sf_mapping !! model_var = Some sf /\
        file_has3 fs' (Cal.date2num <$> months) (Cal.strftime_int <$> months)
          (FV.renamed_filename self renamed_path date (model_var +:+ "_anthro"))
          "emiss_anthro" "molecules/cm2/s"
          (fun t i j => (inp s t i j * (Transform.unit_factor / mw) * sf)%Qc).
Proof.
  intros Hsrc Hcfg. cbv zeta.
  set (date := anchor_date (FV._source self)) in *.
  set (months := calendar_months _ _ _).
  set (T := Cal.date2num <$> months). set (D := Cal.strftime_int <$> months).
  assert (Hvalid : Forall (fun v => v ∈ full_model_var_list) (FV._model_var_list self)).
  { apply Forall_forall. intros v Hv.
    apply list_elem_of_lookup in Hv as [i Hi].
    destruct (Forall2_lookup_l _ _ _ _ _ Hcfg Hi) as (sp & _ & s & _ & _ & Hsp & _).
    by eapply species_mapping_valid. }
  destruct (default_tables_total _ Hvalid) as [Hmw Hsf].
  destruct (lookup_all_total _ _ Hmw) as [mw_list Emw].
  destruct (lookup_all_total _ _ Hsf) as [sf_list Esf].
  unfold FV.rename. cbv zeta. cbn [default from_option id].
  rewrite Emw. cbn [mbind result_bind]. rewrite Esf. cbn [mbind result_bind].
  rewrite (new_time_values_total _ _ _ Hsrc). cbn [mbind result_bind].
  fold date months T D.
  apply lookup_all_Forall2 in Emw, Esf.
  pose proof (zip4_Forall _ _ _ _ _ _ _ Hcfg Emw Esf) as Hitems.
  set (items := Py.zip4 (FV._species_mapping self) (FV._model_var_list self)
                  mw_list sf_list) in *.
  set (done_ := fun (item : Species * string * Qc * Qc)
                   (fs0 : gmap string Nc.Dataset) =>
         let '(sp, v, mw, sf) := item in
         forall s, species_mapping !! v = Some (Single s) ->
           file_has3 fs0 T D
             (FV.renamed_filename self renamed_path date (v +:+ "_anthro"))
             "emiss_anthro" "molecules/cm2/s"
             (fun t i j => (inp s t i j * (Transform.unit_factor / mw) * sf)%Qc)).
  destruct (for_each_prefix items
              (FV.rename_iter self renamed_path default_mw_mapping date T D)
              (fun pre fs0 =>
                 (forall species,
                    fs0 !! FV.regridded_filename self date species
                    = fs !! FV.regridded_filename self date species) /\
                 forall item, item ∈ pre -> done_ item fs0))
    with (st := fs) as (fs' & E & Hreg & Hdone).
  - intros pre [[[sp v] mw] sf] post fs0 Hsplit [Hreg Hdone].
    assert (Hx : (sp, v, mw, sf) ∈ items).
    { rewrite Hsplit. apply elem_of_app. right. by left. }
    rewrite Forall_forall in Hitems.
    destruct (Hitems _ Hx) as ((s & -> & Hso2 & Hsp & ds & Hds & Hf) & Hvmw & Hvsf).
    rewrite <- Hreg in Hds.
    destruct (rename_iter_single self renamed_path default_mw_mapping date T D
                fs0 v s mw sf ds (inp s) Hsp Hso2 Hds Hf (default_mw_ne0 _ _ Hvmw))
      as (fs1 & E1 & Hnew).
    exists fs1. split; [exact E1|].
    pose proof (rename_iter_frame _ _ _ _ _ _ _ _ _ _ _ _ E1) as Hframe.
    split.
    + intros species. rewrite <- Hreg. apply Hframe.
      intros (stem & Hstem & Epath).
      by eapply regridded_ne_output_stems.
    + intros [[[sp' v'] mw'] sf'] Hin. unfold done_. intros s' Hsp'.
      apply elem_of_app in Hin as [Hin|Hin].
      * assert (Hx' : (sp', v', mw', sf') ∈ items).
        { rewrite Hsplit. apply elem_of_app. by left. }
        destruct (Hitems _ Hx') as (_ & Hvmw' & Hvsf').
        destruct (decide (v = v')) as [<-|Hne].
        -- rewrite Hsp in Hsp'. injection Hsp' as <-.
           rewrite Hvmw in Hvmw'. injection Hvmw' as <-.
           rewrite Hvsf in Hvsf'. injection Hvsf' as <-.
           exact Hnew.
        -- eapply file_has3_eq; [|exact (Hdone _ Hin s' Hsp')].
           apply Hframe. intros (stem & Hstem & Epath).
           apply renamed_filename_inj in Epath. subst stem.
           revert Hstem. apply output_not_in_other_stems; [|by eapply species_mapping_valid|done].
           by eapply species_mapping_valid.
      * apply list_elem_of_singleton in Hin. injection Hin as -> -> -> ->.
        rewrite Hsp in Hsp'. injection Hsp' as <-. exact Hnew.
  - split; [done|]. intros item Hin. by apply elem_of_nil in Hin.
  - exists fs'. split; [exact E|]. split; [exact Hreg|].
    intros v s Hv Hsp.
    destruct (zip4_elem_of _ _ _ _ _ _ _ v Hcfg Emw Esf Hv) as (sp & mw & sf & Hin).
    rewrite Forall_forall in Hitems.
    destruct (Hitems _ Hin) as (_ & Hvmw & Hvsf).
    exists mw, sf. split; [exact Hvmw|]. split; [exact Hvsf|].
    exact (Hdone _ Hin s Hsp).
Qed.

Lemma rename_single_variables_witness :
  let self := example_self ["CO"; "NO"] [Single "co"; Single "nox"] 2010 1 2010 12 in
  let fs := regridded_files self "16" [("co", qz 2); ("nox", qz 3)] in
  let inp := constant_fields [("co", qz 2); ("nox", qz 3)] in
  let date := anchor_date (FV._source self) in
  let months :=
    calendar_months (FV._start_year self) (FV._end_year self)
      (anchor_day (FV._source self)) in
  exists fs',
    FV.rename self "out/" None None fs = inr fs' /\
    (forall species,
       fs' !! FV.regridded_filename self date species
       = fs !! FV.regridded_filename self date species) /\
    forall model_var s,
      model_var ∈ FV._model_var_list self ->
      species_mapping !! model_var = Some (Single s) ->
      exists mw sf,
        default_mw_mapping !! model_var = Some mw /\
        default_sf_mapping !! model_var = Some sf /\
        file_has3 fs' (Cal.date2num <$> months) (Cal.strftime_int <$> months)
          (FV.renamed_filename self "out/" date (model_var +:+ "_anthro"))
          "emiss_anthro" "molecules/cm2/s"
          (fun t i j => (inp s t i j * (Transform.unit_factor / mw) * sf)%Qc).
Proof.
  apply (rename_single_variables
           (example_self ["CO"; "NO"] [Single "co"; Single "nox"] 2010 1 2010 12)
           "out/"
           (regridded_files
              (example_self ["CO"; "NO"] [Single "co"; Single "nox"] 2010 1 2010 12)
              "16" [("co", qz 2); ("nox", qz 3)])
           (constant_fields [("co", qz 2); ("nox", qz 3)])).
  - right. reflexivity.
  - repeat constructor.
    + exists "co". split; [reflexivity|]. split; [discriminate|].
      split; [vm_compute; reflexivity|].
      eexists. split; [vm_compute; reflexivity|].
      eexists. vm_compute. reflexivity.
    + exists "nox". split; [reflexivity|]. split; [discriminate|].
      split; [vm_compute; reflexivity|].
      eexists. split; [vm_compute; reflexivity|].
      eexists. vm_compute. reflexivity.
Defined.
